(** * RAG chat service: a shallow embedding of the prompt library
      ([utils/prompts.py]), the generation service
      ([utils/vertex_service.py]) and the HTTP handlers ([main.py]),
      with the properties of the specification checked against them. *)

From Stdlib Require Import ZArith QArith.QArith_base Ascii String List Bool Lia.
From stdpp Require Import gmap strings list.

Local Open Scope Z_scope.

(** ** Python values

    A Python [str] is a [string]; each [ascii] stands for one character.
    A Python [int] is a [Z].  The text of an exception ([str(e)]) is a
    [string]. *)

Module Py.

Definition nl : string := String "010"%char EmptyString.

(** [bool(s)] for a [str]. *)
Definition truthy (s : string) : bool :=
  match s with
  | EmptyString => false
  | String _ _ => true
  end.

(** [bool(l)] for a [list]. *)
Definition nonempty {A} (l : list A) : bool :=
  match l with
  | [] => false
  | _ :: _ => true
  end.

Definition len (s : string) : Z := Z.of_nat (String.length s).

(** Position denoted by a slice bound [i] in a sequence of length
    [n]: negative bounds count from the end, and every bound is
    clipped to [0..n]. *)
Definition slice_index (n i : Z) : nat :=
  Z.to_nat (if i <? 0 then Z.max 0 (n + i) else Z.min i n).

(** [s[:stop]] *)
Definition str_slice_to (s : string) (stop : Z) : string :=
  String.substring 0 (slice_index (len s) stop) s.

(** [l[start:]] *)
Definition list_slice_from {A} (l : list A) (start : Z) : list A :=
  drop (slice_index (Z.of_nat (length l)) start) l.

(** [sep.join(parts)] *)
Definition join (sep : string) (parts : list string) : string :=
  String.concat sep parts.

(** [c.isspace()] on the characters below 256. *)
Definition isspace (c : ascii) : bool :=
  let n := nat_of_ascii c in
  ((9 <=? n) && (n <=? 13) || (28 <=? n) && (n <=? 31)
   || (n =? 32) || (n =? 133) || (n =? 160))%nat.

Fixpoint lstrip (s : string) : string :=
  match s with
  | EmptyString => EmptyString
  | String c s' => if isspace c then lstrip s' else s
  end.

Definition rstrip (s : string) : string :=
  String.rev (lstrip (String.rev s)).

(** [s.strip()] *)
Definition strip (s : string) : string := rstrip (lstrip s).

(** [needle in s] *)
Fixpoint str_in (needle s : string) : bool :=
  String.prefix needle s
  || match s with
     | EmptyString => false
     | String _ s' => str_in needle s'
     end.

(** [a or b] where [a] is an optional [str]: [None] and [""] are
    both falsy. *)
Definition or_else (a : option string) (b : string) : string :=
  match a with
  | Some s => if truthy s then s else b
  | None => b
  end.

(** [a % b] on [int]: the sign of the result is that of [b], as for
    [Z.modulo]; raises [ZeroDivisionError] when [b = 0]. *)
Definition int_mod (a b : Z) : string + Z :=
  if b =? 0 then inl "integer modulo by zero" else inr (a mod b).

End Py.

(** ** [utils/prompts.py] *)

Module RAGPrompts.

Definition get_rag_chat_prompt_parts
    (user_message rag_context conversation_context : string)
  : list string :=
  [ "You are a helpful AI assistant with access to a knowledge base.";
    "Use the provided context to answer questions accurately and comprehensively.";
    "If the context doesn't contain relevant information, clearly state this and provide a helpful response based on your general knowledge.";
    "" ]
  ++ (if Py.truthy conversation_context
      then [ "CONVERSATION HISTORY:"; conversation_context; "" ]
      else [])
  ++ (if Py.truthy rag_context
      then [ "KNOWLEDGE BASE CONTEXT:"; rag_context; "" ]
      else [])
  ++ [ "CURRENT USER MESSAGE:";
       user_message;
       "";
       "INSTRUCTIONS:";
       "- Use the knowledge base context to answer the user's question if relevant";
       "- Consider the conversation history to maintain context and continuity";
       "- If the knowledge base doesn't contain relevant information, clearly mention this";
       "- Provide a helpful, accurate, and conversational response";
       "- Be concise but comprehensive";
       "";
       "RESPONSE:" ].

Definition get_rag_chat_prompt
    (user_message rag_context conversation_context : string) : string :=
  Py.join Py.nl
    (get_rag_chat_prompt_parts user_message rag_context conversation_context).

Definition get_chat_prompt_parts
    (user_message conversation_context : string) : list string :=
  [ "You are a helpful AI assistant engaged in a conversation.";
    "Use the conversation history to maintain context and provide relevant, coherent responses.";
    "Be conversational and natural.";
    "" ]
  ++ (if Py.truthy conversation_context
      then [ "CONVERSATION HISTORY:"; conversation_context; "" ]
      else [])
  ++ [ "CURRENT USER MESSAGE:";
       user_message;
       "";
       "INSTRUCTIONS:";
       "- Consider the conversation history to maintain context and continuity";
       "- Provide a helpful, accurate, and conversational response";
       "- Be natural and engaging in your communication style";
       "";
       "RESPONSE:" ].

Definition get_chat_prompt
    (user_message conversation_context : string) : string :=
  Py.join Py.nl (get_chat_prompt_parts user_message conversation_context).

Definition get_summarization_prompt (conversation_text : string) : string :=
  Py.join Py.nl
    [ "You are tasked with summarizing conversation history.";
      "Create a concise summary that captures the key topics discussed, important information shared, and the general context of the conversation.";
      "";
      "CONVERSATION TO SUMMARIZE:";
      conversation_text;
      "";
      "INSTRUCTIONS:";
      "- Create a brief but comprehensive summary (2-3 sentences)";
      "- Focus on key topics, decisions, and important information";
      "- Maintain the context and flow of the conversation";
      "- Use clear, concise language";
      "";
      "SUMMARY:" ].

End RAGPrompts.

(** ** Data model *)

Record Turn := {
  user : string;
  assistant : string;
  timestamp : string;
  used_rag : bool
}.

(** A session dict.  The handlers create it with the first four keys;
    ["last_updated"] is set on the first update. *)
Record Session := {
  messages : list Turn;
  message_count : Z;
  summary : string;
  created_at : string;
  last_updated : option string
}.

(** ** The external provider, as the service sees it *)

(** Result of a call that may raise: the exception text or the value. *)
Definition raises (A : Type) : Type := string + A.

Record RagContext := { text : option string }.
Record RagContexts := { contexts : option (list RagContext) }.
Record RetrievalResponse := { response_contexts : option RagContexts }.
Record RagResource := { rag_corpus : string }.

(** One streamed increment: a direct text field, or candidates whose
    content parts carry text. *)
Record Part := { part_text : option string }.
Record Content := { parts : option (list Part) }.
Record Candidate := { content : option Content }.
Record Chunk := {
  chunk_text : option string;
  candidates : option (list Candidate)
}.

(** [response.text] is read after the call and may itself raise. *)
Record GenerationResponse := { response_text : raises string }.

(** The model handle.  A streamed call delivers increments and may
    raise after any of them. *)
Record GenerativeModel := {
  generate_content : string -> raises GenerationResponse;
  generate_content_stream : string -> raises (list Chunk * option string)
}.

(** ** Effects

    Everything a request does besides computing a value: provider calls,
    values yielded by the streaming generator, event-stream frames, and
    the writes to the session object and to the session store. *)

Inductive Frame :=
| ChunkFrame (content : string) (session_id : string)
| MetadataFrame (session_id : string) (message_count : Z)
                (context_used : option string)
| DoneFrame
| ErrorFrame (error : string).

Inductive Event :=
| EvRetrievalQuery (query : string)
| EvGenerate (prompt : string)
| EvGenerateStream (prompt : string)
| EvYield (chunk context : string)
| EvFrame (f : Frame)
| EvAppend (t : Turn)
| EvCommit.

Inductive Outcome (A : Type) :=
| Ok (a : A)
| Raise (e : string).
Arguments Ok {A} a.
Arguments Raise {A} e.

(** A computation over the session object of the current request.  A
    raise keeps the writes made so far: Python mutates in place. *)
Definition M (A : Type) : Type := Session -> Outcome A * Session * list Event.

Definition ret {A} (a : A) : M A := fun s => (Ok a, s, []).

Definition bind {A B} (m : M A) (k : A -> M B) : M B :=
  fun s =>
    match m s with
    | (Ok a, s1, l1) =>
        match k a s1 with
        | (r, s2, l2) => (r, s2, l1 ++ l2)
        end
    | (Raise e, s1, l1) => (Raise e, s1, l1)
    end.

#[export] Instance M_ret : MRet M := @ret.
#[export] Instance M_bind : MBind M := fun A B k m => bind m k.

Definition raise {A} (e : string) : M A := fun s => (Raise e, s, []).

(** [try: body / except Exception as e: handler(e)] *)
Definition try_except {A} (body : M A) (handler : string -> M A) : M A :=
  fun s =>
    match body s with
    | (Ok a, s1, l1) => (Ok a, s1, l1)
    | (Raise e, s1, l1) =>
        match handler e s1 with
        | (r, s2, l2) => (r, s2, l1 ++ l2)
        end
    end.

Definition emit (ev : Event) : M unit := fun s => (Ok tt, s, [ev]).

Definition read_session : M Session := fun s => (Ok s, s, []).

Definition lift {A} (r : raises A) : M A :=
  match r with
  | inl e => raise e
  | inr a => ret a
  end.

(** [session["summary"] = v] *)
Definition set_summary (v : string) : M unit := fun s =>
  (Ok tt,
   {| messages := messages s; message_count := message_count s;
      summary := v; created_at := created_at s;
      last_updated := last_updated s |}, []).

(** [session["messages"] = v] *)
Definition set_messages (v : list Turn) : M unit := fun s =>
  (Ok tt,
   {| messages := v; message_count := message_count s;
      summary := summary s; created_at := created_at s;
      last_updated := last_updated s |}, []).

(** [session["messages"].append(t)] *)
Definition append_message (t : Turn) : M unit := fun s =>
  (Ok tt,
   {| messages := messages s ++ [t]; message_count := message_count s;
      summary := summary s; created_at := created_at s;
      last_updated := last_updated s |}, [EvAppend t]).

(** [session["message_count"] += 1] *)
Definition incr_message_count : M unit := fun s =>
  (Ok tt,
   {| messages := messages s; message_count := message_count s + 1;
      summary := summary s; created_at := created_at s;
      last_updated := last_updated s |}, []).

(** [session["last_updated"] = v] *)
Definition set_last_updated (v : string) : M unit := fun s =>
  (Ok tt,
   {| messages := messages s; message_count := message_count s;
      summary := summary s; created_at := created_at s;
      last_updated := Some v |}, []).

(** [for x in xs: body(x)] *)
Fixpoint for_each {A} (xs : list A) (body : A -> M unit) : M unit :=
  match xs with
  | [] => ret tt
  | x :: xs' => body x;; for_each xs' body
  end.

(** The pairs a generator has yielded, in order. *)
Definition yields (l : list Event) : list (string * string) :=
  omap (fun ev => match ev with
                  | EvYield c ctx => Some (c, ctx)
                  | _ => None
                  end) l.

Definition frames (l : list Event) : list Frame :=
  omap (fun ev => match ev with EvFrame f => Some f | _ => None end) l.

Definition appends (l : list Event) : list Turn :=
  omap (fun ev => match ev with EvAppend t => Some t | _ => None end) l.


(** ** [utils/vertex_service.py] *)

Record VertexRAGService := {
  rag_similarity_top_k : Z;
  rag_vector_distance_threshold : Q;
  max_history_length : Z;
  summarize_threshold : Z;
  max_context_length : Z;
  _model : option GenerativeModel;
  _rag_resources : option (list RagResource);
  (** the SDK entry point [rag.retrieval_query] *)
  retrieval_query :
    list RagResource -> string -> Z -> Q -> raises (option RetrievalResponse)
}.

(** [__init__], as far as it reads the settings the operations below
    use: the keys of the [chat_history] section and the two retrieval
    parameters, each with its default; the model and the retrieval
    resource are what [_initialize_services] has set. *)
Definition configure (chat_config : gmap string Z)
    (similarity_top_k : option Z) (vector_distance_threshold : option Q)
    (model : option GenerativeModel) (resources : option (list RagResource))
    (query : list RagResource -> string -> Z -> Q ->
             raises (option RetrievalResponse))
  : VertexRAGService :=
  {| rag_similarity_top_k := default 5 similarity_top_k;
     rag_vector_distance_threshold :=
       default (3 # 10)%Q vector_distance_threshold;
     max_history_length := default 3 (chat_config !! "max_length");
     summarize_threshold := default 5 (chat_config !! "summarize_threshold");
     max_context_length := default 4000 (chat_config !! "max_context_length");
     _model := model;
     _rag_resources := resources;
     retrieval_query := query |}.

Definition blank_line : string := Py.nl +:+ Py.nl.

(** The texts collected by the loop over
    [retrieval_response.contexts.contexts]: objects without a text, or
    with an empty one, are skipped. *)
Definition all_text_segments (cs : list RagContext) : list string :=
  omap (fun context_obj =>
          match text context_obj with
          | Some t => if Py.truthy t then Some t else None
          | None => None
          end) cs.

Definition _retrieve_rag_context (self : VertexRAGService) (query : string)
  : M string :=
  match _rag_resources self with
  | Some (r :: rs) =>
      try_except
        (emit (EvRetrievalQuery query);;
         retrieval_response ←
           lift (retrieval_query self (r :: rs) query
                   (rag_similarity_top_k self)
                   (rag_vector_distance_threshold self));
         match retrieval_response with
         | Some {| response_contexts :=
                     Some {| contexts := Some (c :: cs) |} |} =>
             let context := Py.join blank_line (all_text_segments (c :: cs)) in
             ret (Py.str_slice_to context (max_context_length self))
         | _ => ret ""
         end)
        (fun _ => ret "")
  | _ => ret ""
  end.

(** The ["User: ..."] / ["Assistant: ..."] lines of a list of turns. *)
Definition turn_lines (msgs : list Turn) : list string :=
  flat_map (fun msg => [ "User: " +:+ user msg;
                         "Assistant: " +:+ assistant msg ]) msgs.

Definition _build_conversation_context
    (self : VertexRAGService) (session_data : Session) : string :=
  let summary_part :=
    if Py.truthy (summary session_data)
    then [ "Previous conversation summary:" +:+ Py.nl +:+ summary session_data ]
    else [] in
  let recent_messages :=
    Py.list_slice_from (messages session_data) (- max_history_length self) in
  let recent_part :=
    if Py.nonempty recent_messages
    then "Recent conversation:" :: turn_lines recent_messages
    else [] in
  Py.join blank_line (summary_part ++ recent_part).

(** [and] does not evaluate the modulo when the count is not positive. *)
Definition _should_summarize
    (self : VertexRAGService) (session_data : Session) : raises bool :=
  if message_count session_data >? 0
  then match Py.int_mod (message_count session_data) (summarize_threshold self) with
       | inl e => inl e
       | inr r => inr (r =? 0)
       end
  else inr false.

Definition summarize_conversation
    (self : VertexRAGService) (msgs : list Turn) : M string :=
  if Py.nonempty msgs
  then
    try_except
      (let conversation := Py.join Py.nl (turn_lines msgs) in
       let prompt := RAGPrompts.get_summarization_prompt conversation in
       match _model self with
       | None => raise "'NoneType' object has no attribute 'generate_content'"
       | Some model =>
           emit (EvGenerate prompt);;
           response ← lift (generate_content model prompt);
           t ← lift (response_text response);
           ret (Py.strip t)
       end)
      (fun _ => ret "")
  else ret "".

(** The block shared by both chat operations:
    [if self._should_summarize(session_data): ...]. *)
Definition summarize_if_due (self : VertexRAGService) : M unit :=
  session_data ← read_session;
  due ← lift (_should_summarize self session_data);
  if due : bool
  then
    summary ← summarize_conversation self (messages session_data);
    if Py.truthy summary
    then
      set_summary summary;;
      session_data ← read_session;
      set_messages (Py.list_slice_from (messages session_data) (-2))
    else ret tt
  else ret tt.

Definition rag_resources_set (self : VertexRAGService) : bool :=
  match _rag_resources self with
  | Some (_ :: _) => true
  | _ => false
  end.

(** The two error markers start with a cross mark, one character of the
    Python string, written here by its three UTF-8 bytes; no statement
    depends on their length. *)
Definition model_not_initialized : string := "❌ Model not initialized.".

Definition error_generating (e : string) : string :=
  "❌ Error generating response: " +:+ e.

(** The retrieval step and the choice of prompt, common to both chat
    operations; returns the prompt and the retrieved context. *)
Definition build_prompt
    (self : VertexRAGService) (message : string) (use_rag : bool)
  : M (string * string) :=
  rag_context ←
    (if use_rag && rag_resources_set self
     then _retrieve_rag_context self message
     else ret "");
  session_data ← read_session;
  let conversation_context := _build_conversation_context self session_data in
  let prompt :=
    if Py.truthy rag_context
    then RAGPrompts.get_rag_chat_prompt message rag_context conversation_context
    else RAGPrompts.get_chat_prompt message conversation_context in
  ret (prompt, rag_context).

Definition chat_with_history
    (self : VertexRAGService) (message : string) (use_rag : bool)
  : M (string * string) :=
  match _model self with
  | None => ret (model_not_initialized, "")
  | Some model =>
      try_except
        ('(prompt, rag_context) ← build_prompt self message use_rag;
         emit (EvGenerate prompt);;
         response ← lift (generate_content model prompt);
         summarize_if_due self;;
         t ← lift (response_text response);
         ret (Py.strip t, rag_context))
        (fun e => ret (error_generating e, ""))
  end.

(** Text of one streamed increment. *)
Definition increment_text (chunk : Chunk) : string :=
  let from_candidates :=
    match candidates chunk with
    | Some (c :: cs) =>
        String.concat ""
          (flat_map (fun candidate =>
                       match content candidate with
                       | Some {| parts := Some ps |} =>
                           omap (fun part =>
                                   match part_text part with
                                   | Some t => if Py.truthy t then Some t else None
                                   | None => None
                                   end) ps
                       | _ => []
                       end) (c :: cs))
    | _ => ""
    end in
  match chunk_text chunk with
  | Some t => if Py.truthy t then t else from_candidates
  | None => from_candidates
  end.

(** The generator.  Its yields are the [EvYield] events of its trace. *)
Definition chat_with_history_stream
    (self : VertexRAGService) (message : string) (use_rag : bool) : M unit :=
  match _model self with
  | None => emit (EvYield model_not_initialized "")
  | Some model =>
      try_except
        ('(prompt, rag_context) ← build_prompt self message use_rag;
         emit (EvGenerateStream prompt);;
         '(chunks, failure) ← lift (generate_content_stream model prompt);
         for_each chunks
           (fun chunk =>
              let chunk_text := increment_text chunk in
              if Py.truthy chunk_text
              then emit (EvYield chunk_text rag_context)
              else ret tt);;
         match failure with
         | Some e => raise e
         | None => ret tt
         end;;
         summarize_if_due self)
        (fun e => emit (EvYield (error_generating e) ""))
  end.

Definition is_initialized (self : VertexRAGService) : bool :=
  match _model self with
  | Some _ => true
  | None => false
  end.

Definition is_rag_initialized (self : VertexRAGService) : bool :=
  match _rag_resources self with
  | Some _ => true
  | None => false
  end.

(** The settings [__init__] reads from the [vertex_ai] and [rag]
    sections besides those of [configure]; a missing key is [None],
    [enabled] defaults to true. *)
Record Settings := {
  project : option string;
  location : option string;
  corpus_id : option string;
  enabled : option bool
}.

(** The two SDK calls of [_initialize_services]: [vertexai.init] and
    the [GenerativeModel] constructor. *)
Record Platform := {
  vertexai_init : option string -> option string -> raises unit;
  new_model : raises GenerativeModel
}.

(** [f"{v}"] for an optional [str]. *)
Definition fstr (v : option string) : string := default "None" v.

(** The model and the retrieval resource [_initialize_services] sets;
    an exception is passed on. *)
Definition _initialize_services (platform : Platform) (settings : Settings)
  : raises (GenerativeModel * option (list RagResource)) :=
  match vertexai_init platform (project settings) (location settings) with
  | inl e => inl e
  | inr _ =>
      match new_model platform with
      | inl e => inl e
      | inr model =>
          inr (model,
               if default true (enabled settings)
                  && Py.truthy (default "" (corpus_id settings))
               then Some [ {| rag_corpus :=
                                "projects/" +:+ fstr (project settings)
                                +:+ "/locations/" +:+ fstr (location settings)
                                +:+ "/ragCorpora/" +:+ fstr (corpus_id settings) |} ]
               else None)
      end
  end.

(** [VertexRAGService(...)], from a configuration already loaded. *)
Definition __init__ (platform : Platform) (settings : Settings)
    (chat_config : gmap string Z)
    (similarity_top_k : option Z) (vector_distance_threshold : option Q)
    (query : list RagResource -> string -> Z -> Q ->
             raises (option RetrievalResponse))
  : raises VertexRAGService :=
  match _initialize_services platform settings with
  | inl e => inl e
  | inr (model, resources) =>
      inr (configure chat_config similarity_top_k vector_distance_threshold
             (Some model) resources query)
  end.

(** ** [main.py] *)

Record ChatRequest := {
  message : string;
  session_id : option string;
  use_rag : bool
}.

Record ChatResponse := {
  response : string;
  response_session_id : string;
  response_message_count : Z;
  response_used_rag : bool;
  context_used : option string
}.

Inductive HttpResult (A : Type) :=
| Http200 (body : A)
| HTTPException (status_code : Z) (detail : string).
Arguments Http200 {A} body.
Arguments HTTPException {A} status_code detail.

(** What a request reads from outside the program: the identifier
    drawn by [uuid.uuid4()] and the three readings of
    [datetime.now().isoformat()]. *)
Record Env := {
  uuid4 : string;
  now_created : string;
  now_turn : string;
  now_updated : string
}.

(** The default passed to [chat_sessions.get]. *)
Definition new_session (env : Env) : Session :=
  {| messages := []; message_count := 0; summary := "";
     created_at := now_created env; last_updated := None |}.

(** [context_used[:200] + "..." if context_used and len(context_used) > 200
     else context_used]: always a [str]. *)
Definition context_excerpt (context_used : string) : string :=
  if Py.truthy context_used && (Py.len context_used >? 200)
  then Py.str_slice_to context_used 200 +:+ "..."
  else context_used.

Definition committed (l : list Event) : bool :=
  existsb (fun ev => match ev with EvCommit => true | _ => false end) l.

(** The store after a handler ran on [session]: a session taken from the
    store is the stored object itself, so its writes are already there;
    a new one reaches the store only through
    [chat_sessions[session_id] = session]. *)
Definition publish (chat_sessions : gmap string Session) (session_id : string)
    (session : Session) (l : list Event) : gmap string Session :=
  match chat_sessions !! session_id with
  | Some _ => <[session_id := session]> chat_sessions
  | None => if committed l then <[session_id := session]> chat_sessions
            else chat_sessions
  end.

(** The lines of both chat handlers under ["Update session"]. *)
Definition update_session (env : Env) (request : ChatRequest)
    (response : string) : M unit :=
  append_message {| user := message request; assistant := response;
                    timestamp := now_turn env; used_rag := use_rag request |};;
  incr_message_count;;
  set_last_updated (now_updated env);;
  emit EvCommit.

Definition chat_endpoint_body (service : VertexRAGService) (env : Env)
    (request : ChatRequest) (session_id : string) : M ChatResponse :=
  '(response, context_used) ←
    chat_with_history service (message request) (use_rag request);
  update_session env request response;;
  session ← read_session;
  ret {| response := response;
         response_session_id := session_id;
         response_message_count := message_count session;
         response_used_rag := use_rag request;
         context_used := Some (context_excerpt context_used) |}.

Record Served (A : Type) := {
  result : A;
  store : gmap string Session;
  trace : list Event
}.
Arguments result {A} _.
Arguments store {A} _.
Arguments trace {A} _.

Definition chat_endpoint (rag_service : option VertexRAGService) (env : Env)
    (request : ChatRequest) (chat_sessions : gmap string Session)
  : Served (HttpResult ChatResponse) :=
  match rag_service with
  | None =>
      {| result := HTTPException 500 "RAG service not initialized";
         store := chat_sessions; trace := [] |}
  | Some service =>
      let session_id := Py.or_else (session_id request) (uuid4 env) in
      let session := default (new_session env) (chat_sessions !! session_id) in
      match chat_endpoint_body service env request session_id session with
      | (Ok r, session', l) =>
          {| result := Http200 r;
             store := publish chat_sessions session_id session' l;
             trace := l |}
      | (Raise e, session', l) =>
          {| result := HTTPException 500 ("Error processing chat: " +:+ e);
             store := publish chat_sessions session_id session' l;
             trace := l |}
      end
  end.

(** The same handler over the chat operation of whatever object the
    global [rag_service] holds: the handler calls
    [rag_service.chat_with_history(message, session, use_rag)] and
    depends on nothing else of the service.  [chat_endpoint] is this
    handler at [chat_with_history]; here the operation may also raise,
    or write to the session before it raises. *)
Definition chat_endpoint_body_over
    (chat_with_history : string -> bool -> M (string * string)) (env : Env)
    (request : ChatRequest) (session_id : string) : M ChatResponse :=
  '(response, context_used) ←
    chat_with_history (message request) (use_rag request);
  update_session env request response;;
  session ← read_session;
  ret {| response := response;
         response_session_id := session_id;
         response_message_count := message_count session;
         response_used_rag := use_rag request;
         context_used := Some (context_excerpt context_used) |}.

Definition chat_endpoint_over
    (rag_service : option (string -> bool -> M (string * string)))
    (env : Env) (request : ChatRequest) (chat_sessions : gmap string Session)
  : Served (HttpResult ChatResponse) :=
  match rag_service with
  | None =>
      {| result := HTTPException 500 "RAG service not initialized";
         store := chat_sessions; trace := [] |}
  | Some chat_with_history =>
      let session_id := Py.or_else (session_id request) (uuid4 env) in
      let session := default (new_session env) (chat_sessions !! session_id) in
      match chat_endpoint_body_over chat_with_history env request session_id
              session with
      | (Ok r, session', l) =>
          {| result := Http200 r;
             store := publish chat_sessions session_id session' l;
             trace := l |}
      | (Raise e, session', l) =>
          {| result := HTTPException 500 ("Error processing chat: " +:+ e);
             store := publish chat_sessions session_id session' l;
             trace := l |}
      end
  end.

(** The loop of [generate_stream] over the pairs drawn from the
    generator. *)
Fixpoint consume (session_id : string) (pairs : list (string * string))
    (full_response context_used : string) : M (string * string) :=
  match pairs with
  | [] => ret (full_response, context_used)
  | (chunk, context) :: rest =>
      let context_used :=
        if Py.truthy context && negb (Py.truthy context_used)
        then context else context_used in
      let full_response := full_response +:+ chunk in
      emit (EvFrame (ChunkFrame chunk session_id));;
      consume session_id rest full_response context_used
  end.

(** Run a generator to its end: the pairs it yielded and the exception
    it ended with, if any.  The generator's writes to the session happen
    when it is exhausted, after its last yield and before the consumer's
    code that follows the loop; the consumer's loop body does not touch
    the session, so running the generator first gives the same frames
    and the same session. *)
Definition drain (gen : M unit) : M (list (string * string) * option string) :=
  fun s =>
    match gen s with
    | (Ok _, s1, l) => (Ok (yields l, None), s1, l)
    | (Raise e, s1, l) => (Ok (yields l, Some e), s1, l)
    end.

Definition generate_stream (service : VertexRAGService) (env : Env)
    (request : ChatRequest) (session_id : string) : M unit :=
  try_except
    ('(pairs, failure) ←
       drain (chat_with_history_stream service (message request)
                (use_rag request));
     '(full_response, context_used) ← consume session_id pairs "" "";
     match failure with
     | Some e => raise e
     | None => ret tt
     end;;
     update_session env request full_response;;
     session ← read_session;
     emit (EvFrame (MetadataFrame session_id (message_count session)
                      (Some (context_excerpt context_used))));;
     emit (EvFrame DoneFrame))
    (fun e => emit (EvFrame (ErrorFrame e))).

(** The result is the list of frames of the event stream, read to its
    end: a client that stops reading is outside the model. *)
Definition chat_stream_endpoint (rag_service : option VertexRAGService)
    (env : Env) (request : ChatRequest) (chat_sessions : gmap string Session)
  : Served (HttpResult (list Frame)) :=
  match rag_service with
  | None =>
      {| result := HTTPException 500 "RAG service not initialized";
         store := chat_sessions; trace := [] |}
  | Some service =>
      let session_id := Py.or_else (session_id request) (uuid4 env) in
      let session := default (new_session env) (chat_sessions !! session_id) in
      match generate_stream service env request session_id session with
      | (_, session', l) =>
          {| result := Http200 (frames l);
             store := publish chat_sessions session_id session' l;
             trace := l |}
      end
  end.

Record SessionView := {
  view_session_id : string;
  view_message_count : Z;
  view_summary : string;
  view_messages : list Turn;
  view_created_at : string;
  view_last_updated : option string
}.

Definition get_session (session_id : string)
    (chat_sessions : gmap string Session) : HttpResult SessionView :=
  match chat_sessions !! session_id with
  | None => HTTPException 404 "Session not found"
  | Some session =>
      Http200 {| view_session_id := session_id;
                 view_message_count := message_count session;
                 view_summary := summary session;
                 view_messages := Py.list_slice_from (messages session) (-10);
                 view_created_at := created_at session;
                 view_last_updated := last_updated session |}
  end.

Definition delete_session (session_id : string)
    (chat_sessions : gmap string Session) : Served (HttpResult string) :=
  match chat_sessions !! session_id with
  | None =>
      {| result := HTTPException 404 "Session not found";
         store := chat_sessions; trace := [] |}
  | Some _ =>
      {| result := Http200 ("Session " +:+ session_id +:+ " deleted successfully");
         store := delete session_id chat_sessions; trace := [] |}
  end.

Record SummarizeResponse := {
  summarized_session_id : string;
  summarized_summary : string;
  summarized_message_count : Z
}.

Definition force_summarize_body (rag_service : option VertexRAGService)
    (env : Env) (session_id : string) : M SummarizeResponse :=
  session ← read_session;
  summary ←
    match rag_service with
    | None => raise "'NoneType' object has no attribute 'summarize_conversation'"
    | Some service => summarize_conversation service (messages session)
    end;
  set_summary summary;;
  set_last_updated (now_updated env);;
  session ← read_session;
  ret {| summarized_session_id := session_id;
         summarized_summary := summary;
         summarized_message_count := message_count session |}.

Definition force_summarize_session (rag_service : option VertexRAGService)
    (env : Env) (session_id : string) (chat_sessions : gmap string Session)
  : Served (HttpResult SummarizeResponse) :=
  match chat_sessions !! session_id with
  | None =>
      {| result := HTTPException 404 "Session not found";
         store := chat_sessions; trace := [] |}
  | Some session =>
      match force_summarize_body rag_service env session_id session with
      | (Ok r, session', l) =>
          {| result := Http200 r;
             store := <[session_id := session']> chat_sessions;
             trace := l |}
      | (Raise e, session', l) =>
          {| result := HTTPException 500 ("Error summarizing session: " +:+ e);
             store := <[session_id := session']> chat_sessions;
             trace := l |}
      end
  end.

Record RootResponse := {
  root_status : string;
  root_service : string;
  root_rag_initialized : bool;
  active_sessions : Z
}.

Definition root (rag_service : option VertexRAGService)
    (chat_sessions : gmap string Session) : RootResponse :=
  {| root_status := "healthy";
     root_service := "RAG Chat API";
     root_rag_initialized := bool_decide (is_Some rag_service);
     active_sessions := Z.of_nat (size chat_sessions) |}.

(** The two nested dicts of the health report, flattened. *)
Record HealthResponse := {
  health_status : string;
  health_timestamp : string;
  initialized : bool;
  rag_enabled : bool;
  model_initialized : bool;
  active_count : Z;
  total_messages : Z
}.

(** [sum(...)] over the values of the store: the order of the dict does
    not matter to an integer sum. *)
Definition health_check (rag_service : option VertexRAGService)
    (now : string) (chat_sessions : gmap string Session) : HealthResponse :=
  {| health_status := "healthy";
     health_timestamp := now;
     initialized := bool_decide (is_Some rag_service);
     rag_enabled :=
       match rag_service with
       | Some service => is_rag_initialized service
       | None => false
       end;
     model_initialized :=
       match rag_service with
       | Some service => is_initialized service
       | None => false
       end;
     active_count := Z.of_nat (size chat_sessions);
     total_messages :=
       map_fold (fun _ session total => total + message_count session) 0
         chat_sessions |}.

(** [startup_event]: the service handle the application serves with; an
    exception ends the startup, and no request is served. *)
Definition startup_event (platform : Platform) (settings : Settings)
    (chat_config : gmap string Z)
    (similarity_top_k : option Z) (vector_distance_threshold : option Q)
    (query : list RagResource -> string -> Z -> Q ->
             raises (option RetrievalResponse))
  : raises (option VertexRAGService) :=
  match __init__ platform settings chat_config similarity_top_k
          vector_distance_threshold query with
  | inl e => inl e
  | inr service => inr (Some service)
  end.

(** ** The service as a transition system

    The requests that read or write the session store.  A chat request
    carries the service handle and the outside readings of that
    request: the provider may answer differently every time. *)

Inductive Request :=
| PostChat (rag_service : option VertexRAGService) (env : Env)
           (request : ChatRequest)
| PostChatStream (rag_service : option VertexRAGService) (env : Env)
                 (request : ChatRequest)
| GetSession (session_id : string)
| DeleteSession (session_id : string)
| PostSummarize (rag_service : option VertexRAGService) (env : Env)
                (session_id : string).

(** The session a request works on. *)
Definition target (rq : Request) : string :=
  match rq with
  | PostChat _ env request | PostChatStream _ env request =>
      Py.or_else (session_id request) (uuid4 env)
  | GetSession sid | DeleteSession sid | PostSummarize _ _ sid => sid
  end.

(** Store and trace after a request. *)
Definition handle (rq : Request) (chat_sessions : gmap string Session)
  : gmap string Session * list Event :=
  match rq with
  | PostChat rs env request =>
      let r := chat_endpoint rs env request chat_sessions in (store r, trace r)
  | PostChatStream rs env request =>
      let r := chat_stream_endpoint rs env request chat_sessions in
      (store r, trace r)
  | GetSession _ => (chat_sessions, [])
  | DeleteSession sid =>
      let r := delete_session sid chat_sessions in (store r, trace r)
  | PostSummarize rs env sid =>
      let r := force_summarize_session rs env sid chat_sessions in
      (store r, trace r)
  end.

(** The store together with a history variable: for every stored
    session, how many times a handler executed
    [session["messages"].append] on it since it was created. *)
Record AppState := {
  sessions : gmap string Session;
  appended : gmap string nat
}.

Definition initial : AppState := {| sessions := ∅; appended := ∅ |}.

Definition step (st : AppState) (rq : Request) : AppState :=
  let '(store', l) := handle rq (sessions st) in
  let sid := target rq in
  {| sessions := store';
     appended :=
       match store' !! sid with
       | Some _ =>
           <[sid := (default 0 (appended st !! sid) + length (appends l))%nat]>
             (appended st)
       | None => delete sid (appended st)
       end |}.

Inductive reachable : AppState -> Prop :=
| reachable_initial : reachable initial
| reachable_step st rq : reachable st -> reachable (step st rq).

Definition run (rqs : list Request) : AppState := foldl step initial rqs.

(** ** Vocabulary of the statements *)

(** The session after a summarization that produced [s]: the summary is
    overwritten and the turn list cut to its last two entries. *)
Definition summarized (s : string) (session : Session) : Session :=
  {| messages := Py.list_slice_from (messages session) (-2);
     message_count := message_count session;
     summary := s;
     created_at := created_at session;
     last_updated := last_updated session |}.

(** The context objects of a retrieval response, none when a level of
    the response is missing. *)
Definition returned_contexts (r : option RetrievalResponse) : list RagContext :=
  match r with
  | Some {| response_contexts := Some {| contexts := Some cs |} |} => cs
  | _ => []
  end.

(** A computation of the generation service: it leaves the message
    count alone, appends no turn, commits nothing, writes no frame and
    does not make the turn list longer. *)
Definition quiet {A} (m : M A) : Prop :=
  forall s,
    match m s with
    | (_, s', l) =>
        message_count s' = message_count s
        /\ appends l = [] /\ committed l = false /\ frames l = []
        /\ (length (messages s') <= length (messages s))%nat
    end.

(** A computation that counts what it appends, and makes the turn
    list longer by no more than that. *)
Definition tally {A} (m : M A) : Prop :=
  forall s,
    match m s with
    | (_, s', l) =>
        message_count s' = message_count s + Z.of_nat (length (appends l))
        /\ (length (messages s')
            <= length (messages s) + length (appends l))%nat
    end.

(** The turn a chat handler appends. *)
Definition turn_of (env : Env) (request : ChatRequest) (response : string)
  : Turn :=
  {| user := message request; assistant := response;
     timestamp := now_turn env; used_rag := use_rag request |}.

(** The session after the handler's bookkeeping for a turn. *)
Definition updated (env : Env) (request : ChatRequest) (response : string)
    (session : Session) : Session :=
  {| messages := messages session ++ [turn_of env request response];
     message_count := message_count session + 1;
     summary := summary session;
     created_at := created_at session;
     last_updated := Some (now_updated env) |}.

(** The session object a chat handler works on: the stored one, or a
    new one. *)
Definition session_of (env : Env) (request : ChatRequest)
    (chat_sessions : gmap string Session) : Session :=
  default (new_session env)
    (chat_sessions !! Py.or_else (session_id request) (uuid4 env)).

(** The prompt a chat operation sends for a session, and the context it
    retrieved for it. *)
Definition chat_prompt (self : VertexRAGService) (message : string)
    (use_rag : bool) (session : Session) : string * string :=
  match build_prompt self message use_rag session with
  | (Ok pc, _, _) => pc
  | (Raise _, _, _) => ("", "")
  end.

(** The text [summarize_conversation] returns for a session's turns. *)
Definition summary_text (self : VertexRAGService) (session : Session) : string :=
  match summarize_conversation self (messages session) session with
  | (Ok t, _, _) => t
  | (Raise _, _, _) => ""
  end.

(** The context the streaming handler reports: that of the first pair
    that carries one. *)
Fixpoint first_context (pairs : list (string * string)) : string :=
  match pairs with
  | [] => ""
  | (_, context) :: rest =>
      if Py.truthy context then context else first_context rest
  end.

(** The frame written for a yielded pair. *)
Definition chunk_frame (session_id : string) (pair : string * string) : Frame :=
  ChunkFrame pair.1 session_id.

(** The retrieval queries a computation issued, in order. *)
Definition queries (l : list Event) : list string :=
  omap (fun ev => match ev with EvRetrievalQuery q => Some q | _ => None end) l.

(** The prompts a computation sent to the model, in order. *)
Definition prompts (l : list Event) : list string :=
  omap (fun ev => match ev with
                  | EvGenerate p | EvGenerateStream p => Some p
                  | _ => None
                  end) l.

(** A session that went through a chat handler at least once. *)
Definition has_turns (session : Session) : Prop :=
  1 <= message_count session
  /\ messages session <> []
  /\ is_Some (last_updated session).

(** What a forced summarization leaves of a session. *)
Definition resummarized (env : Env) (s : string) (session : Session) : Session :=
  {| messages := messages session;
     message_count := message_count session;
     summary := s;
     created_at := created_at session;
     last_updated := Some (now_updated env) |}.

(** ** Sample inputs *)

Definition text_chunk (t : string) : Chunk :=
  {| chunk_text := Some t; candidates := None |}.

(** A model that answers [answer] to a chat prompt, [digest] (or an
    exception) to a summarization prompt, and streams [increments]. *)
Definition sample_model (answer : string) (digest : raises string)
    (increments : list string) : GenerativeModel :=
  {| generate_content := fun prompt =>
       if String.prefix "You are tasked with summarizing" prompt
       then match digest with
            | inl e => inl e
            | inr t => inr {| response_text := inr t |}
            end
       else inr {| response_text := inr answer |};
     generate_content_stream := fun _ =>
       inr (map text_chunk increments, None) |}.

(** The configuration defaults, without a retrieval corpus. *)
Definition sample_service (model : GenerativeModel) : VertexRAGService :=
  configure ∅ None None (Some model) None (fun _ _ _ _ => inr None).

(** The same with a corpus whose queries return [found]. *)
Definition sample_rag_service (model : GenerativeModel)
    (found : raises (option RetrievalResponse)) : VertexRAGService :=
  configure ∅ None None (Some model)
    (Some [ {| rag_corpus := "projects/p/locations/l/ragCorpora/c" |} ])
    (fun _ _ _ _ => found).

Definition sample_env : Env :=
  {| uuid4 := "fresh-id"; now_created := "t0"; now_turn := "t1";
     now_updated := "t2" |}.

Definition sample_request (sid : option string) : ChatRequest :=
  {| message := "hello"; session_id := sid; use_rag := true |}.

Definition sample_turn (n : string) : Turn :=
  {| user := "q" +:+ n; assistant := "a" +:+ n; timestamp := "t";
     used_rag := true |}.

(** A stored session with [count] turns counted, [turns] retained. *)
Definition sample_session (count : Z) (turns : list Turn) (digest : string)
  : Session :=
  {| messages := turns; message_count := count; summary := digest;
     created_at := "t0"; last_updated := Some "t2" |}.

(** A service configured with [max_length: 0] and no model. *)
Definition zero_window_service : VertexRAGService :=
  configure {[ "max_length" := 0 ]} None None None None
    (fun _ _ _ _ => inr None).

(** A store whose session "s" has [count] counted turns, all of them
    retained, and the summary "old". *)
Definition sample_store (count : nat) : gmap string Session :=
  {[ "s" := sample_session (Z.of_nat count)
              (map (fun i => sample_turn (String (ascii_of_nat (48 + i)) ""))
                 (seq 1 count))
              "old" ]}.

(** A service whose model answers "hi" and summarizes as "digest". *)
Definition digest_service : VertexRAGService :=
  sample_service (sample_model "hi" (inr "digest") ["Hel"; "lo"]).

(** A service whose model answers "hi" and fails to summarize. *)
Definition failing_digest_service : VertexRAGService :=
  sample_service (sample_model "hi" (inl "provider unavailable") ["Hel"; "lo"]).

(** A retrieval answer with two texts, an object without text and an
    empty text. *)
Definition sample_found : raises (option RetrievalResponse) :=
  inr (Some {| response_contexts :=
                 Some {| contexts :=
                           Some [ {| text := Some "alpha" |};
                                  {| text := None |};
                                  {| text := Some "" |};
                                  {| text := Some "beta" |} ] |} |}).

Definition sample_corpus : list RagResource :=
  [ {| rag_corpus := "projects/p/locations/l/ragCorpora/c" |} ].

(** The store after one chat turn in session "s" and a forced
    summarization that succeeded. *)
Definition digested_store : gmap string Session :=
  sessions
    (run [ PostChat (Some digest_service) sample_env
             (sample_request (Some "s"));
           PostSummarize (Some digest_service) sample_env "s" ]).

(** A model whose every call raises. *)
Definition unavailable_model : GenerativeModel :=
  {| generate_content := fun _ => inl "provider unavailable";
     generate_content_stream := fun _ => inl "provider unavailable" |}.

(** A model whose answer cannot be read: [response.text] raises. *)
Definition unreadable_model (digest : string) : GenerativeModel :=
  {| generate_content := fun prompt =>
       if String.prefix "You are tasked with summarizing" prompt
       then inr {| response_text := inr digest |}
       else inr {| response_text := inl "response was blocked" |};
     generate_content_stream := fun _ => inr ([], None) |}.

(** A model whose stream breaks after [increments]. *)
Definition broken_stream_model (increments : list string) : GenerativeModel :=
  {| generate_content := fun _ => inr {| response_text := inr "hi" |};
     generate_content_stream := fun _ =>
       inr (map text_chunk increments, Some "connection reset") |}.

(** A service configured with [summarize_threshold: 0]. *)
Definition zero_threshold_service : VertexRAGService :=
  configure {[ "summarize_threshold" := 0 ]} None None
    (Some (sample_model "hi" (inr "digest") ["Hel"; "lo"])) None
    (fun _ _ _ _ => inr None).

(** A platform on which both SDK calls succeed. *)
Definition sample_platform : Platform :=
  {| vertexai_init := fun _ _ => inr tt;
     new_model := inr (sample_model "hi" (inr "digest") ["Hel"; "lo"]) |}.

Definition sample_settings : Settings :=
  {| project := Some "p"; location := Some "l"; corpus_id := Some "c";
     enabled := None |}.

(** A chat operation that writes a draft summary to the session and
    then raises. *)
Definition failing_chat (message : string) (use_rag : bool)
  : M (string * string) :=
  set_summary "draft";; raise "provider unavailable".

(** * Properties *)

(** ** Python strings and slices *)

Example slice_last_two : Py.list_slice_from [1; 2; 3; 4] (-2) = [3; 4].
Proof. reflexivity. Qed.

Example slice_from_minus_zero :
  Py.list_slice_from [1; 2; 3; 4] (- 0) = [1; 2; 3; 4].
Proof. reflexivity. Qed.

Example strip_both_ends : Py.strip "  a b  " = "a b".
Proof. reflexivity. Qed.

Example str_in_inside : Py.str_in "BASE" "KNOWLEDGE BASE CONTEXT:" = true.
Proof. reflexivity. Qed.

Lemma str_append_nil_r (s : string) : s +:+ "" = s.
Proof.
  induction s as [|c s IH]; [reflexivity|].
  change (String c (s +:+ "") = String c s). now rewrite IH.
Qed.

Lemma str_append_assoc (a b c : string) : (a +:+ b) +:+ c = a +:+ b +:+ c.
Proof.
  induction a as [|x a IH]; [reflexivity|].
  change (String x ((a +:+ b) +:+ c) = String x (a +:+ b +:+ c)).
  now rewrite IH.
Qed.

Lemma str_in_nl_cons c p :
  Py.str_in Py.nl (String c p) = false ->
  c <> "010"%char /\ Py.str_in Py.nl p = false.
Proof.
  cbn [Py.str_in Py.nl String.prefix].
  destruct (ascii_dec "010" c) as [<-|Hc].
  - destruct p; discriminate.
  - intros H. split; [congruence|]. exact H.
Qed.

(** A needle without a newline cannot start before a newline and end
    after it. *)
Lemma prefix_before_nl p a b :
  Py.str_in Py.nl p = false ->
  String.prefix p (a +:+ Py.nl +:+ b) = String.prefix p a.
Proof.
  revert a. induction p as [|x p IH]; intros a Hp; [now destruct a|].
  apply str_in_nl_cons in Hp as [Hx Hp].
  destruct a as [|c a]; unfold Py.nl; simpl.
  - destruct (ascii_dec x "010"); [contradiction|reflexivity].
  - destruct (ascii_dec x c); [apply IH, Hp|reflexivity].
Qed.

Lemma str_in_empty p : p <> "" -> Py.str_in p "" = false.
Proof. destruct p; [congruence|reflexivity]. Qed.

Lemma str_in_across_nl p a b :
  p <> "" -> Py.str_in Py.nl p = false ->
  Py.str_in p (a +:+ Py.nl +:+ b) = Py.str_in p a || Py.str_in p b.
Proof.
  intros Hne Hp. induction a as [|c a IH].
  - rewrite str_in_empty by assumption.
    destruct p as [|x p]; [congruence|].
    apply str_in_nl_cons in Hp as [Hx _]. unfold Py.nl. simpl.
    destruct (ascii_dec x "010"); [contradiction|reflexivity].
  - change (String c a +:+ Py.nl +:+ b) with (String c (a +:+ Py.nl +:+ b)).
    cbn [Py.str_in]. rewrite IH.
    change (String c (a +:+ Py.nl +:+ b)) with (String c a +:+ Py.nl +:+ b).
    rewrite prefix_before_nl by assumption.
    now rewrite orb_assoc.
Qed.

(** [needle in "\n".join(parts)] exactly when the needle is in one of
    the parts. *)
Lemma str_in_join_nl p (parts : list string) :
  p <> "" -> Py.str_in Py.nl p = false ->
  Py.str_in p (Py.join Py.nl parts) = existsb (Py.str_in p) parts.
Proof.
  intros Hne Hp. unfold Py.join.
  induction parts as [|x [|y parts] IH].
  - now apply str_in_empty.
  - cbn. now rewrite orb_false_r.
  - change (String.concat Py.nl (x :: y :: parts))
      with (x +:+ Py.nl +:+ String.concat Py.nl (y :: parts)).
    rewrite str_in_across_nl by assumption.
    now rewrite IH.
Qed.

(** ** The prompt library *)

Example plain_prompt_without_history :
  RAGPrompts.get_chat_prompt_parts "hi" ""
  = [ "You are a helpful AI assistant engaged in a conversation.";
      "Use the conversation history to maintain context and provide relevant, coherent responses.";
      "Be conversational and natural.";
      "";
      "CURRENT USER MESSAGE:";
      "hi";
      "";
      "INSTRUCTIONS:";
      "- Consider the conversation history to maintain context and continuity";
      "- Provide a helpful, accurate, and conversational response";
      "- Be natural and engaging in your communication style";
      "";
      "RESPONSE:" ].
Proof. reflexivity. Qed.

(** C8, as stated, fails: the templates copy their arguments verbatim,
    so a section label inside an argument reaches the prompt.  With an
    empty retrieved context, a conversation context that ends in a
    knowledge-base block gives, character for character, the prompt of
    a call that does have a retrieved context; the plain prompt of a
    message that quotes the label contains it; and a history label in
    the message reaches a prompt built without conversation context. *)
Lemma C8_counterexample :
  Py.str_in "KNOWLEDGE BASE CONTEXT"
    (RAGPrompts.get_rag_chat_prompt "z" ""
       ("h" +:+ blank_line +:+ "KNOWLEDGE BASE CONTEXT:" +:+ Py.nl +:+ "y"))
  = true
  /\ RAGPrompts.get_rag_chat_prompt "z" ""
       ("h" +:+ blank_line +:+ "KNOWLEDGE BASE CONTEXT:" +:+ Py.nl +:+ "y")
     = RAGPrompts.get_rag_chat_prompt "z" "y" "h"
  /\ Py.str_in "KNOWLEDGE BASE CONTEXT"
       (RAGPrompts.get_chat_prompt "KNOWLEDGE BASE CONTEXT:" "") = true
  /\ Py.str_in "CONVERSATION HISTORY"
       (RAGPrompts.get_rag_chat_prompt "CONVERSATION HISTORY:" "y" "") = true.
Proof. repeat split; vm_compute; reflexivity. Qed.

(** C8, amended: the templates themselves never write a label that was
    not asked for.  The text "KNOWLEDGE BASE CONTEXT" occurs in the
    RAG prompt built with an empty retrieved context, and in the plain
    prompt, exactly when it occurs in the user message or in the
    conversation context; "CONVERSATION HISTORY" occurs in the RAG
    prompt built with an empty conversation context exactly when it
    occurs in the retrieved context or in the user message. *)
Theorem C8_labels_only_from_arguments (um rc cc : string) :
  Py.str_in "KNOWLEDGE BASE CONTEXT" (RAGPrompts.get_rag_chat_prompt um "" cc)
  = Py.str_in "KNOWLEDGE BASE CONTEXT" cc || Py.str_in "KNOWLEDGE BASE CONTEXT" um
  /\ Py.str_in "CONVERSATION HISTORY" (RAGPrompts.get_rag_chat_prompt um rc "")
     = Py.str_in "CONVERSATION HISTORY" rc || Py.str_in "CONVERSATION HISTORY" um
  /\ Py.str_in "KNOWLEDGE BASE CONTEXT" (RAGPrompts.get_chat_prompt um cc)
     = Py.str_in "KNOWLEDGE BASE CONTEXT" cc || Py.str_in "KNOWLEDGE BASE CONTEXT" um.
Proof.
  unfold RAGPrompts.get_rag_chat_prompt, RAGPrompts.get_chat_prompt,
    RAGPrompts.get_rag_chat_prompt_parts, RAGPrompts.get_chat_prompt_parts.
  rewrite !str_in_join_nl by (discriminate || reflexivity).
  repeat split.
  - destruct cc; cbn [Py.truthy app existsb]; rewrite ?orb_false_r;
      reflexivity.
  - destruct rc; cbn [Py.truthy app existsb]; rewrite ?orb_false_r;
      reflexivity.
  - destruct cc; cbn [Py.truthy app existsb]; rewrite ?orb_false_r;
      reflexivity.
Qed.

(** ** The conversation-context builder *)

Lemma slice_from_zero {A} (l : list A) : Py.list_slice_from l 0 = l.
Proof.
  unfold Py.list_slice_from, Py.slice_index. cbn [Z.ltb Z.compare].
  rewrite Z.min_l by lia. reflexivity.
Qed.

(** For a positive [n], [l[-n:]] is the last [n] elements, all of them
    when there are fewer. *)
Lemma slice_from_minus {A} (l : list A) (n : Z) :
  0 < n ->
  Py.list_slice_from l (- n) = drop (length l - Z.to_nat n) l.
Proof.
  intros Hn. unfold Py.list_slice_from, Py.slice_index.
  destruct (Z.ltb_spec (- n) 0) as [_|]; [|lia].
  f_equal. lia.
Qed.

Lemma slice_from_minus_length {A} (l : list A) (n : Z) :
  0 < n -> (length (Py.list_slice_from l (- n)) <= Z.to_nat n)%nat.
Proof. intros Hn. rewrite slice_from_minus, length_drop by assumption. lia. Qed.

Example context_of_a_new_session :
  _build_conversation_context (sample_service (sample_model "" (inr "") []))
    (new_session sample_env) = "".
Proof. reflexivity. Qed.

(** C7: with a non-empty summary, four stored turns and a history
    window of 3, the conversation context is the summary block, the
    "Recent conversation:" label and the "User: ..." / "Assistant: ..."
    lines of the last three turns in order, each separated by a blank
    line; the oldest turn is left out. *)
Theorem C7_context_of_four_turns
    (self : VertexRAGService) (session_data : Session) (t1 t2 t3 t4 : Turn) :
  max_history_length self = 3 ->
  messages session_data = [t1; t2; t3; t4] ->
  summary session_data <> "" ->
  _build_conversation_context self session_data
  = Py.join blank_line
      [ "Previous conversation summary:" +:+ Py.nl +:+ summary session_data;
        "Recent conversation:";
        "User: " +:+ user t2; "Assistant: " +:+ assistant t2;
        "User: " +:+ user t3; "Assistant: " +:+ assistant t3;
        "User: " +:+ user t4; "Assistant: " +:+ assistant t4 ].
Proof.
  intros Hmax Hmsgs Hsum. unfold _build_conversation_context.
  rewrite Hmax, Hmsgs.
  destruct (summary session_data) as [|c s]; [congruence|].
  reflexivity.
Qed.

Lemma C7_context_of_four_turns_witness :
  _build_conversation_context (sample_service (sample_model "" (inr "") []))
    (sample_session 4
       [sample_turn "1"; sample_turn "2"; sample_turn "3"; sample_turn "4"]
       "so far")
  = Py.join blank_line
      [ "Previous conversation summary:" +:+ Py.nl +:+ "so far";
        "Recent conversation:";
        "User: q2"; "Assistant: a2";
        "User: q3"; "Assistant: a3";
        "User: q4"; "Assistant: a4" ].
Proof.
  apply (C7_context_of_four_turns
           (sample_service (sample_model "" (inr "") []))
           (sample_session 4
              [sample_turn "1"; sample_turn "2"; sample_turn "3";
               sample_turn "4"] "so far")
           (sample_turn "1") (sample_turn "2") (sample_turn "3")
           (sample_turn "4")).
  - reflexivity.
  - reflexivity.
  - discriminate.
Defined.

(** C10: a history window of 0 does not switch the history off.  The
    slice [messages[-0:]] is the whole list, so the context lists every
    turn still stored in the session. *)
Theorem C10_zero_window_keeps_every_turn
    (self : VertexRAGService) (session_data : Session) :
  max_history_length self = 0 ->
  Py.list_slice_from (messages session_data) (- max_history_length self)
  = messages session_data
  /\ _build_conversation_context self session_data
     = Py.join blank_line
         ((if Py.truthy (summary session_data)
           then [ "Previous conversation summary:" +:+ Py.nl
                  +:+ summary session_data ]
           else [])
          ++ (if Py.nonempty (messages session_data)
              then "Recent conversation:" :: turn_lines (messages session_data)
              else [])).
Proof.
  intros Hmax. unfold _build_conversation_context. rewrite Hmax.
  change (- 0) with 0. rewrite slice_from_zero. split; reflexivity.
Qed.

Lemma C10_zero_window_keeps_every_turn_witness :
  Py.list_slice_from
    (messages (sample_session 3
                 [sample_turn "1"; sample_turn "2"; sample_turn "3"] ""))
    (- max_history_length zero_window_service)
  = [sample_turn "1"; sample_turn "2"; sample_turn "3"]
  /\ _build_conversation_context zero_window_service
       (sample_session 3
          [sample_turn "1"; sample_turn "2"; sample_turn "3"] "")
     = Py.join blank_line
         [ "Recent conversation:";
           "User: q1"; "Assistant: a1";
           "User: q2"; "Assistant: a2";
           "User: q3"; "Assistant: a3" ].
Proof.
  exact (C10_zero_window_keeps_every_turn zero_window_service
           (sample_session 3
              [sample_turn "1"; sample_turn "2"; sample_turn "3"] "")
           eq_refl).
Defined.

(** ** The effect monad *)

Lemma run_bind {A B} (m : M A) (k : A -> M B) (s : Session) :
  (m ≫= k) s
  = match m s with
    | (Ok a, s1, l1) => match k a s1 with (r, s2, l2) => (r, s2, l1 ++ l2) end
    | (Raise e, s1, l1) => (Raise e, s1, l1)
    end.
Proof. reflexivity. Qed.

Lemma appends_app l1 l2 : appends (l1 ++ l2) = appends l1 ++ appends l2.
Proof. apply omap_app. Qed.

Lemma frames_app l1 l2 : frames (l1 ++ l2) = frames l1 ++ frames l2.
Proof. apply omap_app. Qed.

Lemma yields_app l1 l2 : yields (l1 ++ l2) = yields l1 ++ yields l2.
Proof. apply omap_app. Qed.

Lemma committed_app l1 l2 : committed (l1 ++ l2) = committed l1 || committed l2.
Proof. apply existsb_app. Qed.

(** A primitive that touches neither the count nor the turn list and
    logs no append, commit or frame. *)
Ltac quiet_prim := intros s; cbn; repeat split; lia.

Section Quiet.
Context {A B : Type}.

Lemma quiet_ret (a : A) : quiet (ret a).
Proof. quiet_prim. Qed.

Lemma quiet_mret (a : A) : quiet (mret a : M A).
Proof. apply quiet_ret. Qed.

Lemma quiet_raise (e : string) : quiet (raise e : M A).
Proof. quiet_prim. Qed.

Lemma quiet_lift (r : raises A) : quiet (lift r).
Proof. destruct r; [apply quiet_raise|apply quiet_ret]. Qed.

Lemma quiet_bind (m : M A) (k : A -> M B) :
  quiet m -> (forall a, quiet (k a)) -> quiet (m ≫= k).
Proof.
  intros Hm Hk s. rewrite run_bind. specialize (Hm s).
  destruct (m s) as [[[a|e] s1] l1]; [|exact Hm].
  specialize (Hk a s1). destruct (k a s1) as [[r s2] l2].
  rewrite appends_app, committed_app, frames_app.
  destruct Hm as (Hc & -> & -> & -> & Hn), Hk as (Hc' & -> & -> & -> & Hn').
  repeat split; [congruence|lia].
Qed.

Lemma quiet_try (body : M A) (handler : string -> M A) :
  quiet body -> (forall e, quiet (handler e)) ->
  quiet (try_except body handler).
Proof.
  intros Hm Hk s. unfold try_except. specialize (Hm s).
  destruct (body s) as [[[a|e] s1] l1]; [exact Hm|].
  specialize (Hk e s1). destruct (handler e s1) as [[r s2] l2].
  rewrite appends_app, committed_app, frames_app.
  destruct Hm as (Hc & -> & -> & -> & Hn), Hk as (Hc' & -> & -> & -> & Hn').
  repeat split; [congruence|lia].
Qed.
End Quiet.

Lemma quiet_read_session : quiet read_session.
Proof. quiet_prim. Qed.

Lemma quiet_set_summary v : quiet (set_summary v).
Proof. quiet_prim. Qed.

Lemma quiet_set_last_updated v : quiet (set_last_updated v).
Proof. quiet_prim. Qed.

Lemma slice_from_length {A} (l : list A) (k : Z) :
  (length (Py.list_slice_from l k) <= length l)%nat.
Proof. unfold Py.list_slice_from. rewrite length_drop. lia. Qed.

(** [session["messages"] = session["messages"][k:]] *)
Lemma quiet_truncate k :
  quiet (read_session
         ≫= fun session_data =>
              set_messages (Py.list_slice_from (messages session_data) k)).
Proof.
  intros s. cbn. repeat split. apply slice_from_length.
Qed.

Lemma quiet_emit_retrieval q : quiet (emit (EvRetrievalQuery q)).
Proof. quiet_prim. Qed.

Lemma quiet_emit_generate p : quiet (emit (EvGenerate p)).
Proof. quiet_prim. Qed.

Lemma quiet_emit_generate_stream p : quiet (emit (EvGenerateStream p)).
Proof. quiet_prim. Qed.

Lemma quiet_emit_yield c ctx : quiet (emit (EvYield c ctx)).
Proof. quiet_prim. Qed.

Lemma quiet_for_each {A} (xs : list A) (body : A -> M unit) :
  (forall x, quiet (body x)) -> quiet (for_each xs body).
Proof.
  intros Hbody. induction xs as [|x xs IH]; cbn [for_each].
  - apply quiet_ret.
  - apply quiet_bind; [apply Hbody|intros _; exact IH].
Qed.

(** One step of the syntax-directed proof that a computation is quiet. *)
Ltac quiet_step :=
  first
    [ apply quiet_ret | apply quiet_mret | apply quiet_raise | apply quiet_lift
    | apply quiet_truncate
    | apply quiet_read_session | apply quiet_set_summary
    | apply quiet_set_last_updated | apply quiet_emit_retrieval
    | apply quiet_emit_generate | apply quiet_emit_generate_stream
    | apply quiet_emit_yield
    | apply quiet_for_each; intros
    | apply quiet_bind; [|intros]
    | apply quiet_try; [|intros]
    | match goal with
      | |- quiet (if ?b then _ else _) => destruct b
      | |- quiet (match ?x with _ => _ end) => destruct x
      end ].

Ltac quiet_tac := repeat quiet_step.

Lemma quiet_retrieve self query : quiet (_retrieve_rag_context self query).
Proof. unfold _retrieve_rag_context. quiet_tac. Qed.

Lemma quiet_summarize_conversation self msgs :
  quiet (summarize_conversation self msgs).
Proof. unfold summarize_conversation. quiet_tac. Qed.

Lemma quiet_summarize_if_due self : quiet (summarize_if_due self).
Proof.
  unfold summarize_if_due.
  repeat first [apply quiet_summarize_conversation | quiet_step].
Qed.

Lemma quiet_build_prompt self message use_rag :
  quiet (build_prompt self message use_rag).
Proof.
  unfold build_prompt. repeat first [apply quiet_retrieve | quiet_step].
Qed.

Lemma quiet_chat_with_history self message use_rag :
  quiet (chat_with_history self message use_rag).
Proof.
  unfold chat_with_history.
  repeat first [apply quiet_build_prompt | apply quiet_summarize_if_due
               | quiet_step].
Qed.

Lemma quiet_chat_with_history_stream self message use_rag :
  quiet (chat_with_history_stream self message use_rag).
Proof.
  unfold chat_with_history_stream.
  repeat first [apply quiet_build_prompt | apply quiet_summarize_if_due
               | quiet_step].
Qed.

(** ** Counting appended turns *)

Lemma quiet_tally {A} (m : M A) : quiet m -> tally m.
Proof.
  intros Hm s. specialize (Hm s). destruct (m s) as [[r s'] l].
  destruct Hm as (-> & -> & _ & _ & Hn). cbn. lia.
Qed.

Lemma tally_bind {A B} (m : M A) (k : A -> M B) :
  tally m -> (forall a, tally (k a)) -> tally (m ≫= k).
Proof.
  intros Hm Hk s. rewrite run_bind. specialize (Hm s).
  destruct (m s) as [[[a|e] s1] l1]; [|exact Hm].
  specialize (Hk a s1). destruct (k a s1) as [[r s2] l2].
  rewrite appends_app, length_app. lia.
Qed.

Lemma tally_try {A} (body : M A) (handler : string -> M A) :
  tally body -> (forall e, tally (handler e)) -> tally (try_except body handler).
Proof.
  intros Hm Hk s. unfold try_except. specialize (Hm s).
  destruct (body s) as [[[a|e] s1] l1]; [exact Hm|].
  specialize (Hk e s1). destruct (handler e s1) as [[r s2] l2].
  rewrite appends_app, length_app. lia.
Qed.

Lemma tally_emit_frame f : tally (emit (EvFrame f)).
Proof. intros s. cbn. lia. Qed.

(** The append and the increment go together. *)
Lemma tally_update_session env request response :
  tally (update_session env request response).
Proof.
  intros s.
  cbv [update_session mbind M_bind bind append_message incr_message_count
       set_last_updated emit].
  cbn. rewrite length_app. cbn. lia.
Qed.

Lemma tally_consume session_id pairs full_response context_used :
  tally (consume session_id pairs full_response context_used).
Proof.
  revert full_response context_used.
  induction pairs as [|[chunk context] rest IH]; intros; cbn [consume].
  - apply quiet_tally, quiet_ret.
  - apply tally_bind; [apply tally_emit_frame|intros _; apply IH].
Qed.

Lemma tally_drain (gen : M unit) : quiet gen -> tally (drain gen).
Proof.
  intros Hg s. unfold drain. specialize (Hg s).
  destruct (gen s) as [[[[]|e] s1] l];
    destruct Hg as (-> & -> & _ & _ & Hn); cbn; lia.
Qed.

Lemma tally_chat_endpoint_body service env request session_id :
  tally (chat_endpoint_body service env request session_id).
Proof.
  unfold chat_endpoint_body.
  apply tally_bind; [apply quiet_tally, quiet_chat_with_history|].
  intros [response ctx].
  apply tally_bind; [apply tally_update_session|intros _].
  apply quiet_tally. quiet_tac.
Qed.

Lemma tally_generate_stream service env request session_id :
  tally (generate_stream service env request session_id).
Proof.
  unfold generate_stream. apply tally_try; [|intros; apply tally_emit_frame].
  apply tally_bind;
    [apply tally_drain, quiet_chat_with_history_stream|intros [pairs failure]].
  apply tally_bind; [apply tally_consume|intros [full_response ctx]].
  apply tally_bind; [apply quiet_tally; quiet_tac|intros _].
  apply tally_bind; [apply tally_update_session|intros _].
  apply tally_bind; [apply quiet_tally, quiet_read_session|intros session].
  apply tally_bind; [apply tally_emit_frame|intros _; apply tally_emit_frame].
Qed.

Lemma tally_force_summarize_body rag_service env session_id :
  tally (force_summarize_body rag_service env session_id).
Proof.
  unfold force_summarize_body. apply quiet_tally.
  repeat first [apply quiet_summarize_conversation | quiet_step].
Qed.

Lemma lookup_publish chat_sessions session_id session l id :
  publish chat_sessions session_id session l !! id
  = if decide (id = session_id)
    then if bool_decide (is_Some (chat_sessions !! session_id)) || committed l
         then Some session else None
    else chat_sessions !! id.
Proof.
  unfold publish.
  destruct (chat_sessions !! session_id) as [old|] eqn:Hold.
  - rewrite bool_decide_eq_true_2 by eauto. cbn.
    destruct (decide (id = session_id)) as [->|Hne].
    + apply lookup_insert_eq.
    + now apply lookup_insert_ne.
  - rewrite bool_decide_eq_false_2 by (intros [? ?]; discriminate). cbn.
    destruct (committed l), (decide (id = session_id)) as [->|Hne];
      rewrite ?lookup_insert_eq, ?lookup_insert_ne by congruence; auto.
Qed.

(** A request leaves every other session alone. *)
Lemma handle_other rq chat_sessions id :
  id <> target rq -> (handle rq chat_sessions).1 !! id = chat_sessions !! id.
Proof.
  intros Hne. destruct rq as [rs env rq|rs env rq|sid|sid|rs env sid];
    cbn [handle target fst] in *.
  - unfold chat_endpoint. destruct rs as [service|]; [|reflexivity].
    destruct (chat_endpoint_body _ _ _ _ _) as [[[r|e] s'] l]; cbn [store];
      rewrite lookup_publish; now destruct (decide _).
  - unfold chat_stream_endpoint. destruct rs as [service|]; [|reflexivity].
    destruct (generate_stream _ _ _ _ _) as [[r s'] l]; cbn [store].
    rewrite lookup_publish; now destruct (decide _).
  - reflexivity.
  - unfold delete_session. destruct (chat_sessions !! sid); cbn [store];
      [now apply lookup_delete_ne|reflexivity].
  - unfold force_summarize_session.
    destruct (chat_sessions !! sid); [|reflexivity].
    destruct (force_summarize_body _ _ _ _) as [[[r|e] s'] l]; cbn [store];
      now apply lookup_insert_ne.
Qed.

(** The session a request worked on counts what the request appended
    to it, starting from 0 when the session is new, and its turn list
    grew by no more than that. *)
Lemma handle_target rq chat_sessions session' :
  (handle rq chat_sessions).1 !! target rq = Some session' ->
  message_count session'
  = default 0 (message_count <$> chat_sessions !! target rq)
    + Z.of_nat (length (appends (handle rq chat_sessions).2))
  /\ (length (messages session')
      <= default 0%nat (length <$> (messages <$> chat_sessions !! target rq))
         + length (appends (handle rq chat_sessions).2))%nat.
Proof.
  destruct rq as [rs env rq|rs env rq|sid|sid|rs env sid];
    cbn [handle target fst snd].
  - unfold chat_endpoint. destruct rs as [service|]; cbn [store trace].
    2:{ intros ->. cbn. lia. }
    set (sid := Py.or_else (session_id rq) (uuid4 env)).
    pose proof (tally_chat_endpoint_body service env rq sid
                  (default (new_session env) (chat_sessions !! sid))) as Ht.
    destruct (chat_endpoint_body _ _ _ _ _) as [[r s'] l].
    assert (Hs : publish chat_sessions sid s' l !! sid = Some session' ->
                 session' = s').
    { rewrite lookup_publish, decide_True by reflexivity.
      destruct (_ || _); congruence. }
    destruct r; cbn [store trace]; intros H; apply Hs in H; subst s';
      destruct (chat_sessions !! sid); exact Ht.
  - unfold chat_stream_endpoint. destruct rs as [service|]; cbn [store trace].
    2:{ intros ->. cbn. lia. }
    set (sid := Py.or_else (session_id rq) (uuid4 env)).
    pose proof (tally_generate_stream service env rq sid
                  (default (new_session env) (chat_sessions !! sid))) as Ht.
    destruct (generate_stream _ _ _ _ _) as [[r s'] l]. cbn [store trace].
    rewrite lookup_publish, decide_True by reflexivity.
    destruct (_ || _); [|discriminate]. intros [= <-].
    destruct (chat_sessions !! sid); exact Ht.
  - intros ->. cbn. lia.
  - unfold delete_session. destruct (chat_sessions !! sid) eqn:Hs;
      cbn [store trace].
    + rewrite lookup_delete_eq. discriminate.
    + rewrite Hs. discriminate.
  - unfold force_summarize_session.
    destruct (chat_sessions !! sid) as [s|] eqn:Hs; cbn [store trace].
    2:{ rewrite Hs. discriminate. }
    pose proof (tally_force_summarize_body rs env sid s) as Ht.
    destruct (force_summarize_body _ _ _ _) as [[[r|e] s'] l];
      cbn [store trace]; rewrite lookup_insert_eq; intros [= <-];
      exact Ht.
Qed.

Lemma reachable_run rqs : reachable (run rqs).
Proof.
  unfold run. rewrite <- (rev_involutive rqs).
  induction (rev rqs) as [|rq rqs' IH]; [constructor|].
  cbn [rev]. rewrite foldl_app. cbn [foldl]. now constructor.
Qed.

(** In every reachable state the sessions and the history variable have
    the same keys, each message count is the number recorded, and no
    turn list holds more turns than were counted. *)
Lemma reachable_counts st :
  reachable st ->
  forall id,
    message_count <$> sessions st !! id = Z.of_nat <$> appended st !! id
    /\ (forall session,
          sessions st !! id = Some session ->
          Z.of_nat (length (messages session)) <= message_count session).
Proof.
  induction 1 as [|st rq Hst IH]; intros id.
  - cbn. rewrite !lookup_empty. split; [reflexivity|discriminate].
  - unfold step.
    pose proof (handle_other rq (sessions st) id) as Hother.
    pose proof (handle_target rq (sessions st)) as Htarget.
    destruct (handle rq (sessions st)) as [store' l]. cbn [fst snd] in *.
    cbn [sessions appended].
    destruct (decide (id = target rq)) as [->|Hne].
    + destruct (IH (target rq)) as [IHc IHn].
      destruct (store' !! target rq) as [s'|] eqn:Hs'.
      * destruct (Htarget s' eq_refl) as [Hc Hn].
        rewrite lookup_insert_eq. split.
        -- cbn. f_equal. rewrite Hc, IHc.
           destruct (appended st !! target rq); cbn; lia.
        -- intros session [= <-]. rewrite Hc.
           destruct (sessions st !! target rq) as [s|]; cbn in *; [|lia].
           specialize (IHn s eq_refl). lia.
      * rewrite lookup_delete_eq. split; [reflexivity|discriminate].
    + rewrite Hother by assumption.
      destruct (store' !! target rq);
        rewrite ?lookup_insert_ne, ?lookup_delete_ne by congruence; apply IH.
Qed.

Example six_chats_count_six_keep_three :
  let st :=
    run (replicate 6
           (PostChat (Some (sample_service (sample_model "hi" (inr "digest") [])))
              sample_env (sample_request (Some "s")))) in
  (message_count <$> sessions st !! "s") = Some 6
  /\ (length <$> (messages <$> sessions st !! "s")) = Some 3%nat
  /\ (summary <$> sessions st !! "s") = Some "digest"
  /\ appended st !! "s" = Some 6%nat.
Proof. vm_compute. repeat split. Qed.

(** C6: in every state the service can reach, the message count of a
    stored session is the number of turns that were ever appended to it,
    whatever part of them the turn list still holds (never more than
    that number); and a request never lowers the count of a session it
    keeps: the count grows by exactly the number of turns the request
    appended. *)
Theorem C6_count_is_turns_ever_appended (st : AppState) :
  reachable st ->
  (forall id session,
     sessions st !! id = Some session ->
     exists n,
       appended st !! id = Some n
       /\ message_count session = Z.of_nat n
       /\ (length (messages session) <= n)%nat)
  /\ (forall rq session session',
        sessions st !! target rq = Some session ->
        sessions (step st rq) !! target rq = Some session' ->
        message_count session'
        = message_count session
          + Z.of_nat (length (appends (handle rq (sessions st)).2))
        /\ message_count session <= message_count session').
Proof.
  intros Hst. split.
  - intros id session Hs.
    destruct (reachable_counts st Hst id) as [H Hn].
    specialize (Hn session Hs). rewrite Hs in H. cbn in H.
    destruct (appended st !! id) as [n|]; [|discriminate].
    exists n. injection H as H. split; [reflexivity|]. split; [exact H|lia].
  - intros rq session session' Hs Hs'. unfold step in Hs'.
    pose proof (handle_target rq (sessions st) session') as Ht.
    destruct (handle rq (sessions st)) as [store' l]. cbn [fst snd] in *.
    cbn [sessions] in Hs'. destruct (Ht Hs') as [Hc _].
    rewrite Hc, Hs. cbn. lia.
Qed.

Lemma C6_count_is_turns_ever_appended_witness :
  exists n,
    appended
      (run [PostChat (Some (sample_service (sample_model "hi" (inr "digest") [])))
              sample_env (sample_request (Some "s"))]) !! "s" = Some n
    /\ message_count
         (updated sample_env (sample_request (Some "s")) "hi"
            (new_session sample_env)) = Z.of_nat n
    /\ (length
          (messages
             (updated sample_env (sample_request (Some "s")) "hi"
                (new_session sample_env))) <= n)%nat.
Proof.
  refine (proj1 (C6_count_is_turns_ever_appended _ (reachable_run _)) "s" _ _).
  vm_compute. reflexivity.
Defined.

(** ** What the generation service does to a session *)

(** Run the monadic glue of a computation applied to a session, up to
    the next call whose result is not known. *)
Ltac exec :=
  cbv [mbind M_bind bind try_except read_session ret mret M_ret emit lift raise
       set_summary set_messages append_message incr_message_count
       set_last_updated update_session].

Tactic Notation "exec" "in" "*" :=
  cbv [mbind M_bind bind try_except read_session ret mret M_ret emit lift raise
       set_summary set_messages append_message incr_message_count
       set_last_updated update_session] in *.

Lemma retrieve_run self query s :
  exists c l,
    _retrieve_rag_context self query s = (Ok c, s, l) /\ yields l = [].
Proof.
  unfold _retrieve_rag_context.
  destruct (_rag_resources self) as [[|r rs]|]; exec; eauto.
  destruct (retrieval_query self _ _ _ _) as [e|resp]; eauto.
  destruct resp as [[[[[[|c cs]|]]|]]|]; eauto.
Qed.

Lemma summarize_conversation_run self msgs s :
  exists t l,
    summarize_conversation self msgs s = (Ok t, s, l) /\ yields l = [].
Proof.
  unfold summarize_conversation.
  destruct (Py.nonempty msgs); exec; eauto.
  destruct (_model self) as [model|]; eauto.
  destruct (generate_content model _) as [e|[[e|t]]]; eauto.
Qed.

Lemma build_prompt_run self message use_rag s :
  exists p c l,
    build_prompt self message use_rag s = (Ok (p, c), s, l) /\ yields l = [].
Proof.
  unfold build_prompt. rewrite run_bind.
  assert (exists c l,
            (if use_rag && rag_resources_set self
             then _retrieve_rag_context self message else ret "") s
            = (Ok c, s, l) /\ yields l = []) as (c & l & -> & Hl).
  { destruct (_ && _); [apply retrieve_run|exec; eauto]. }
  exec. rewrite !app_nil_r. eauto.
Qed.

Lemma chat_prompt_run self message use_rag s :
  exists l,
    build_prompt self message use_rag s
    = (Ok (chat_prompt self message use_rag s), s, l) /\ yields l = [].
Proof.
  unfold chat_prompt.
  destruct (build_prompt_run self message use_rag s) as (p & c & l & -> & Hl).
  eauto.
Qed.

Lemma summary_text_run self s :
  exists l,
    summarize_conversation self (messages s) s
    = (Ok (summary_text self s), s, l) /\ yields l = [].
Proof.
  unfold summary_text.
  destruct (summarize_conversation_run self (messages s) s)
    as (t & l & -> & Hl).
  eauto.
Qed.

(** The three ways the summarization block ends. *)
Lemma summarize_if_due_run self s :
  match _should_summarize self s with
  | inl e => summarize_if_due self s = (Raise e, s, [])
  | inr false => summarize_if_due self s = (Ok tt, s, [])
  | inr true =>
      exists l,
        summarize_if_due self s
        = (Ok tt,
           if Py.truthy (summary_text self s)
           then summarized (summary_text self s) s else s,
           l)
        /\ yields l = []
  end.
Proof.
  unfold summarize_if_due. exec.
  destruct (_should_summarize self s) as [e|[|]]; try reflexivity.
  destruct (summary_text_run self s) as (l & -> & Hl).
  destruct (Py.truthy (summary_text self s));
    rewrite ?app_nil_r; eauto.
Qed.

(** The blocking chat operation always returns; it leaves the session
    as it was unless the generation call succeeded, the summarization
    was due and it produced a text. *)
Lemma chat_with_history_run self message use_rag s :
  exists r c l,
    chat_with_history self message use_rag s
    = (Ok (r, c),
       match _model self with
       | None => s
       | Some model =>
           match generate_content model
                   (chat_prompt self message use_rag s).1 with
           | inl _ => s
           | inr _ =>
               match _should_summarize self s with
               | inr true =>
                   if Py.truthy (summary_text self s)
                   then summarized (summary_text self s) s else s
               | _ => s
               end
           end
       end, l)
    /\ committed l = false.
Proof.
  pose proof (quiet_chat_with_history self message use_rag s) as Hq.
  unfold chat_with_history in *.
  destruct (_model self) as [model|]; exec in *; [|eauto].
  destruct (chat_prompt_run self message use_rag s) as (l0 & Hp & _).
  rewrite Hp in *.
  destruct (chat_prompt self message use_rag s) as [p c]. cbn [fst] in *.
  destruct (generate_content model p) as [e|resp].
  { cbv beta iota in Hq. destruct Hq as [_ [_ [Hc _]]]. eauto. }
  pose proof (summarize_if_due_run self s) as Hs.
  destruct (_should_summarize self s) as [e|[|]].
  - rewrite Hs in *. cbv beta iota in Hq.
    destruct Hq as [_ [_ [Hc _]]]. eauto.
  - destruct Hs as (l & Hs & _). rewrite Hs in *.
    destruct (response_text resp) as [e|t]; cbv beta iota in Hq;
      destruct Hq as [_ [_ [Hc _]]]; eauto.
  - rewrite Hs in *.
    destruct (response_text resp) as [e|t]; cbv beta iota in Hq;
      destruct Hq as [_ [_ [Hc _]]]; eauto.
Qed.

(** ** What the handlers do *)

Lemma committed_after l evs :
  committed (l ++ evs ++ [EvCommit]) = true.
Proof.
  rewrite !committed_app. cbn. now rewrite !orb_true_r.
Qed.

Lemma publish_committed chat_sessions session_id session l :
  committed l = true ->
  publish chat_sessions session_id session l
  = <[session_id := session]> chat_sessions.
Proof.
  intros Hl. unfold publish. rewrite Hl.
  now destruct (chat_sessions !! session_id).
Qed.

(** POST /chat with an initialised service always answers 200: the
    generation service returns a response text and a context, the turn
    is appended to the session the service left, and that session is
    stored. *)
Lemma chat_endpoint_run service env request chat_sessions :
  exists r c s1 l,
    chat_with_history service (message request) (use_rag request)
      (session_of env request chat_sessions) = (Ok (r, c), s1, l)
    /\ committed l = false
    /\ chat_endpoint (Some service) env request chat_sessions
       = {| result :=
              Http200
                {| response := r;
                   response_session_id :=
                     Py.or_else (session_id request) (uuid4 env);
                   response_message_count := message_count s1 + 1;
                   response_used_rag := use_rag request;
                   context_used := Some (context_excerpt c) |};
            store :=
              <[Py.or_else (session_id request) (uuid4 env)
                := updated env request r s1]> chat_sessions;
            trace := l ++ [EvAppend (turn_of env request r); EvCommit] |}.
Proof.
  destruct (chat_with_history_run service (message request) (use_rag request)
              (session_of env request chat_sessions))
    as (r & c & l & Hrun & Hc).
  eexists r, c, _, l. split; [exact Hrun|]. split; [exact Hc|].
  unfold chat_endpoint, chat_endpoint_body. fold (session_of env request chat_sessions).
  exec. rewrite Hrun. cbv beta iota.
  rewrite publish_committed; [|apply (committed_after l [_])].
  rewrite !app_nil_r. reflexivity.
Qed.

Lemma chat_endpoint_is_over rag_service env request chat_sessions :
  chat_endpoint rag_service env request chat_sessions
  = chat_endpoint_over (chat_with_history <$> rag_service) env request
      chat_sessions.
Proof. now destruct rag_service. Qed.

(** The generalised handler, case by case: a chat operation that raises
    gives a 500 whose trace is the operation's own, one that returns
    gives a 200 whose trace ends with the append and the commit. *)
Lemma chat_endpoint_over_run chat env request chat_sessions :
  match chat (message request) (use_rag request)
          (session_of env request chat_sessions) with
  | (Raise e, s1, l) =>
      chat_endpoint_over (Some chat) env request chat_sessions
      = {| result := HTTPException 500 ("Error processing chat: " +:+ e);
           store :=
             publish chat_sessions
               (Py.or_else (session_id request) (uuid4 env)) s1 l;
           trace := l |}
  | (Ok (r, c), s1, l) =>
      chat_endpoint_over (Some chat) env request chat_sessions
      = {| result :=
             Http200
               {| response := r;
                  response_session_id :=
                    Py.or_else (session_id request) (uuid4 env);
                  response_message_count := message_count s1 + 1;
                  response_used_rag := use_rag request;
                  context_used := Some (context_excerpt c) |};
           store :=
             <[Py.or_else (session_id request) (uuid4 env)
               := updated env request r s1]> chat_sessions;
           trace := l ++ [EvAppend (turn_of env request r); EvCommit] |}
  end.
Proof.
  unfold chat_endpoint_over, chat_endpoint_body_over.
  fold (session_of env request chat_sessions). exec.
  destruct (chat (message request) (use_rag request)
              (session_of env request chat_sessions))
    as [[[[r c]|e] s1] l]; cbv beta iota; [|reflexivity].
  rewrite publish_committed; [|apply (committed_after l [_])].
  rewrite !app_nil_r. reflexivity.
Qed.

(** C9: a POST /chat that answers 500 for a session that is not in the
    store leaves the store as it was; no entry is created under the
    supplied or the drawn identifier.  This holds for the handler with
    the service of this program, which is the handler below at the
    service's own chat operation, and for the handler over any chat
    operation that does not itself write to the store: when the
    operation raises, the answer is a 500, nothing was committed and the
    store is the old one, even if the operation had written to the new
    session dict before it raised; when it returns, the answer is a 200
    and the session enters the store by the last write of the handler,
    after the operation and after the append of the turn. *)
Theorem C9_failed_chat_creates_no_session
    (env : Env) (request : ChatRequest)
    (chat_sessions : gmap string Session) :
  chat_sessions !! Py.or_else (session_id request) (uuid4 env) = None ->
  (forall (rag_service : option VertexRAGService) status_code detail,
     result (chat_endpoint rag_service env request chat_sessions)
     = HTTPException status_code detail ->
     store (chat_endpoint rag_service env request chat_sessions)
     = chat_sessions
     /\ store (chat_endpoint rag_service env request chat_sessions)
          !! Py.or_else (session_id request) (uuid4 env) = None)
  /\ (forall (rag_service : option VertexRAGService),
        chat_endpoint rag_service env request chat_sessions
        = chat_endpoint_over (chat_with_history <$> rag_service) env request
            chat_sessions
        /\ (forall service session,
              committed
                (chat_with_history service (message request) (use_rag request)
                   session).2 = false))
  /\ (forall chat status_code detail,
        (forall session,
           committed (chat (message request) (use_rag request) session).2
           = false) ->
        result (chat_endpoint_over (Some chat) env request chat_sessions)
        = HTTPException status_code detail ->
        status_code = 500
        /\ (exists e s1 l,
              chat (message request) (use_rag request) (new_session env)
              = (Raise e, s1, l)
              /\ detail = "Error processing chat: " +:+ e
              /\ trace (chat_endpoint_over (Some chat) env request
                          chat_sessions) = l)
        /\ committed
             (trace (chat_endpoint_over (Some chat) env request chat_sessions))
           = false
        /\ store (chat_endpoint_over (Some chat) env request chat_sessions)
           = chat_sessions
        /\ store (chat_endpoint_over (Some chat) env request chat_sessions)
             !! Py.or_else (session_id request) (uuid4 env) = None)
  /\ (forall chat body,
        (forall session,
           committed (chat (message request) (use_rag request) session).2
           = false) ->
        result (chat_endpoint_over (Some chat) env request chat_sessions)
        = Http200 body ->
        exists r c s1 l,
          chat (message request) (use_rag request) (new_session env)
          = (Ok (r, c), s1, l)
          /\ trace (chat_endpoint_over (Some chat) env request chat_sessions)
             = l ++ [EvAppend (turn_of env request r); EvCommit]
          /\ committed l = false
          /\ store (chat_endpoint_over (Some chat) env request chat_sessions)
             = <[Py.or_else (session_id request) (uuid4 env)
                 := updated env request r s1]> chat_sessions).
Proof.
  intros Hnew.
  assert (Hof : session_of env request chat_sessions = new_session env)
    by (unfold session_of; now rewrite Hnew).
  split; [|split; [|split]].
  - intros rag_service status_code detail Hfail.
    destruct rag_service as [service|].
    + destruct (chat_endpoint_run service env request chat_sessions)
        as (r & c & s1 & l & _ & _ & Hrun).
      rewrite Hrun in Hfail. discriminate.
    + split; [reflexivity|exact Hnew].
  - intros rag_service. split; [apply chat_endpoint_is_over|].
    intros service session.
    destruct (chat_with_history_run service (message request)
                (use_rag request) session) as (r & c & l & -> & Hc).
    exact Hc.
  - intros chat status_code detail Hquiet Hfail.
    pose proof (chat_endpoint_over_run chat env request chat_sessions) as Hrun.
    rewrite Hof in Hrun. specialize (Hquiet (new_session env)).
    destruct (chat (message request) (use_rag request) (new_session env))
      as [[[[r c]|e] s1] l]; rewrite Hrun in *; cbn [result store trace snd] in *;
      [discriminate|].
    injection Hfail as <- <-.
    assert (Hstore : publish chat_sessions
                       (Py.or_else (session_id request) (uuid4 env)) s1 l
                     = chat_sessions)
      by (unfold publish; now rewrite Hnew, Hquiet).
    rewrite Hstore. split; [reflexivity|]. split; [now exists e, s1, l|].
    repeat split; assumption.
  - intros chat body Hquiet Hok.
    pose proof (chat_endpoint_over_run chat env request chat_sessions) as Hrun.
    rewrite Hof in Hrun. specialize (Hquiet (new_session env)).
    destruct (chat (message request) (use_rag request) (new_session env))
      as [[[[r c]|e] s1] l]; rewrite Hrun in *; cbn [result store trace snd] in *;
      [|discriminate].
    exists r, c, s1, l. repeat split. exact Hquiet.
Qed.

Lemma C9_failed_chat_creates_no_session_witness :
  result (chat_endpoint_over (Some failing_chat) sample_env
            (sample_request None) ∅)
  = HTTPException 500 "Error processing chat: provider unavailable"
  /\ (exists e s1 l,
        failing_chat (message (sample_request None))
          (use_rag (sample_request None)) (new_session sample_env)
        = (Raise e, s1, l)
        /\ summary s1 = "draft")
  /\ store (chat_endpoint_over (Some failing_chat) sample_env
              (sample_request None) ∅) = ∅
  /\ store (chat_endpoint None sample_env (sample_request None) ∅) = ∅.
Proof.
  pose proof (C9_failed_chat_creates_no_session sample_env
                (sample_request None) ∅ eq_refl) as (Hmain & _ & Hover & _).
  split; [reflexivity|]. split; [|split].
  - eexists _, _, _. split; reflexivity.
  - apply (Hover failing_chat 500
             "Error processing chat: provider unavailable").
    + intros session. reflexivity.
    + reflexivity.
  - apply (Hmain None 500 "RAG service not initialized"). reflexivity.
Defined.

(** The session is stored by the last write of the handler: whatever
    the generation service does, the trace of a chat request is the
    service's own trace, which commits nothing, then the append and the
    commit. *)
Lemma chat_endpoint_commits_last service env request chat_sessions :
  exists l t,
    trace (chat_endpoint (Some service) env request chat_sessions)
    = l ++ [EvAppend t; EvCommit]
    /\ committed l = false.
Proof.
  destruct (chat_endpoint_run service env request chat_sessions)
    as (r & c & s1 & l & _ & Hc & ->).
  cbn [trace]. eauto.
Qed.

(** ** The summarization trigger *)

Lemma should_summarize_true self session_data :
  _should_summarize self session_data = inr true
  <-> 0 < message_count session_data
      /\ summarize_threshold self <> 0
      /\ message_count session_data mod summarize_threshold self = 0.
Proof.
  unfold _should_summarize, Py.int_mod.
  destruct (Z.gtb_spec (message_count session_data) 0) as [Hpos|Hpos].
  - destruct (Z.eqb_spec (summarize_threshold self) 0) as [Hz|Hz].
    + split; [discriminate|]. intros (_ & H & _). contradiction.
    + destruct (Z.eqb_spec (message_count session_data
                              mod summarize_threshold self) 0) as [Hm|Hm].
      * split; auto.
      * split; [discriminate|]. intros (_ & _ & H). contradiction.
  - split; [discriminate|]. intros (H & _). lia.
Qed.

Example should_summarize_at_threshold_5 :
  map (fun n => _should_summarize digest_service (sample_session n [] ""))
    [0; 1; 2; 3; 4; 5; 6; 10; 15]
  = map inr [false; false; false; false; false; true; false; true; true].
Proof. reflexivity. Qed.

(** C1, as stated, fails: the trigger is evaluated inside the chat
    operation, before the handler appends the turn and increments the
    count.  A session with 4 counted turns reaches a count of 5,
    divisible by the threshold 5, in a call that neither overwrites the
    summary (the summarization would have produced "digest") nor cuts
    the turn list, which now holds 5 entries. *)
Lemma C1_counterexample :
  (message_count
   <$> store (chat_endpoint (Some digest_service) sample_env
                (sample_request (Some "s")) (sample_store 4)) !! "s")
  = Some 5
  /\ 5 mod summarize_threshold digest_service = 0
  /\ summary_text digest_service
       (session_of sample_env (sample_request (Some "s")) (sample_store 4))
     = "digest"
  /\ (summary
      <$> store (chat_endpoint (Some digest_service) sample_env
                   (sample_request (Some "s")) (sample_store 4)) !! "s")
     = Some "old"
  /\ (length
      <$> (messages
           <$> store (chat_endpoint (Some digest_service) sample_env
                        (sample_request (Some "s")) (sample_store 4)) !! "s"))
     = Some 5%nat.
Proof. vm_compute. repeat split. Qed.

(** C1, amended: the trigger reads the message count as it stands
    before the handler's increment.  When that count is positive and
    divisible by the (non-zero) threshold, a POST /chat whose generation
    call succeeds and whose summarization yields a non-empty text
    overwrites the summary with that text and cuts the turn list to its
    last 2 entries before the new turn is appended, so that at most 3
    turns are stored; when that count is not positive and divisible,
    the summary stays and the new turn is appended to the whole list. *)
Theorem C1_trigger_reads_count_before_increment
    (service : VertexRAGService) (env : Env) (request : ChatRequest)
    (chat_sessions : gmap string Session) :
  (forall model resp,
     _model service = Some model ->
     0 < message_count (session_of env request chat_sessions) ->
     summarize_threshold service <> 0 ->
     message_count (session_of env request chat_sessions)
       mod summarize_threshold service = 0 ->
     generate_content model
       (chat_prompt service (message request) (use_rag request)
          (session_of env request chat_sessions)).1 = inr resp ->
     summary_text service (session_of env request chat_sessions) <> "" ->
     exists session' r,
       store (chat_endpoint (Some service) env request chat_sessions)
         !! Py.or_else (session_id request) (uuid4 env) = Some session'
       /\ summary session'
          = summary_text service (session_of env request chat_sessions)
       /\ messages session'
          = Py.list_slice_from
              (messages (session_of env request chat_sessions)) (-2)
            ++ [turn_of env request r]
       /\ (length (messages session') <= 3)%nat
       /\ message_count session'
          = message_count (session_of env request chat_sessions) + 1)
  /\ (~ (0 < message_count (session_of env request chat_sessions)
         /\ summarize_threshold service <> 0
         /\ message_count (session_of env request chat_sessions)
              mod summarize_threshold service = 0) ->
      exists session' r,
        store (chat_endpoint (Some service) env request chat_sessions)
          !! Py.or_else (session_id request) (uuid4 env) = Some session'
        /\ summary session' = summary (session_of env request chat_sessions)
        /\ messages session'
           = messages (session_of env request chat_sessions)
             ++ [turn_of env request r]
        /\ message_count session'
           = message_count (session_of env request chat_sessions) + 1).
Proof.
  destruct (chat_endpoint_run service env request chat_sessions)
    as (r & c & s1 & l & Hchat & _ & Hrun).
  destruct (chat_with_history_run service (message request) (use_rag request)
              (session_of env request chat_sessions))
    as (r' & c' & l' & Hstate & _).
  match type of Hstate with
  | _ = (_, ?st, _) => assert (Hs1 : s1 = st) by congruence
  end.
  clear Hstate Hchat. rewrite Hrun. cbn [store]. rewrite lookup_insert_eq.
  clear Hrun.
  set (s := session_of env request chat_sessions) in *.
  split.
  - intros model resp Hmodel Hpos Hthr Hdiv Hgen Htext.
    assert (Hdue : _should_summarize service s = inr true)
      by now apply should_summarize_true.
    rewrite Hmodel, Hgen, Hdue in Hs1.
    destruct (summary_text service s) as [|a t] eqn:Ht; [congruence|].
    cbn [Py.truthy] in Hs1. subst s1.
    eexists _, r. split; [reflexivity|].
    cbn [updated summarized summary messages message_count].
    split; [reflexivity|]. split; [reflexivity|]. split; [|reflexivity].
    rewrite length_app. cbn [length].
    pose proof (slice_from_minus_length (messages s) 2 ltac:(lia)) as Hlen.
    change (length (Py.list_slice_from (messages s) (-2)) <= 2)%nat in Hlen.
    lia.
  - intros Hnot.
    assert (Hs : s1 = s).
    { rewrite Hs1. destruct (_model service) as [model|]; [|reflexivity].
      destruct (generate_content model _); [reflexivity|].
      destruct (_should_summarize service s) as [e|[|]] eqn:Hdue;
        try reflexivity.
      apply should_summarize_true in Hdue. contradiction. }
    rewrite Hs. eexists _, r. split; [reflexivity|].
    cbn [updated summary messages message_count]. auto.
Qed.

Lemma C1_trigger_reads_count_before_increment_witness :
  (exists session' r,
     store (chat_endpoint (Some digest_service) sample_env
              (sample_request (Some "s")) (sample_store 5)) !! "s"
     = Some session'
     /\ summary session' = "digest"
     /\ messages session'
        = [sample_turn "4"; sample_turn "5";
           turn_of sample_env (sample_request (Some "s")) r]
     /\ (length (messages session') <= 3)%nat
     /\ message_count session' = 6)
  /\ (exists session' r,
        store (chat_endpoint (Some digest_service) sample_env
                 (sample_request (Some "s")) (sample_store 4)) !! "s"
        = Some session'
        /\ summary session' = "old"
        /\ messages session'
           = [sample_turn "1"; sample_turn "2"; sample_turn "3";
              sample_turn "4";
              turn_of sample_env (sample_request (Some "s")) r]
        /\ message_count session' = 5).
Proof.
  split.
  - refine (proj1 (C1_trigger_reads_count_before_increment digest_service
                     sample_env (sample_request (Some "s")) (sample_store 5))
              (sample_model "hi" (inr "digest") ["Hel"; "lo"])
              {| response_text := inr "hi" |} _ _ _ _ _ _).
    + reflexivity.
    + vm_compute. reflexivity.
    + vm_compute. discriminate.
    + vm_compute. reflexivity.
    + vm_compute. reflexivity.
    + vm_compute. discriminate.
  - refine (proj2 (C1_trigger_reads_count_before_increment digest_service
                     sample_env (sample_request (Some "s")) (sample_store 4))
              _).
    vm_compute. intros (_ & _ & H). discriminate.
Defined.

(** ** The streaming operation *)

Lemma yields_of_emitted ts ctx :
  yields (map (fun t => EvYield t ctx) ts) = map (fun t => (t, ctx)) ts.
Proof.
  unfold yields. induction ts as [|t ts IH]; [reflexivity|].
  cbn. now rewrite IH.
Qed.

(** The loop over the provider's increments yields the non-empty ones,
    in order, each with the retrieved context. *)
Lemma for_each_increment chunks ctx (body : Chunk -> M unit) s :
  (forall chunk s',
     body chunk s'
     = (Ok tt, s',
        if Py.truthy (increment_text chunk)
        then [EvYield (increment_text chunk) ctx] else [])) ->
  for_each chunks body s
  = (Ok tt, s,
     map (fun t => EvYield t ctx)
       (List.filter Py.truthy (map increment_text chunks))).
Proof.
  intros Hbody. induction chunks as [|chunk chunks IH]; [reflexivity|].
  cbn [for_each map List.filter]. rewrite run_bind, Hbody, IH.
  now destruct (Py.truthy (increment_text chunk)).
Qed.

(** The body of that loop in the generator. *)
Ltac loop_body :=
  intros; cbv zeta; destruct (Py.truthy (increment_text _)); reflexivity.

(** The generator never raises into its consumer, and writes no frame,
    appends no turn and commits nothing. *)
Lemma chat_with_history_stream_ok self message use_rag s :
  exists s1 l,
    chat_with_history_stream self message use_rag s = (Ok tt, s1, l)
    /\ appends l = [] /\ committed l = false /\ frames l = [].
Proof.
  pose proof (quiet_chat_with_history_stream self message use_rag s) as Hq.
  assert (Hok : exists s1 l,
             chat_with_history_stream self message use_rag s = (Ok tt, s1, l)).
  { unfold chat_with_history_stream.
    destruct (_model self) as [model|]; exec; [|eauto].
    destruct (chat_prompt_run self message use_rag s) as (l0 & -> & _).
    destruct (chat_prompt self message use_rag s) as [p c].
    destruct (generate_content_stream model p) as [e|[chunks failure]];
      [eauto|].
    rewrite (for_each_increment chunks c) by loop_body.
    destruct failure as [e|]; [eauto|].
    pose proof (summarize_if_due_run self s) as Hs.
    destruct (_should_summarize self s) as [e|[|]].
    - rewrite Hs. eauto.
    - destruct Hs as (l & -> & _). eauto.
    - rewrite Hs. eauto. }
  destruct Hok as (s1 & l & Hok). rewrite Hok in Hq.
  exists s1, l. intuition.
Qed.

(** A stream that the provider delivers whole, in a session whose
    summarization check does not fail, yields the non-empty increments
    paired with the retrieved context and nothing else. *)
Lemma chat_with_history_stream_yields self model message use_rag s chunks due :
  _model self = Some model ->
  generate_content_stream model (chat_prompt self message use_rag s).1
  = inr (chunks, None) ->
  _should_summarize self s = inr due ->
  exists s1 l,
    chat_with_history_stream self message use_rag s = (Ok tt, s1, l)
    /\ yields l
       = map (fun t => (t, (chat_prompt self message use_rag s).2))
           (List.filter Py.truthy (map increment_text chunks)).
Proof.
  intros Hmodel Hgen Hdue. unfold chat_with_history_stream.
  rewrite Hmodel. exec.
  destruct (chat_prompt_run self message use_rag s) as (l0 & -> & Hl0).
  destruct (chat_prompt self message use_rag s) as [p c]. cbn [fst snd] in *.
  rewrite Hgen, (for_each_increment chunks c) by loop_body.
  pose proof (summarize_if_due_run self s) as Hs. rewrite Hdue in Hs.
  assert (exists s1 l1, summarize_if_due self s = (Ok tt, s1, l1)
                        /\ yields l1 = []) as (s1 & l1 & -> & Hl1).
  { destruct due; [destruct Hs as (l & -> & Hl); eauto|rewrite Hs; eauto]. }
  eexists _, _. split; [reflexivity|].
  rewrite !yields_app, Hl0, Hl1, yields_of_emitted. cbn.
  now rewrite !app_nil_r.
Qed.

Lemma concat_cons_empty (x : string) (xs : list string) :
  String.concat "" (x :: xs) = x +:+ String.concat "" xs.
Proof.
  destruct xs; [|reflexivity].
  change (x = x +:+ ""). now rewrite str_append_nil_r.
Qed.

Lemma consume_run session_id pairs full_response context_used s :
  consume session_id pairs full_response context_used s
  = (Ok (full_response +:+ String.concat "" pairs.*1,
         if Py.truthy context_used then context_used
         else first_context pairs),
     s, map (fun pair => EvFrame (chunk_frame session_id pair)) pairs).
Proof.
  revert full_response context_used.
  induction pairs as [|[chunk context] rest IH]; intros full cu.
  - cbn [consume fmap list_fmap String.concat first_context map].
    rewrite str_append_nil_r. now destruct cu.
  - cbn [consume]. rewrite run_bind. cbn [emit]. rewrite IH.
    cbn [map fmap list_fmap fst first_context chunk_frame app].
    rewrite concat_cons_empty, str_append_assoc.
    destruct context, cu; reflexivity.
Qed.

Lemma frames_of_chunk_frames session_id pairs :
  frames (map (fun pair => EvFrame (chunk_frame session_id pair)) pairs)
  = map (chunk_frame session_id) pairs.
Proof.
  unfold frames. induction pairs as [|pair pairs IH]; [reflexivity|].
  cbn. now rewrite IH.
Qed.

Lemma committed_chunk_frames session_id pairs :
  committed (map (fun pair => EvFrame (chunk_frame session_id pair)) pairs)
  = false.
Proof. induction pairs as [|pair pairs IH]; [reflexivity|exact IH]. Qed.

(** POST /chat/stream with an initialised service: one chunk frame per
    yielded pair, in order, then the metadata frame and the done frame;
    the turn stored carries the concatenation of the yielded texts. *)
Lemma chat_stream_endpoint_run service env request chat_sessions :
  exists s1 l,
    chat_with_history_stream service (message request) (use_rag request)
      (session_of env request chat_sessions) = (Ok tt, s1, l)
    /\ result (chat_stream_endpoint (Some service) env request chat_sessions)
       = Http200
           (map (chunk_frame (Py.or_else (session_id request) (uuid4 env)))
              (yields l)
            ++ [ MetadataFrame (Py.or_else (session_id request) (uuid4 env))
                   (message_count s1 + 1)
                   (Some (context_excerpt (first_context (yields l))));
                 DoneFrame ])
    /\ store (chat_stream_endpoint (Some service) env request chat_sessions)
       = <[Py.or_else (session_id request) (uuid4 env)
           := updated env request (String.concat "" (yields l).*1) s1]>
           chat_sessions.
Proof.
  destruct (chat_with_history_stream_ok service (message request)
              (use_rag request) (session_of env request chat_sessions))
    as (s1 & l & Hok & _ & Hc & Hf).
  exists s1, l. split; [exact Hok|].
  unfold chat_stream_endpoint, generate_stream, drain.
  fold (session_of env request chat_sessions).
  exec. rewrite Hok. cbv beta iota. rewrite consume_run. cbv beta iota.
  cbn [result store Py.truthy]. split.
  - rewrite !frames_app, Hf, frames_of_chunk_frames. reflexivity.
  - rewrite publish_committed; [reflexivity|].
    rewrite !committed_app, Hc, committed_chunk_frames. reflexivity.
Qed.

Lemma should_summarize_defined self session_data :
  summarize_threshold self <> 0 \/ message_count session_data <= 0 ->
  exists due, _should_summarize self session_data = inr due.
Proof.
  intros H. unfold _should_summarize, Py.int_mod.
  destruct (Z.gtb_spec (message_count session_data) 0); [|eauto].
  destruct (Z.eqb_spec (summarize_threshold self) 0); [lia|eauto].
Qed.

(** C5: when the provider delivers the two increments "Hel" and "lo"
    and the stream ends without an exception (and the summarization
    check can be evaluated: the threshold is not 0, or the session has
    no counted turn), POST /chat/stream emits exactly a chunk frame
    "Hel", a chunk frame "lo", one metadata frame and one done frame, in
    this order, and the turn appended to the stored session has the
    assistant text "Hello". *)
Theorem C5_stream_of_hel_lo
    (service : VertexRAGService) (model : GenerativeModel) (env : Env)
    (request : ChatRequest) (chat_sessions : gmap string Session)
    (chunks : list Chunk) :
  _model service = Some model ->
  generate_content_stream model
    (chat_prompt service (message request) (use_rag request)
       (session_of env request chat_sessions)).1 = inr (chunks, None) ->
  map increment_text chunks = ["Hel"; "lo"] ->
  summarize_threshold service <> 0
  \/ message_count (session_of env request chat_sessions) <= 0 ->
  exists n ctx session',
    result (chat_stream_endpoint (Some service) env request chat_sessions)
    = Http200
        [ ChunkFrame "Hel" (Py.or_else (session_id request) (uuid4 env));
          ChunkFrame "lo" (Py.or_else (session_id request) (uuid4 env));
          MetadataFrame (Py.or_else (session_id request) (uuid4 env)) n ctx;
          DoneFrame ]
    /\ store (chat_stream_endpoint (Some service) env request chat_sessions)
         !! Py.or_else (session_id request) (uuid4 env) = Some session'
    /\ last (messages session') = Some (turn_of env request "Hello")
    /\ assistant (turn_of env request "Hello") = "Hel" +:+ "lo".
Proof.
  intros Hmodel Hgen Htexts Hcheck.
  destruct (should_summarize_defined _ _ Hcheck) as (due & Hdue).
  destruct (chat_with_history_stream_yields service model (message request)
              (use_rag request) (session_of env request chat_sessions)
              chunks due Hmodel Hgen Hdue) as (s1 & l & Hgenr & Hy).
  destruct (chat_stream_endpoint_run service env request chat_sessions)
    as (s1' & l' & Hgenr' & Hres & Hstore).
  rewrite Hgenr in Hgenr'. injection Hgenr' as <- <-.
  rewrite Htexts in Hy. cbn [List.filter Py.truthy map] in Hy.
  rewrite Hy in Hres, Hstore. cbn [map app chunk_frame fst] in Hres.
  eexists _, _, _. split; [exact Hres|].
  rewrite Hstore, lookup_insert_eq. split; [reflexivity|].
  split; [|reflexivity].
  cbn [updated messages]. rewrite last_snoc. reflexivity.
Qed.

Lemma C5_stream_of_hel_lo_witness :
  exists n ctx session',
    result (chat_stream_endpoint (Some digest_service) sample_env
              (sample_request (Some "s")) (sample_store 2))
    = Http200
        [ ChunkFrame "Hel" "s"; ChunkFrame "lo" "s";
          MetadataFrame "s" n ctx; DoneFrame ]
    /\ store (chat_stream_endpoint (Some digest_service) sample_env
                (sample_request (Some "s")) (sample_store 2)) !! "s"
       = Some session'
    /\ last (messages session')
       = Some (turn_of sample_env (sample_request (Some "s")) "Hello")
    /\ assistant (turn_of sample_env (sample_request (Some "s")) "Hello")
       = "Hel" +:+ "lo".
Proof.
  apply (C5_stream_of_hel_lo digest_service
           (sample_model "hi" (inr "digest") ["Hel"; "lo"]) sample_env
           (sample_request (Some "s")) (sample_store 2)
           [text_chunk "Hel"; text_chunk "lo"]).
  - reflexivity.
  - reflexivity.
  - reflexivity.
  - left. vm_compute. discriminate.
Defined.

Example stream_frames_of_a_new_session :
  result (chat_stream_endpoint (Some digest_service) sample_env
            (sample_request None) ∅)
  = Http200
      [ ChunkFrame "Hel" "fresh-id"; ChunkFrame "lo" "fresh-id";
        MetadataFrame "fresh-id" 1 (Some ""); DoneFrame ].
Proof. vm_compute. reflexivity. Qed.

(** ** The context excerpt *)

Lemma truthy_of_positive_len (s : string) : 0 < Py.len s -> Py.truthy s = true.
Proof. destruct s; [unfold Py.len; cbn; lia|reflexivity]. Qed.

Lemma substring_prefix_length (n : nat) (s : string) :
  String.length (String.substring 0 n s) = Nat.min n (String.length s).
Proof.
  revert s. induction n as [|n IH]; intros [|c s]; cbn; try reflexivity.
  now rewrite IH.
Qed.

Lemma str_length_append (a b : string) :
  String.length (a +:+ b) = (String.length a + String.length b)%nat.
Proof.
  induction a as [|c a IH]; [reflexivity|].
  change (S (String.length (a +:+ b)) = S (String.length a + String.length b)).
  now rewrite IH.
Qed.

(** The excerpt of a context: its first 200 characters and "..." when
    it is longer than 200 characters, the context itself otherwise. *)
Lemma context_excerpt_cases (ctx : string) :
  context_excerpt ctx
  = if 200 <? Py.len ctx then String.substring 0 200 ctx +:+ "..." else ctx.
Proof.
  unfold context_excerpt. rewrite Z.gtb_ltb.
  destruct (Z.ltb_spec 200 (Py.len ctx)) as [Hlong|Hshort].
  - rewrite truthy_of_positive_len by lia. cbn [andb].
    unfold Py.str_slice_to, Py.slice_index. cbn [Z.ltb Z.compare].
    rewrite Z.min_l by lia. reflexivity.
  - now rewrite andb_false_r.
Qed.

Lemma context_excerpt_long_length (ctx : string) :
  200 < Py.len ctx -> Py.len (context_excerpt ctx) = 203.
Proof.
  intros Hlong. rewrite context_excerpt_cases.
  destruct (Z.ltb_spec 200 (Py.len ctx)); [|lia].
  unfold Py.len in *. rewrite str_length_append, substring_prefix_length.
  cbn [String.length]. lia.
Qed.

(** C3, as stated, fails in its last part: the field is never absent.
    Without a retrieval corpus there is no context, and both endpoints
    report the empty string. *)
Lemma C3_counterexample :
  (chat_prompt digest_service "hello" true (new_session sample_env)).2 = ""
  /\ match result (chat_endpoint (Some digest_service) sample_env
                     (sample_request None) ∅) with
     | Http200 r => context_used r = Some "" /\ context_used r <> None
     | HTTPException _ _ => False
     end
  /\ result (chat_stream_endpoint (Some digest_service) sample_env
               (sample_request None) ∅)
     = Http200
         [ ChunkFrame "Hel" "fresh-id"; ChunkFrame "lo" "fresh-id";
           MetadataFrame "fresh-id" 1 (Some ""); DoneFrame ].
Proof. vm_compute. repeat split. discriminate. Qed.

(** C3, amended: both endpoints always report a context_used string,
    the excerpt of the context they were given: its first 200
    characters followed by "..." when it is longer than 200 characters,
    the context itself when it has at most 200 characters, which is the
    empty string when there was no context.  For POST /chat the context
    is the one the chat operation returned; for POST /chat/stream it is
    the context of the first yielded pair that carries one. *)
Theorem C3_context_used_is_the_excerpt
    (service : VertexRAGService) (env : Env) (request : ChatRequest)
    (chat_sessions : gmap string Session) :
  (forall ctx,
     context_excerpt ctx
     = if 200 <? Py.len ctx then String.substring 0 200 ctx +:+ "..."
       else ctx)
  /\ (exists body r ctx s1 l,
        result (chat_endpoint (Some service) env request chat_sessions)
        = Http200 body
        /\ chat_with_history service (message request) (use_rag request)
             (session_of env request chat_sessions) = (Ok (r, ctx), s1, l)
        /\ context_used body = Some (context_excerpt ctx))
  /\ (exists s1 l n,
        chat_with_history_stream service (message request) (use_rag request)
          (session_of env request chat_sessions) = (Ok tt, s1, l)
        /\ result (chat_stream_endpoint (Some service) env request
                     chat_sessions)
           = Http200
               (map (chunk_frame (Py.or_else (session_id request) (uuid4 env)))
                  (yields l)
                ++ [ MetadataFrame
                       (Py.or_else (session_id request) (uuid4 env)) n
                       (Some (context_excerpt (first_context (yields l))));
                     DoneFrame ])).
Proof.
  split; [exact context_excerpt_cases|]. split.
  - destruct (chat_endpoint_run service env request chat_sessions)
      as (r & c & s1 & l & Hchat & _ & Hrun).
    rewrite Hrun. cbn [result]. eexists _, r, c, s1, l.
    split; [reflexivity|]. split; [exact Hchat|reflexivity].
  - destruct (chat_stream_endpoint_run service env request chat_sessions)
      as (s1 & l & Hgen & Hres & _).
    exists s1, l, (message_count s1 + 1). split; [exact Hgen|exact Hres].
Qed.

Example excerpt_of_a_long_context :
  context_excerpt
    (String.concat "" (replicate 25 "0123456789"))
  = String.concat "" (replicate 20 "0123456789") +:+ "...".
Proof. vm_compute. reflexivity. Qed.

Example excerpt_of_200_characters :
  context_excerpt (String.concat "" (replicate 20 "0123456789"))
  = String.concat "" (replicate 20 "0123456789").
Proof. vm_compute. reflexivity. Qed.

(** ** Retrieval *)

Lemma substring_min (n : nat) (s : string) :
  String.substring 0 (Nat.min n (String.length s)) s = String.substring 0 n s.
Proof.
  revert s. induction n as [|n IH]; intros [|c s]; cbn; try reflexivity.
  now rewrite IH.
Qed.

(** For a non-negative bound, [s[:n]] is the first [n] characters. *)
Lemma str_slice_to_nonneg (s : string) (n : Z) :
  0 <= n ->
  Py.str_slice_to s n = String.substring 0 (Z.to_nat n) s
  /\ Py.len (Py.str_slice_to s n) <= n.
Proof.
  intros Hn. unfold Py.str_slice_to, Py.slice_index, Py.len.
  destruct (Z.ltb_spec n 0); [lia|].
  replace (Z.to_nat (Z.min n (Z.of_nat (String.length s))))
    with (Nat.min (Z.to_nat n) (String.length s)) by lia.
  rewrite substring_min. split; [reflexivity|].
  rewrite substring_prefix_length. lia.
Qed.

Lemma str_slice_to_empty (n : Z) : Py.str_slice_to "" n = "".
Proof. unfold Py.str_slice_to. now destruct (Py.slice_index _ _). Qed.

Example retrieve_joins_the_non_empty_texts :
  _retrieve_rag_context
    (sample_rag_service (sample_model "" (inr "") []) sample_found)
    "q" (new_session sample_env)
  = (Ok ("alpha" +:+ Py.nl +:+ Py.nl +:+ "beta"), new_session sample_env,
     [EvRetrievalQuery "q"]).
Proof. reflexivity. Qed.

(** C4: without a retrieval resource the operation returns the empty
    string and calls no provider.  With one it issues exactly one
    retrieval query; when the provider raises, the result is the empty
    string; otherwise it is the text segments of the response, in the
    provider's order, joined by a blank line and cut by the slice
    [[:max_context_length]], which for a non-negative maximum keeps the
    first [max_context_length] characters.  It never raises and never
    touches the session. *)
Theorem C4_retrieve_context
    (self : VertexRAGService) (query : string) (s : Session) :
  (rag_resources_set self = false ->
   _retrieve_rag_context self query s = (Ok "", s, []))
  /\ (forall resources,
        _rag_resources self = Some resources -> resources <> [] ->
        exists c,
          _retrieve_rag_context self query s
          = (Ok c, s, [EvRetrievalQuery query])
          /\ match retrieval_query self resources query
                     (rag_similarity_top_k self)
                     (rag_vector_distance_threshold self) with
             | inl _ => c = ""
             | inr found =>
                 c = Py.str_slice_to
                       (Py.join blank_line
                          (all_text_segments (returned_contexts found)))
                       (max_context_length self)
                 /\ (0 <= max_context_length self ->
                     c = String.substring 0
                           (Z.to_nat (max_context_length self))
                           (Py.join blank_line
                              (all_text_segments (returned_contexts found)))
                     /\ Py.len c <= max_context_length self)
             end)
  /\ (exists c l, _retrieve_rag_context self query s = (Ok c, s, l)).
Proof.
  split; [|split].
  - unfold rag_resources_set, _retrieve_rag_context.
    destruct (_rag_resources self) as [[|r rs]|]; try discriminate;
      intros _; reflexivity.
  - intros resources Hres Hne. unfold _retrieve_rag_context. rewrite Hres.
    destruct resources as [|r rs]; [congruence|]. exec.
    destruct (retrieval_query self (r :: rs) query _ _) as [e|found];
      [eexists; split; reflexivity|].
    assert (Hnone :
              "" = Py.str_slice_to "" (max_context_length self)
              /\ (0 <= max_context_length self ->
                  "" = String.substring 0
                         (Z.to_nat (max_context_length self)) ""
                  /\ Py.len "" <= max_context_length self)).
    { rewrite str_slice_to_empty. split; [reflexivity|]. intros Hmax.
      split; [now destruct (Z.to_nat _)|exact Hmax]. }
    destruct found as [[[[[[|c cs]|]]|]]|]; cbn [returned_contexts];
      eexists; (split; [reflexivity|]); try exact Hnone.
    split; [reflexivity|]. apply str_slice_to_nonneg.
  - destruct (retrieve_run self query s) as (c & l & H & _). eauto.
Qed.

Lemma C4_retrieve_context_witness :
  _retrieve_rag_context digest_service "q" (new_session sample_env)
  = (Ok "", new_session sample_env, [])
  /\ (exists c,
        _retrieve_rag_context
          (sample_rag_service (sample_model "" (inr "") []) sample_found)
          "q" (new_session sample_env)
        = (Ok c, new_session sample_env, [EvRetrievalQuery "q"])
        /\ c = Py.str_slice_to ("alpha" +:+ blank_line +:+ "beta") 4000
        /\ (0 <= 4000 ->
            c = String.substring 0 4000 ("alpha" +:+ blank_line +:+ "beta")
            /\ Py.len c <= 4000))
  /\ (exists c,
        _retrieve_rag_context
          (sample_rag_service (sample_model "" (inr "") [])
             (inl "deadline exceeded"))
          "q" (new_session sample_env)
        = (Ok c, new_session sample_env, [EvRetrievalQuery "q"])
        /\ c = "").
Proof.
  split; [|split].
  - exact (proj1 (C4_retrieve_context digest_service "q"
                    (new_session sample_env)) eq_refl).
  - refine (proj1 (proj2 (C4_retrieve_context
                            (sample_rag_service (sample_model "" (inr "") [])
                               sample_found)
                            "q" (new_session sample_env)))
              sample_corpus eq_refl _).
    discriminate.
  - refine (proj1 (proj2 (C4_retrieve_context
                            (sample_rag_service (sample_model "" (inr "") [])
                               (inl "deadline exceeded"))
                            "q" (new_session sample_env)))
              sample_corpus eq_refl _).
    discriminate.
Defined.

(** ** Failed summarization *)

(** A provider exception during summarization is recovered as the empty
    summary; the session is not touched. *)
Lemma summarize_failure_is_empty self model msgs s e :
  _model self = Some model ->
  generate_content model
    (RAGPrompts.get_summarization_prompt (Py.join Py.nl (turn_lines msgs)))
  = inl e ->
  exists l, summarize_conversation self msgs s = (Ok "", s, l).
Proof.
  intros Hmodel Hgen. unfold summarize_conversation.
  destruct (Py.nonempty msgs); exec; [|eauto].
  rewrite Hmodel, Hgen. eauto.
Qed.

(** The periodic trigger of the blocking chat operation keeps the
    summary and the turn list when no summary was produced. *)
Lemma chat_keeps_session_without_summary self message use_rag s :
  summary_text self s = "" ->
  exists r c l, chat_with_history self message use_rag s = (Ok (r, c), s, l).
Proof.
  intros Hempty.
  destruct (chat_with_history_run self message use_rag s)
    as (r & c & l & Hrun & _).
  rewrite Hempty in Hrun. cbn [Py.truthy] in Hrun.
  exists r, c, l. rewrite Hrun. f_equal. f_equal.
  destruct (_model self) as [model|]; [|reflexivity].
  destruct (generate_content model _); [reflexivity|].
  now destruct (_should_summarize self s) as [?|[|]].
Qed.

(** So does the trigger of the streaming operation. *)
Lemma stream_keeps_session_without_summary self message use_rag s :
  summary_text self s = "" ->
  exists l, chat_with_history_stream self message use_rag s = (Ok tt, s, l).
Proof.
  intros Hempty. unfold chat_with_history_stream.
  destruct (_model self) as [model|]; exec; [|eauto].
  destruct (chat_prompt_run self message use_rag s) as (l0 & -> & _).
  destruct (chat_prompt self message use_rag s) as [p c].
  destruct (generate_content_stream model p) as [e|[chunks failure]];
    [eauto|].
  rewrite (for_each_increment chunks c) by loop_body.
  destruct failure as [e|]; [eauto|].
  pose proof (summarize_if_due_run self s) as Hs.
  rewrite Hempty in Hs. cbn [Py.truthy] in Hs.
  destruct (_should_summarize self s) as [e|[|]].
  - rewrite Hs. eauto.
  - destruct Hs as (l & -> & _). eauto.
  - rewrite Hs. eauto.
Qed.

(** C2 holds for the two chat operations and fails for
    POST /sessions/{id}/summarize: that handler assigns the returned
    text to the summary without testing it.  With a provider that raises
    during summarization, the failure is recovered as the empty summary,
    the endpoint answers 200, and the stored summary "old" is replaced by
    the empty string; the turn list is kept. *)
Theorem C2_forced_summarize_erases_summary :
  digested_store !! "s"
  = Some {| messages := [turn_of sample_env (sample_request (Some "s")) "hi"];
            message_count := 1;
            summary := "digest";
            created_at := "t0";
            last_updated := Some "t2" |}
  /\ summary_text failing_digest_service
       {| messages := [turn_of sample_env (sample_request (Some "s")) "hi"];
          message_count := 1;
          summary := "digest";
          created_at := "t0";
          last_updated := Some "t2" |} = ""
  /\ result (force_summarize_session (Some failing_digest_service) sample_env
               "s" digested_store)
     = Http200 {| summarized_session_id := "s";
                  summarized_summary := "";
                  summarized_message_count := 1 |}
  /\ store (force_summarize_session (Some failing_digest_service) sample_env
              "s" digested_store) !! "s"
     = Some {| messages :=
                 [turn_of sample_env (sample_request (Some "s")) "hi"];
               message_count := 1;
               summary := "";
               created_at := "t0";
               last_updated := Some "t2" |}.
Proof. vm_compute. repeat split. Qed.

(** The same failure under the periodic trigger of POST /chat: the
    stored summary survives. *)
Example failed_periodic_summary_keeps_the_old_one :
  (summary
   <$> store (chat_endpoint (Some failing_digest_service) sample_env
                (sample_request (Some "s")) (sample_store 5)) !! "s")
  = Some "old"
  /\ (length
      <$> (messages
           <$> store (chat_endpoint (Some failing_digest_service) sample_env
                        (sample_request (Some "s")) (sample_store 5)) !! "s"))
     = Some 6%nat.
Proof. vm_compute. repeat split. Qed.

(** * Further properties of the code *)

(** ** The blocking chat operation, case by case *)

(** The reply of the blocking chat operation: the fixed marker without a
    model; the error marker with an empty context when the generation
    call, the summarization check or the reading of the response text
    raises; the stripped text and the retrieved context otherwise. *)
Lemma chat_with_history_reply self message use_rag s :
  exists s1 l,
    chat_with_history self message use_rag s
    = (Ok match _model self with
          | None => (model_not_initialized, "")
          | Some model =>
              match generate_content model
                      (chat_prompt self message use_rag s).1 with
              | inl e => (error_generating e, "")
              | inr resp =>
                  match _should_summarize self s with
                  | inl e => (error_generating e, "")
                  | inr _ =>
                      match response_text resp with
                      | inl e => (error_generating e, "")
                      | inr t =>
                          (Py.strip t, (chat_prompt self message use_rag s).2)
                      end
                  end
              end
          end, s1, l).
Proof.
  unfold chat_with_history.
  destruct (_model self) as [model|]; exec; [|eauto].
  destruct (chat_prompt_run self message use_rag s) as (l0 & -> & _).
  destruct (chat_prompt self message use_rag s) as [p c]. cbn [fst snd].
  destruct (generate_content model p) as [e|resp]; [eauto|].
  pose proof (summarize_if_due_run self s) as Hs.
  destruct (_should_summarize self s) as [e|[|]].
  - rewrite Hs. eauto.
  - destruct Hs as (l & -> & _).
    destruct (response_text resp) as [e|t]; eauto.
  - rewrite Hs. destruct (response_text resp) as [e|t]; eauto.
Qed.

(** Reply and session together. *)
Lemma chat_with_history_cases self message use_rag s :
  exists l,
    chat_with_history self message use_rag s
    = (Ok match _model self with
          | None => (model_not_initialized, "")
          | Some model =>
              match generate_content model
                      (chat_prompt self message use_rag s).1 with
              | inl e => (error_generating e, "")
              | inr resp =>
                  match _should_summarize self s with
                  | inl e => (error_generating e, "")
                  | inr _ =>
                      match response_text resp with
                      | inl e => (error_generating e, "")
                      | inr t =>
                          (Py.strip t, (chat_prompt self message use_rag s).2)
                      end
                  end
              end
          end,
       match _model self with
       | None => s
       | Some model =>
           match generate_content model
                   (chat_prompt self message use_rag s).1 with
           | inl _ => s
           | inr _ =>
               match _should_summarize self s with
               | inr true =>
                   if Py.truthy (summary_text self s)
                   then summarized (summary_text self s) s else s
               | _ => s
               end
           end
       end, l).
Proof.
  destruct (chat_with_history_reply self message use_rag s)
    as (s1 & l & Hreply).
  destruct (chat_with_history_run self message use_rag s)
    as (r & c & l' & Hrun & _).
  exists l. rewrite Hreply. rewrite Hrun in Hreply.
  injection Hreply as _ Hs _. now rewrite Hs.
Qed.

(** None of the operations that call the provider ever raises: a
    retrieval, a summarization, a blocking chat and a streamed chat all
    end normally, whatever the provider answers or raises, and the first
    two leave the session as it was. *)
Theorem provider_failures_never_escape
    (self : VertexRAGService) (message : string) (use_rag : bool)
    (msgs : list Turn) (s : Session) :
  (exists c l, _retrieve_rag_context self message s = (Ok c, s, l))
  /\ (exists t l, summarize_conversation self msgs s = (Ok t, s, l))
  /\ (exists r c s1 l,
        chat_with_history self message use_rag s = (Ok (r, c), s1, l))
  /\ (exists s1 l,
        chat_with_history_stream self message use_rag s = (Ok tt, s1, l)).
Proof.
  split; [|split; [|split]].
  - destruct (retrieve_run self message s) as (c & l & H & _). eauto.
  - destruct (summarize_conversation_run self msgs s) as (t & l & H & _).
    eauto.
  - destruct (chat_with_history_run self message use_rag s)
      as (r & c & l & H & _). eauto.
  - destruct (chat_with_history_stream_ok self message use_rag s)
      as (s1 & l & H & _). eauto.
Qed.

(** The two chat endpoints answer with an HTTP error only when the
    service was never initialised, and then with the fixed 500 and an
    unchanged store: no provider failure reaches the handlers' own
    [except] branches. *)
Theorem chat_errors_only_when_uninitialised
    (rag_service : option VertexRAGService) (env : Env)
    (request : ChatRequest) (chat_sessions : gmap string Session)
    (status_code : Z) (detail : string) :
  result (chat_endpoint rag_service env request chat_sessions)
  = HTTPException status_code detail
  \/ result (chat_stream_endpoint rag_service env request chat_sessions)
     = HTTPException status_code detail ->
  rag_service = None
  /\ status_code = 500
  /\ detail = "RAG service not initialized"
  /\ store (chat_endpoint rag_service env request chat_sessions)
     = chat_sessions
  /\ store (chat_stream_endpoint rag_service env request chat_sessions)
     = chat_sessions.
Proof.
  intros H. destruct rag_service as [service|].
  - exfalso. destruct H as [H|H].
    + destruct (chat_endpoint_run service env request chat_sessions)
        as (r & c & s1 & l & _ & _ & Hrun).
      rewrite Hrun in H. discriminate.
    + destruct (chat_stream_endpoint_run service env request chat_sessions)
        as (s1 & l & _ & Hres & _).
      rewrite Hres in H. discriminate.
  - cbn in H. destruct H as [[= <- <-]|[= <- <-]]; repeat split.
Qed.

Lemma chat_errors_only_when_uninitialised_witness :
  (None : option VertexRAGService) = None
  /\ 500 = 500
  /\ "RAG service not initialized" = "RAG service not initialized"
  /\ store (chat_endpoint None sample_env (sample_request None)
              (sample_store 2)) = sample_store 2
  /\ store (chat_stream_endpoint None sample_env (sample_request None)
              (sample_store 2)) = sample_store 2.
Proof.
  apply (chat_errors_only_when_uninitialised None sample_env
           (sample_request None) (sample_store 2) 500
           "RAG service not initialized").
  left. reflexivity.
Defined.

(** A generation call that fails is answered with 200: the reply is the
    error marker with an empty context, and the handler records it like
    an answer, as a turn of the session whose count it raises by one. *)
Theorem failed_generation_is_stored_as_a_turn
    (service : VertexRAGService) (model : GenerativeModel) (env : Env)
    (request : ChatRequest) (chat_sessions : gmap string Session)
    (e : string) :
  _model service = Some model ->
  generate_content model
    (chat_prompt service (message request) (use_rag request)
       (session_of env request chat_sessions)).1 = inl e ->
  result (chat_endpoint (Some service) env request chat_sessions)
  = Http200
      {| response := error_generating e;
         response_session_id := Py.or_else (session_id request) (uuid4 env);
         response_message_count :=
           message_count (session_of env request chat_sessions) + 1;
         response_used_rag := use_rag request;
         context_used := Some "" |}
  /\ store (chat_endpoint (Some service) env request chat_sessions)
     = <[Py.or_else (session_id request) (uuid4 env)
         := updated env request (error_generating e)
              (session_of env request chat_sessions)]> chat_sessions.
Proof.
  intros Hmodel Hgen.
  destruct (chat_endpoint_run service env request chat_sessions)
    as (r & c & s1 & l & Hrun & _ & ->).
  destruct (chat_with_history_cases service (message request)
              (use_rag request) (session_of env request chat_sessions))
    as (l' & Hcases).
  rewrite Hmodel, Hgen in Hcases. rewrite Hcases in Hrun.
  injection Hrun as <- <- <- _. split; reflexivity.
Qed.

Lemma failed_generation_is_stored_as_a_turn_witness :
  result (chat_endpoint (Some (sample_service unavailable_model)) sample_env
            (sample_request (Some "s")) (sample_store 2))
  = Http200
      {| response := error_generating "provider unavailable";
         response_session_id := "s";
         response_message_count := 2 + 1;
         response_used_rag := true;
         context_used := Some "" |}
  /\ store (chat_endpoint (Some (sample_service unavailable_model)) sample_env
              (sample_request (Some "s")) (sample_store 2))
     = <["s" := updated sample_env (sample_request (Some "s"))
                  (error_generating "provider unavailable")
                  (session_of sample_env (sample_request (Some "s"))
                     (sample_store 2))]> (sample_store 2).
Proof.
  apply (failed_generation_is_stored_as_a_turn
           (sample_service unavailable_model) unavailable_model sample_env
           (sample_request (Some "s")) (sample_store 2)
           "provider unavailable").
  - reflexivity.
  - reflexivity.
Defined.

(** With [summarize_threshold] 0 the summarization check of a session
    that has a counted turn raises, after the generation call: the
    answer the provider gave is dropped, the reply is an error marker
    with an empty context, and the session is left as it was. *)
Theorem zero_threshold_discards_the_answer
    (self : VertexRAGService) (model : GenerativeModel)
    (message : string) (use_rag : bool) (s : Session)
    (resp : GenerationResponse) :
  _model self = Some model ->
  generate_content model (chat_prompt self message use_rag s).1 = inr resp ->
  summarize_threshold self = 0 ->
  0 < message_count s ->
  exists e l,
    chat_with_history self message use_rag s
    = (Ok (error_generating e, ""), s, l).
Proof.
  intros Hmodel Hgen Hzero Hcount.
  destruct (chat_with_history_cases self message use_rag s) as (l & Hcases).
  rewrite Hmodel, Hgen in Hcases.
  assert (Hcheck : _should_summarize self s = inl "integer modulo by zero").
  { unfold _should_summarize, Py.int_mod. rewrite Hzero.
    destruct (Z.gtb_spec (message_count s) 0); [reflexivity|lia]. }
  rewrite Hcheck in Hcases. eauto.
Qed.

Lemma zero_threshold_discards_the_answer_witness :
  exists e l,
    chat_with_history zero_threshold_service "hello" false
      (sample_session 1 [sample_turn "1"] "")
    = (Ok (error_generating e, ""), sample_session 1 [sample_turn "1"] "", l).
Proof.
  apply (zero_threshold_discards_the_answer zero_threshold_service
           (sample_model "hi" (inr "digest") ["Hel"; "lo"]) "hello" false
           (sample_session 1 [sample_turn "1"] "")
           {| response_text := inr "hi" |}).
  - reflexivity.
  - reflexivity.
  - reflexivity.
  - reflexivity.
Defined.

(** When reading the text of the answer raises, the reply is the error
    marker with an empty context, but the summarization that ran before
    the read stays: the session keeps the new summary and only its last
    two turns. *)
Theorem unreadable_answer_keeps_the_new_summary
    (self : VertexRAGService) (model : GenerativeModel)
    (message : string) (use_rag : bool) (s : Session)
    (resp : GenerationResponse) (e : string) :
  _model self = Some model ->
  generate_content model (chat_prompt self message use_rag s).1 = inr resp ->
  response_text resp = inl e ->
  _should_summarize self s = inr true ->
  Py.truthy (summary_text self s) = true ->
  exists l,
    chat_with_history self message use_rag s
    = (Ok (error_generating e, ""), summarized (summary_text self s) s, l).
Proof.
  intros Hmodel Hgen Htext Hdue Hsummary.
  destruct (chat_with_history_cases self message use_rag s) as (l & Hcases).
  rewrite Hmodel, Hgen, Hdue, Htext, Hsummary in Hcases. eauto.
Qed.

Lemma unreadable_answer_keeps_the_new_summary_witness :
  exists l,
    chat_with_history (sample_service (unreadable_model "digest")) "hello"
      false (sample_session 5 [sample_turn "1"; sample_turn "2";
                               sample_turn "3"] "old")
    = (Ok (error_generating "response was blocked", ""),
       summarized
         (summary_text (sample_service (unreadable_model "digest"))
            (sample_session 5 [sample_turn "1"; sample_turn "2";
                               sample_turn "3"] "old"))
         (sample_session 5 [sample_turn "1"; sample_turn "2";
                            sample_turn "3"] "old"), l).
Proof.
  apply (unreadable_answer_keeps_the_new_summary
           (sample_service (unreadable_model "digest"))
           (unreadable_model "digest") "hello" false
           (sample_session 5 [sample_turn "1"; sample_turn "2";
                              sample_turn "3"] "old")
           {| response_text := inl "response was blocked" |}
           "response was blocked").
  - reflexivity.
  - reflexivity.
  - reflexivity.
  - reflexivity.
  - reflexivity.
Defined.

(** ** The streaming chat operation, case by case *)

Lemma first_context_of_increments ts ctx rest :
  first_context (map (fun t => (t, ctx)) ts ++ rest)
  = if Py.nonempty ts && Py.truthy ctx then ctx else first_context rest.
Proof.
  destruct ts as [|t ts]; [reflexivity|].
  cbn [map app first_context Py.nonempty andb].
  destruct (Py.truthy ctx) eqn:Hctx; [reflexivity|].
  induction ts as [|t' ts IH]; [reflexivity|].
  cbn [map app first_context]. now rewrite Hctx.
Qed.

Lemma concat_increments ts (ctx : string) rest :
  String.concat "" (map (fun t => (t, ctx)) ts ++ rest).*1
  = String.concat "" ts +:+ String.concat "" rest.*1.
Proof.
  induction ts as [|t ts IH]; [reflexivity|].
  cbn [map app fmap list_fmap fst]. rewrite !concat_cons_empty.
  change (list_fmap _ _ fst ?l) with (l.*1). rewrite IH.
  now rewrite str_append_assoc.
Qed.

(** What the generator yields, and the session it leaves, for each
    behaviour of the provider. *)
Lemma chat_with_history_stream_cases self model message use_rag s :
  _model self = Some model ->
  exists l,
    chat_with_history_stream self message use_rag s
    = (Ok tt,
       match generate_content_stream model
               (chat_prompt self message use_rag s).1 with
       | inr (_, None) =>
           match _should_summarize self s with
           | inr true =>
               if Py.truthy (summary_text self s)
               then summarized (summary_text self s) s else s
           | _ => s
           end
       | _ => s
       end, l)
    /\ yields l
       = match generate_content_stream model
                 (chat_prompt self message use_rag s).1 with
         | inl e => [(error_generating e, "")]
         | inr (chunks, failure) =>
             map (fun t => (t, (chat_prompt self message use_rag s).2))
               (List.filter Py.truthy (map increment_text chunks))
             ++ match failure with
                | Some e => [(error_generating e, "")]
                | None =>
                    match _should_summarize self s with
                    | inl e => [(error_generating e, "")]
                    | inr _ => []
                    end
                end
         end.
Proof.
  intros Hmodel. unfold chat_with_history_stream. rewrite Hmodel. exec.
  destruct (chat_prompt_run self message use_rag s) as (l0 & -> & Hl0).
  destruct (chat_prompt self message use_rag s) as [p c]. cbn [fst snd].
  destruct (generate_content_stream model p) as [e|[chunks failure]].
  { eexists. split; [reflexivity|].
    rewrite !yields_app, Hl0. reflexivity. }
  rewrite (for_each_increment chunks c) by loop_body.
  destruct failure as [e|].
  { eexists. split; [reflexivity|].
    rewrite !yields_app, Hl0, yields_of_emitted. cbn.
    now rewrite !app_nil_r. }
  pose proof (summarize_if_due_run self s) as Hs.
  destruct (_should_summarize self s) as [e|[|]].
  - rewrite Hs. eexists. split; [reflexivity|].
    rewrite !yields_app, Hl0, yields_of_emitted. cbn.
    now rewrite !app_nil_r.
  - destruct Hs as (l & -> & Hl). eexists. split; [reflexivity|].
    rewrite !yields_app, Hl0, Hl, yields_of_emitted. cbn.
    now rewrite !app_nil_r.
  - rewrite Hs. eexists. split; [reflexivity|].
    rewrite !yields_app, Hl0, yields_of_emitted. cbn.
    now rewrite !app_nil_r.
Qed.

Lemma truthy_increments (xs : list string) :
  Forall (fun t => Py.truthy t = true) (List.filter Py.truthy xs).
Proof.
  induction xs as [|x xs IH]; [constructor|].
  cbn [List.filter]. destruct (Py.truthy x) eqn:Hx; [|exact IH].
  now constructor.
Qed.

(** The generator never yields an empty text. *)
Lemma chat_with_history_stream_texts self message use_rag s :
  exists s1 l,
    chat_with_history_stream self message use_rag s = (Ok tt, s1, l)
    /\ Forall (fun t => Py.truthy t = true) (yields l).*1.
Proof.
  destruct (_model self) as [model|] eqn:Hmodel.
  - destruct (chat_with_history_stream_cases self model message use_rag s
                Hmodel) as (l & Hrun & Hy).
    eexists _, l. split; [exact Hrun|]. rewrite Hy.
    destruct (generate_content_stream model _) as [e|[chunks failure]].
    { repeat constructor. }
    rewrite fmap_app, Forall_app. split.
    + rewrite <- list_fmap_compose.
      change (Forall (fun t => Py.truthy t = true)
                (id <$> List.filter Py.truthy (map increment_text chunks))).
      rewrite list_fmap_id. apply truthy_increments.
    + destruct failure as [e|]; [repeat constructor|].
      destruct (_should_summarize self s) as [e|due]; repeat constructor.
  - unfold chat_with_history_stream. rewrite Hmodel.
    eexists _, _. split; [reflexivity|]. repeat constructor.
Qed.

(** POST /chat/stream with an initialised service never sends an error
    frame and never an empty chunk: the frames are chunk frames with
    non-empty contents, then one metadata frame that carries the count
    now stored, then the done frame; the turn stored last has the
    concatenation of the chunk contents as its assistant text. *)
Theorem stream_frames_shape
    (service : VertexRAGService) (env : Env) (request : ChatRequest)
    (chat_sessions : gmap string Session) :
  exists texts ctx session',
    result (chat_stream_endpoint (Some service) env request chat_sessions)
    = Http200
        (map (fun t => ChunkFrame t (Py.or_else (session_id request) (uuid4 env)))
           texts
         ++ [ MetadataFrame (Py.or_else (session_id request) (uuid4 env))
                (message_count session') ctx;
              DoneFrame ])
    /\ Forall (fun t => Py.truthy t = true) texts
    /\ store (chat_stream_endpoint (Some service) env request chat_sessions)
         !! Py.or_else (session_id request) (uuid4 env) = Some session'
    /\ last (messages session')
       = Some (turn_of env request (String.concat "" texts)).
Proof.
  destruct (chat_stream_endpoint_run service env request chat_sessions)
    as (s1 & l & Hrun & Hres & Hstore).
  destruct (chat_with_history_stream_texts service (message request)
              (use_rag request) (session_of env request chat_sessions))
    as (s1' & l' & Hrun' & Htexts).
  rewrite Hrun in Hrun'. injection Hrun' as <- <-.
  exists (yields l).*1, (Some (context_excerpt (first_context (yields l)))),
    (updated env request (String.concat "" (yields l).*1) s1).
  split; [|split; [exact Htexts|split]].
  - rewrite Hres. f_equal. f_equal.
    unfold fmap. rewrite map_map. reflexivity.
  - rewrite Hstore. apply lookup_insert_eq.
  - cbn [updated messages]. apply last_snoc.
Qed.

(** The frames and the stored turn of a stream whose generator yielded
    the increments [ts] and then an error marker. *)
Lemma chat_stream_endpoint_with_error service env request chat_sessions
    s1 l ts c e :
  chat_with_history_stream service (message request) (use_rag request)
    (session_of env request chat_sessions) = (Ok tt, s1, l) ->
  yields l = map (fun t => (t, c)) ts ++ [(error_generating e, "")] ->
  result (chat_stream_endpoint (Some service) env request chat_sessions)
  = Http200
      (map (fun t => ChunkFrame t (Py.or_else (session_id request) (uuid4 env)))
         ts
       ++ [ ChunkFrame (error_generating e)
              (Py.or_else (session_id request) (uuid4 env));
            MetadataFrame (Py.or_else (session_id request) (uuid4 env))
              (message_count s1 + 1)
              (Some (context_excerpt (if Py.nonempty ts then c else "")));
            DoneFrame ])
  /\ store (chat_stream_endpoint (Some service) env request chat_sessions)
     = <[Py.or_else (session_id request) (uuid4 env)
         := updated env request (String.concat "" ts +:+ error_generating e)
              s1]> chat_sessions.
Proof.
  intros Hrun Hy.
  destruct (chat_stream_endpoint_run service env request chat_sessions)
    as (s1' & l' & Hrun' & Hres & Hstore).
  rewrite Hrun in Hrun'. injection Hrun' as <- <-.
  rewrite Hy in Hres, Hstore. split.
  - rewrite Hres, map_app, map_map, first_context_of_increments.
    rewrite <- app_assoc. cbn [map app chunk_frame fst first_context].
    do 5 f_equal. now destruct ts, c.
  - rewrite Hstore, concat_increments. reflexivity.
Qed.

(** A stream that breaks after some increments is still answered with a
    complete event stream: the increments delivered so far, the error
    marker as one more chunk, the metadata and the done frame.  The turn
    is stored with the partial text followed by the error marker, and
    the session is not summarized. *)
Theorem broken_stream_is_stored_with_its_error
    (service : VertexRAGService) (model : GenerativeModel) (env : Env)
    (request : ChatRequest) (chat_sessions : gmap string Session)
    (chunks : list Chunk) (e : string) :
  _model service = Some model ->
  generate_content_stream model
    (chat_prompt service (message request) (use_rag request)
       (session_of env request chat_sessions)).1 = inr (chunks, Some e) ->
  result (chat_stream_endpoint (Some service) env request chat_sessions)
  = Http200
      (map (fun t => ChunkFrame t (Py.or_else (session_id request) (uuid4 env)))
         (List.filter Py.truthy (map increment_text chunks))
       ++ [ ChunkFrame (error_generating e)
              (Py.or_else (session_id request) (uuid4 env));
            MetadataFrame (Py.or_else (session_id request) (uuid4 env))
              (message_count (session_of env request chat_sessions) + 1)
              (Some (context_excerpt
                       (if Py.nonempty
                             (List.filter Py.truthy (map increment_text chunks))
                        then (chat_prompt service (message request)
                                (use_rag request)
                                (session_of env request chat_sessions)).2
                        else "")));
            DoneFrame ])
  /\ store (chat_stream_endpoint (Some service) env request chat_sessions)
     = <[Py.or_else (session_id request) (uuid4 env)
         := updated env request
              (String.concat ""
                 (List.filter Py.truthy (map increment_text chunks))
               +:+ error_generating e)
              (session_of env request chat_sessions)]> chat_sessions.
Proof.
  intros Hmodel Hgen.
  destruct (chat_with_history_stream_cases service model (message request)
              (use_rag request) (session_of env request chat_sessions) Hmodel)
    as (l & Hrun & Hy).
  rewrite Hgen in Hrun, Hy.
  exact (chat_stream_endpoint_with_error service env request chat_sessions
           _ l _ _ e Hrun Hy).
Qed.

Lemma broken_stream_is_stored_with_its_error_witness :
  result (chat_stream_endpoint
            (Some (sample_service (broken_stream_model ["Hel"; ""; "lo"])))
            sample_env (sample_request (Some "s")) (sample_store 2))
  = Http200
      [ ChunkFrame "Hel" "s"; ChunkFrame "lo" "s";
        ChunkFrame (error_generating "connection reset") "s";
        MetadataFrame "s" 3 (Some ""); DoneFrame ]
  /\ (assistant <$>
      (store (chat_stream_endpoint
                (Some (sample_service (broken_stream_model ["Hel"; ""; "lo"])))
                sample_env (sample_request (Some "s")) (sample_store 2))
         !! "s" ≫= fun session => last (messages session)))
     = Some ("Hello" +:+ error_generating "connection reset").
Proof.
  destruct (broken_stream_is_stored_with_its_error
              (sample_service (broken_stream_model ["Hel"; ""; "lo"]))
              (broken_stream_model ["Hel"; ""; "lo"]) sample_env
              (sample_request (Some "s")) (sample_store 2)
              (map text_chunk ["Hel"; ""; "lo"]) "connection reset"
              eq_refl eq_refl) as [Hres Hstore].
  split.
  - rewrite Hres. reflexivity.
  - rewrite Hstore. reflexivity.
Defined.

(** With [summarize_threshold] 0 a streamed answer is delivered whole
    and then followed by an error marker: the summarization check of a
    session that has a counted turn raises after the last increment.
    The turn is stored with the answer and the marker, and the session
    is not summarized. *)
Theorem zero_threshold_appends_an_error_to_the_stream
    (service : VertexRAGService) (model : GenerativeModel) (env : Env)
    (request : ChatRequest) (chat_sessions : gmap string Session)
    (chunks : list Chunk) :
  _model service = Some model ->
  generate_content_stream model
    (chat_prompt service (message request) (use_rag request)
       (session_of env request chat_sessions)).1 = inr (chunks, None) ->
  summarize_threshold service = 0 ->
  0 < message_count (session_of env request chat_sessions) ->
  exists e ctx,
    result (chat_stream_endpoint (Some service) env request chat_sessions)
    = Http200
        (map (fun t => ChunkFrame t (Py.or_else (session_id request) (uuid4 env)))
           (List.filter Py.truthy (map increment_text chunks))
         ++ [ ChunkFrame (error_generating e)
                (Py.or_else (session_id request) (uuid4 env));
              MetadataFrame (Py.or_else (session_id request) (uuid4 env))
                (message_count (session_of env request chat_sessions) + 1)
                ctx;
              DoneFrame ])
    /\ store (chat_stream_endpoint (Some service) env request chat_sessions)
       = <[Py.or_else (session_id request) (uuid4 env)
           := updated env request
                (String.concat ""
                   (List.filter Py.truthy (map increment_text chunks))
                 +:+ error_generating e)
                (session_of env request chat_sessions)]> chat_sessions.
Proof.
  intros Hmodel Hgen Hzero Hcount.
  destruct (chat_with_history_stream_cases service model (message request)
              (use_rag request) (session_of env request chat_sessions) Hmodel)
    as (l & Hrun & Hy).
  assert (Hcheck : _should_summarize service
                     (session_of env request chat_sessions)
                   = inl "integer modulo by zero").
  { unfold _should_summarize, Py.int_mod. rewrite Hzero.
    destruct (Z.gtb_spec (message_count (session_of env request chat_sessions))
                0); [reflexivity|lia]. }
  rewrite Hgen, Hcheck in Hrun, Hy.
  eexists _, _.
  exact (chat_stream_endpoint_with_error service env request chat_sessions
           _ l _ _ _ Hrun Hy).
Qed.

Lemma zero_threshold_appends_an_error_to_the_stream_witness :
  exists e ctx,
    result (chat_stream_endpoint (Some zero_threshold_service) sample_env
              (sample_request (Some "s")) (sample_store 2))
    = Http200
        (map (fun t => ChunkFrame t "s")
           (List.filter Py.truthy
              (map increment_text (map text_chunk ["Hel"; "lo"])))
         ++ [ ChunkFrame (error_generating e) "s";
              MetadataFrame "s"
                (message_count
                   (session_of sample_env (sample_request (Some "s"))
                      (sample_store 2)) + 1)
                ctx;
              DoneFrame ])
    /\ store (chat_stream_endpoint (Some zero_threshold_service) sample_env
                (sample_request (Some "s")) (sample_store 2))
       = <["s" := updated sample_env (sample_request (Some "s"))
                    (String.concat ""
                       (List.filter Py.truthy
                          (map increment_text (map text_chunk ["Hel"; "lo"])))
                     +:+ error_generating e)
                    (session_of sample_env (sample_request (Some "s"))
                       (sample_store 2))]> (sample_store 2).
Proof.
  apply (zero_threshold_appends_an_error_to_the_stream zero_threshold_service
           (sample_model "hi" (inr "digest") ["Hel"; "lo"]) sample_env
           (sample_request (Some "s")) (sample_store 2)
           (map text_chunk ["Hel"; "lo"])).
  - reflexivity.
  - reflexivity.
  - reflexivity.
  - reflexivity.
Defined.

(** ** Sessions across requests *)

Lemma slice_from_minus_snoc {A} (l : list A) (x : A) (n : Z) :
  0 < n -> last (Py.list_slice_from (l ++ [x]) (- n)) = Some x.
Proof.
  intros Hn. rewrite slice_from_minus by assumption.
  rewrite length_app. cbn [length].
  rewrite drop_app_le by lia. apply last_snoc.
Qed.

(** The session a chat operation leaves has the count, the creation
    time and the update time it was given. *)
Lemma chat_with_history_keeps self message use_rag s :
  exists r c s1 l,
    chat_with_history self message use_rag s = (Ok (r, c), s1, l)
    /\ message_count s1 = message_count s
    /\ created_at s1 = created_at s
    /\ last_updated s1 = last_updated s
    /\ (messages s = [] -> s1 = s).
Proof.
  destruct (chat_with_history_run self message use_rag s)
    as (r & c & l & Hrun & _).
  eexists r, c, _, l. split; [exact Hrun|].
  destruct (_model self) as [model|]; [|auto].
  destruct (generate_content model _); [auto|].
  destruct (_should_summarize self s) as [e|[|]]; [auto| |auto].
  destruct (Py.truthy (summary_text self s)) eqn:Ht; [|auto].
  repeat split. intros Hm. exfalso.
  unfold summary_text, summarize_conversation in Ht. rewrite Hm in Ht.
  discriminate.
Qed.

Lemma chat_with_history_stream_keeps self message use_rag s :
  exists s1 l,
    chat_with_history_stream self message use_rag s = (Ok tt, s1, l)
    /\ message_count s1 = message_count s
    /\ created_at s1 = created_at s
    /\ last_updated s1 = last_updated s.
Proof.
  destruct (_model self) as [model|] eqn:Hmodel.
  - destruct (chat_with_history_stream_cases self model message use_rag s
                Hmodel) as (l & Hrun & _).
    eexists _, l. split; [exact Hrun|].
    destruct (generate_content_stream model _) as [e|[chunks [e|]]]; auto.
    destruct (_should_summarize self s) as [e|[|]]; auto.
    destruct (Py.truthy _); auto.
  - unfold chat_with_history_stream. rewrite Hmodel.
    eexists _, _. split; [reflexivity|]. auto.
Qed.

(** A forced summarization, case by case. *)
Lemma force_summarize_session_run rag_service env session_id chat_sessions
    session :
  chat_sessions !! session_id = Some session ->
  exists l,
    force_summarize_session rag_service env session_id chat_sessions
    = match rag_service with
      | None =>
          {| result :=
               HTTPException 500
                 ("Error summarizing session: "
                  +:+ "'NoneType' object has no attribute 'summarize_conversation'");
             store := <[session_id := session]> chat_sessions;
             trace := l |}
      | Some service =>
          {| result :=
               Http200
                 {| summarized_session_id := session_id;
                    summarized_summary := summary_text service session;
                    summarized_message_count := message_count session |};
             store :=
               <[session_id
                 := resummarized env (summary_text service session) session]>
                 chat_sessions;
             trace := l |}
      end.
Proof.
  intros Hs. unfold force_summarize_session, force_summarize_body.
  rewrite Hs. destruct rag_service as [service|]; exec.
  - destruct (summary_text_run service session) as (l & -> & _).
    eexists. reflexivity.
  - eexists. reflexivity.
Qed.

(** After a POST /chat that was served, GET /sessions/{id} under the
    identifier of the reply finds the session: its count is the one the
    reply reported, the last turn it lists is the turn of this request
    with the reply as assistant text, and its update time is that of
    this request.  The identifier is the one supplied, or the one drawn
    when none (or an empty one) was supplied. *)
Theorem session_view_agrees_with_the_reply
    (service : VertexRAGService) (env : Env) (request : ChatRequest)
    (chat_sessions : gmap string Session) :
  exists r v,
    result (chat_endpoint (Some service) env request chat_sessions) = Http200 r
    /\ response_session_id r = Py.or_else (session_id request) (uuid4 env)
    /\ get_session (response_session_id r)
         (store (chat_endpoint (Some service) env request chat_sessions))
       = Http200 v
    /\ view_message_count v = response_message_count r
    /\ last (view_messages v) = Some (turn_of env request (response r))
    /\ view_last_updated v = Some (now_updated env).
Proof.
  destruct (chat_endpoint_run service env request chat_sessions)
    as (r & c & s1 & l & _ & _ & ->).
  eexists _, _. cbn [result store response_session_id].
  split; [reflexivity|]. split; [reflexivity|].
  unfold get_session. rewrite lookup_insert_eq.
  split; [reflexivity|]. cbn [view_message_count view_messages
    view_last_updated updated message_count messages last_updated
    response_message_count response].
  split; [reflexivity|]. split; [|reflexivity].
  apply (slice_from_minus_snoc _ _ 10). lia.
Qed.

(** A deleted session is gone: reading it answers 404, deleting it
    again answers 404 and changes nothing more. *)
Theorem deleted_session_is_gone
    (session_id : string) (chat_sessions : gmap string Session) :
  get_session session_id (store (delete_session session_id chat_sessions))
  = HTTPException 404 "Session not found"
  /\ result (delete_session session_id
               (store (delete_session session_id chat_sessions)))
     = HTTPException 404 "Session not found"
  /\ store (delete_session session_id
              (store (delete_session session_id chat_sessions)))
     = store (delete_session session_id chat_sessions).
Proof.
  assert (Hgone : store (delete_session session_id chat_sessions)
                    !! session_id = None).
  { unfold delete_session.
    destruct (chat_sessions !! session_id) eqn:Hs; cbn [store];
      [apply lookup_delete_eq|exact Hs]. }
  unfold get_session. rewrite Hgone. split; [reflexivity|].
  unfold delete_session at 1 3. rewrite Hgone. split; reflexivity.
Qed.

(** A chat under an identifier that was deleted starts a new session:
    the reply counts one message, and the stored session is a new one
    with this turn only, no summary and the creation time of this
    request. *)
Theorem chat_after_delete_starts_afresh
    (service : VertexRAGService) (env : Env) (request : ChatRequest)
    (chat_sessions : gmap string Session) :
  exists r,
    result (chat_endpoint (Some service) env request
              (store (delete_session
                        (Py.or_else (session_id request) (uuid4 env))
                        chat_sessions)))
    = Http200 r
    /\ response_message_count r = 1
    /\ store (chat_endpoint (Some service) env request
                (store (delete_session
                          (Py.or_else (session_id request) (uuid4 env))
                          chat_sessions)))
         !! Py.or_else (session_id request) (uuid4 env)
       = Some (updated env request (response r) (new_session env)).
Proof.
  set (sid := Py.or_else (session_id request) (uuid4 env)).
  set (cs := store (delete_session sid chat_sessions)).
  assert (Hgone : cs !! sid = None).
  { unfold cs, delete_session.
    destruct (chat_sessions !! sid) eqn:Hs; cbn [store];
      [apply lookup_delete_eq|exact Hs]. }
  destruct (chat_endpoint_run service env request cs)
    as (r & c & s1 & l & Hrun & _ & ->).
  assert (Hnew : session_of env request cs = new_session env).
  { unfold session_of. fold sid. now rewrite Hgone. }
  rewrite Hnew in Hrun.
  destruct (chat_with_history_keeps service (message request)
              (use_rag request) (new_session env))
    as (r' & c' & s1' & l' & Hrun' & _ & _ & _ & Hsame).
  rewrite Hrun in Hrun'. injection Hrun' as <- <- <- <-.
  rewrite (Hsame eq_refl).
  eexists. cbn [result store response_message_count response].
  split; [reflexivity|]. split; [reflexivity|].
  fold sid. apply lookup_insert_eq.
Qed.

(** A request reads and writes one session only: every other session,
    and the record of the turns appended to it, is the same after the
    request as before. *)
Theorem requests_touch_only_their_session
    (st : AppState) (rq : Request) (id : string) :
  id <> target rq ->
  sessions (step st rq) !! id = sessions st !! id
  /\ appended (step st rq) !! id = appended st !! id.
Proof.
  intros Hne. unfold step.
  pose proof (handle_other rq (sessions st) id Hne) as Hother.
  destruct (handle rq (sessions st)) as [store' l]. cbn [fst] in Hother.
  cbn [sessions appended]. split; [exact Hother|].
  destruct (store' !! target rq);
    [now apply lookup_insert_ne|now apply lookup_delete_ne].
Qed.

Lemma requests_touch_only_their_session_witness :
  sessions (step (run [PostChat (Some digest_service) sample_env
                         (sample_request (Some "s"))])
              (DeleteSession "t")) !! "s"
  = sessions (run [PostChat (Some digest_service) sample_env
                     (sample_request (Some "s"))]) !! "s"
  /\ appended (step (run [PostChat (Some digest_service) sample_env
                            (sample_request (Some "s"))])
                 (DeleteSession "t")) !! "s"
     = appended (run [PostChat (Some digest_service) sample_env
                        (sample_request (Some "s"))]) !! "s".
Proof.
  apply (requests_touch_only_their_session
           (run [PostChat (Some digest_service) sample_env
                   (sample_request (Some "s"))])
           (DeleteSession "t") "s").
  cbn. discriminate.
Defined.

(** A forced summarization writes the summary and the update time and
    nothing else: the turns, the count and the creation time of the
    session stay.  It answers 500 exactly when there is no service, and
    then the session is untouched; otherwise the summary it reports is
    the one it stored. *)
Theorem forced_summary_touches_only_the_summary
    (rag_service : option VertexRAGService) (env : Env) (id : string)
    (chat_sessions : gmap string Session) (session : Session) :
  chat_sessions !! id = Some session ->
  exists session',
    store (force_summarize_session rag_service env id chat_sessions) !! id
    = Some session'
    /\ messages session' = messages session
    /\ message_count session' = message_count session
    /\ created_at session' = created_at session
    /\ match result (force_summarize_session rag_service env id chat_sessions)
       with
       | Http200 r =>
           is_Some rag_service
           /\ summarized_summary r = summary session'
           /\ summarized_message_count r = message_count session
           /\ last_updated session' = Some (now_updated env)
       | HTTPException status_code _ =>
           rag_service = None /\ status_code = 500 /\ session' = session
       end.
Proof.
  intros Hs.
  destruct (force_summarize_session_run rag_service env id chat_sessions
              session Hs) as (l & ->).
  destruct rag_service as [service|]; cbn [store result];
    rewrite lookup_insert_eq; eexists; (split; [reflexivity|]);
    cbn; repeat split; eauto.
Qed.

Lemma forced_summary_touches_only_the_summary_witness :
  exists session',
    store (force_summarize_session (Some digest_service) sample_env "s"
             (sample_store 2)) !! "s"
    = Some session'
    /\ messages session'
       = messages (sample_session 2 [sample_turn "1"; sample_turn "2"] "old")
    /\ message_count session'
       = message_count
           (sample_session 2 [sample_turn "1"; sample_turn "2"] "old")
    /\ created_at session'
       = created_at (sample_session 2 [sample_turn "1"; sample_turn "2"] "old")
    /\ match result (force_summarize_session (Some digest_service) sample_env
                       "s" (sample_store 2))
       with
       | Http200 r =>
           is_Some (Some digest_service)
           /\ summarized_summary r = summary session'
           /\ summarized_message_count r
              = message_count
                  (sample_session 2 [sample_turn "1"; sample_turn "2"] "old")
           /\ last_updated session' = Some (now_updated sample_env)
       | HTTPException status_code _ =>
           Some digest_service = None /\ status_code = 500
           /\ session'
              = sample_session 2 [sample_turn "1"; sample_turn "2"] "old"
       end.
Proof.
  apply (forced_summary_touches_only_the_summary (Some digest_service)
           sample_env "s" (sample_store 2)
           (sample_session 2 [sample_turn "1"; sample_turn "2"] "old")).
  reflexivity.
Defined.

Lemma forced_summary_keeps rag_service env id chat_sessions session :
  chat_sessions !! id = Some session ->
  exists session',
    store (force_summarize_session rag_service env id chat_sessions) !! id
    = Some session'
    /\ messages session' = messages session
    /\ message_count session' = message_count session
    /\ (is_Some (last_updated session) -> is_Some (last_updated session')).
Proof.
  intros Hs.
  destruct (force_summarize_session_run rag_service env id chat_sessions
              session Hs) as (l & ->).
  destruct rag_service as [service|]; cbn [store];
    rewrite lookup_insert_eq; eexists; (split; [reflexivity|]);
    cbn; repeat split; eauto.
Qed.

(** Every handler keeps the stored sessions in the shape a chat handler
    gives them. *)
Lemma handle_keeps_turns rq chat_sessions :
  (forall id session, chat_sessions !! id = Some session -> has_turns session) ->
  forall id session,
    (handle rq chat_sessions).1 !! id = Some session -> has_turns session.
Proof.
  intros Hinv id session.
  destruct (decide (id = target rq)) as [->|Hne].
  2:{ rewrite handle_other by assumption. apply Hinv. }
  assert (Hof : forall env request,
             0 <= message_count (session_of env request chat_sessions)).
  { intros env request. unfold session_of.
    destruct (chat_sessions !! _) as [s|] eqn:Hs; cbn; [|lia].
    destruct (Hinv _ _ Hs) as [H _]. lia. }
  destruct rq as [rs env rq|rs env rq|sid|sid|rs env sid];
    cbn [handle target fst].
  - destruct rs as [service|]; [|apply Hinv].
    destruct (chat_endpoint_run service env rq chat_sessions)
      as (r & c & s1 & l & Hrun & _ & ->).
    destruct (chat_with_history_keeps service (message rq) (use_rag rq)
                (session_of env rq chat_sessions))
      as (r' & c' & s1' & l' & Hrun' & Hcount & _).
    rewrite Hrun in Hrun'. injection Hrun' as <- <- <- <-.
    cbn [store]. rewrite lookup_insert_eq. intros [= <-].
    specialize (Hof env rq).
    repeat split; cbn; [lia| |eauto].
    intros H. now apply app_nil in H as [_ H].
  - destruct rs as [service|]; [|apply Hinv].
    destruct (chat_stream_endpoint_run service env rq chat_sessions)
      as (s1 & l & Hrun & _ & ->).
    destruct (chat_with_history_stream_keeps service (message rq) (use_rag rq)
                (session_of env rq chat_sessions))
      as (s1' & l' & Hrun' & Hcount & _).
    rewrite Hrun in Hrun'. injection Hrun' as <- <-.
    rewrite lookup_insert_eq. intros [= <-].
    specialize (Hof env rq).
    repeat split; cbn; [lia| |eauto].
    intros H. now apply app_nil in H as [_ H].
  - apply Hinv.
  - unfold delete_session. destruct (chat_sessions !! sid) eqn:Hs;
      cbn [store]; [rewrite lookup_delete_eq; discriminate|apply Hinv].
  - destruct (chat_sessions !! sid) as [s|] eqn:Hs.
    + destruct (forced_summary_keeps rs env sid chat_sessions s Hs)
        as (s' & -> & Hm & Hc & Hu).
      intros [= <-]. destruct (Hinv _ _ Hs) as (H1 & H2 & H3).
      repeat split; [lia|congruence|exact (Hu H3)].
    + unfold force_summarize_session. rewrite Hs. cbn [store].
      rewrite Hs. discriminate.
Qed.

Lemma reachable_turns st :
  reachable st ->
  forall id session, sessions st !! id = Some session -> has_turns session.
Proof.
  induction 1 as [|st rq Hst IH]; intros id session.
  - cbn. rewrite lookup_empty. discriminate.
  - unfold step.
    pose proof (handle_keeps_turns rq (sessions st) IH id session) as Hk.
    destruct (handle rq (sessions st)) as [store' l]. exact Hk.
Qed.

(** In every state the service can reach, a stored session went through
    a chat handler: it counts at least one message, its turn list is
    not empty (a summarization keeps the last two turns, a deletion
    removes the whole session), and its update time is set. *)
Theorem stored_sessions_hold_a_turn
    (st : AppState) (id : string) (session : Session) :
  reachable st ->
  sessions st !! id = Some session ->
  1 <= message_count session
  /\ messages session <> []
  /\ is_Some (last_updated session).
Proof. intros Hst Hs. exact (reachable_turns st Hst id session Hs). Qed.

Lemma stored_sessions_hold_a_turn_witness :
  1 <= message_count
         (updated sample_env (sample_request (Some "s")) "hi"
            (new_session sample_env))
  /\ messages (updated sample_env (sample_request (Some "s")) "hi"
                 (new_session sample_env)) <> []
  /\ is_Some (last_updated
                (updated sample_env (sample_request (Some "s")) "hi"
                   (new_session sample_env))).
Proof.
  apply (stored_sessions_hold_a_turn
           (run [PostChat (Some digest_service) sample_env
                   (sample_request (Some "s"))]) "s").
  - apply reachable_run.
  - vm_compute. reflexivity.
Defined.

Lemma total_messages_bound (chat_sessions : gmap string Session) :
  (forall id session, chat_sessions !! id = Some session ->
                      1 <= message_count session) ->
  Z.of_nat (size chat_sessions)
  <= map_fold (fun _ session total => total + message_count session) 0
       chat_sessions.
Proof.
  apply (map_fold_weak_ind
           (fun total (m : gmap string Session) =>
              (forall id session, m !! id = Some session ->
                                  1 <= message_count session) ->
              Z.of_nat (size m) <= total)).
  - intros _. rewrite map_size_empty. lia.
  - intros id session m total Hfresh IH Hall.
    rewrite map_size_insert_None by assumption.
    assert (1 <= message_count session)
      by (apply (Hall id); apply lookup_insert_eq).
    assert (Z.of_nat (size m) <= total).
    { apply IH. intros id' session' Hs'. apply (Hall id').
      rewrite lookup_insert_ne; [exact Hs'|]. congruence. }
    lia.
Qed.

(** The health report of a reachable state counts at least one message
    per active session, and as many active sessions as the root report. *)
Theorem health_counts_a_message_per_session
    (st : AppState) (rag_service : option VertexRAGService) (now : string) :
  reachable st ->
  active_count (health_check rag_service now (sessions st))
  <= total_messages (health_check rag_service now (sessions st))
  /\ active_count (health_check rag_service now (sessions st))
     = active_sessions (root rag_service (sessions st)).
Proof.
  intros Hst. split.
  - apply total_messages_bound. intros id session Hs.
    now destruct (reachable_turns st Hst id session Hs).
  - reflexivity.
Qed.

Lemma health_counts_a_message_per_session_witness :
  active_count
    (health_check None "t"
       (sessions (run [PostChat (Some digest_service) sample_env
                         (sample_request (Some "s"))])))
  <= total_messages
       (health_check None "t"
          (sessions (run [PostChat (Some digest_service) sample_env
                            (sample_request (Some "s"))])))
  /\ active_count
       (health_check None "t"
          (sessions (run [PostChat (Some digest_service) sample_env
                            (sample_request (Some "s"))])))
     = active_sessions
         (root None
            (sessions (run [PostChat (Some digest_service) sample_env
                              (sample_request (Some "s"))]))).
Proof.
  apply (health_counts_a_message_per_session
           (run [PostChat (Some digest_service) sample_env
                   (sample_request (Some "s"))]) None "t").
  apply reachable_run.
Defined.

(** ** Calls to the provider *)

Lemma queries_app l1 l2 : queries (l1 ++ l2) = queries l1 ++ queries l2.
Proof. apply omap_app. Qed.

Lemma prompts_app l1 l2 : prompts (l1 ++ l2) = prompts l1 ++ prompts l2.
Proof. apply omap_app. Qed.

(** Close a goal [exists ..., run = (_, _, l) /\ queries l = _ /\ ...]
    whose run has been executed to a literal trace. *)
Ltac traced := repeat eexists; repeat split; reflexivity.

Lemma retrieve_trace self query s :
  exists c l,
    _retrieve_rag_context self query s = (Ok c, s, l)
    /\ queries l = (if rag_resources_set self then [query] else [])
    /\ prompts l = [].
Proof.
  unfold _retrieve_rag_context, rag_resources_set.
  destruct (_rag_resources self) as [[|r rs]|]; exec; try traced.
  destruct (retrieval_query self _ _ _ _) as [e|resp]; try traced.
  destruct resp as [[[[[[|c cs]|]]|]]|]; traced.
Qed.

Lemma chat_prompt_trace self message use_rag s :
  exists l,
    build_prompt self message use_rag s
    = (Ok (chat_prompt self message use_rag s), s, l)
    /\ queries l = (if use_rag && rag_resources_set self then [message] else [])
    /\ prompts l = [].
Proof.
  unfold chat_prompt, build_prompt. rewrite run_bind.
  destruct (use_rag && rag_resources_set self) eqn:Hrag.
  - destruct (retrieve_trace self message s) as (c & l & -> & Hq & Hp).
    apply andb_true_iff in Hrag as [_ Hset]. rewrite Hset in Hq.
    exec. rewrite !app_nil_r. eauto.
  - exec. traced.
Qed.

(** The prompt of a summarization of the turns [msgs]. *)
Lemma summarize_conversation_trace self msgs s :
  exists t l,
    summarize_conversation self msgs s = (Ok t, s, l)
    /\ queries l = []
    /\ prompts l
       = if Py.nonempty msgs && is_initialized self
         then [RAGPrompts.get_summarization_prompt
                 (Py.join Py.nl (turn_lines msgs))]
         else [].
Proof.
  unfold summarize_conversation, is_initialized.
  destruct (Py.nonempty msgs); exec; try traced.
  destruct (_model self) as [model|]; try traced.
  destruct (generate_content model _) as [e|[[e|t]]]; traced.
Qed.

Lemma summarize_if_due_trace self s :
  exists r s1 l,
    summarize_if_due self s = (r, s1, l)
    /\ queries l = []
    /\ prompts l
       = match _should_summarize self s with
         | inr true =>
             if Py.nonempty (messages s) && is_initialized self
             then [RAGPrompts.get_summarization_prompt
                     (Py.join Py.nl (turn_lines (messages s)))]
             else []
         | _ => []
         end.
Proof.
  unfold summarize_if_due. exec.
  destruct (_should_summarize self s) as [e|[|]]; try traced.
  destruct (summarize_conversation_trace self (messages s) s)
    as (t & l & -> & Hq & Hp).
  destruct (Py.truthy t); repeat eexists;
    rewrite ?app_nil_r; assumption.
Qed.

Lemma chat_with_history_trace self model message use_rag s :
  _model self = Some model ->
  exists r s1 l,
    chat_with_history self message use_rag s = (r, s1, l)
    /\ queries l = (if use_rag && rag_resources_set self then [message] else [])
    /\ prompts l
       = (chat_prompt self message use_rag s).1
         :: match generate_content model
                    (chat_prompt self message use_rag s).1,
                  _should_summarize self s with
            | inr _, inr true =>
                if Py.nonempty (messages s)
                then [RAGPrompts.get_summarization_prompt
                        (Py.join Py.nl (turn_lines (messages s)))]
                else []
            | _, _ => []
            end.
Proof.
  intros Hmodel. unfold chat_with_history. rewrite Hmodel. exec.
  destruct (chat_prompt_trace self message use_rag s) as (l0 & -> & Hq0 & Hp0).
  destruct (chat_prompt self message use_rag s) as [p c]. cbn [fst snd].
  destruct (generate_content model p) as [e|resp].
  { repeat eexists; rewrite ?queries_app, ?prompts_app, ?Hq0, ?Hp0; cbn;
      rewrite ?app_nil_r; reflexivity. }
  destruct (summarize_if_due_trace self s) as (r & s1 & l1 & -> & Hq1 & Hp1).
  assert (Hinit : is_initialized self = true)
    by (unfold is_initialized; now rewrite Hmodel).
  rewrite Hinit, andb_true_r in Hp1.
  destruct r as [[]|e]; [destruct (response_text resp) as [e|t]|];
    repeat eexists;
    rewrite ?queries_app, ?prompts_app, ?Hq0, ?Hp0, ?Hq1, ?Hp1; cbn;
    rewrite ?app_nil_r; try reflexivity;
    destruct (_should_summarize self s) as [?|[|]]; reflexivity.
Qed.

Lemma chat_with_history_stream_trace self model message use_rag s :
  _model self = Some model ->
  exists r s1 l,
    chat_with_history_stream self message use_rag s = (r, s1, l)
    /\ queries l = (if use_rag && rag_resources_set self then [message] else [])
    /\ prompts l
       = (chat_prompt self message use_rag s).1
         :: match generate_content_stream model
                    (chat_prompt self message use_rag s).1,
                  _should_summarize self s with
            | inr (_, None), inr true =>
                if Py.nonempty (messages s)
                then [RAGPrompts.get_summarization_prompt
                        (Py.join Py.nl (turn_lines (messages s)))]
                else []
            | _, _ => []
            end.
Proof.
  intros Hmodel. unfold chat_with_history_stream. rewrite Hmodel. exec.
  destruct (chat_prompt_trace self message use_rag s) as (l0 & -> & Hq0 & Hp0).
  destruct (chat_prompt self message use_rag s) as [p c]. cbn [fst snd].
  assert (Hloop : forall ts : list string,
             queries (map (fun t => EvYield t c) ts) = []
             /\ prompts (map (fun t => EvYield t c) ts) = []).
  { induction ts as [|t ts [IHq IHp]]; split; auto. }
  destruct (generate_content_stream model p) as [e|[chunks failure]].
  { repeat eexists; rewrite ?queries_app, ?prompts_app, ?Hq0, ?Hp0; cbn;
      rewrite ?app_nil_r; reflexivity. }
  rewrite (for_each_increment chunks c) by loop_body.
  destruct (Hloop (List.filter Py.truthy (map increment_text chunks)))
    as [Hq2 Hp2].
  destruct failure as [e|].
  { repeat eexists; rewrite ?queries_app, ?prompts_app, ?Hq0, ?Hp0, ?Hq2, ?Hp2;
      cbn; rewrite ?app_nil_r; reflexivity. }
  destruct (summarize_if_due_trace self s) as (r & s1 & l1 & -> & Hq1 & Hp1).
  assert (Hinit : is_initialized self = true)
    by (unfold is_initialized; now rewrite Hmodel).
  rewrite Hinit, andb_true_r in Hp1.
  destruct r as [[]|e];
    repeat eexists;
    rewrite ?queries_app, ?prompts_app, ?Hq0, ?Hp0, ?Hq1, ?Hp1, ?Hq2, ?Hp2; cbn;
    rewrite ?app_nil_r; try reflexivity;
    destruct (_should_summarize self s) as [?|[|]]; reflexivity.
Qed.

(** A chat operation, blocking or streamed, queries the retrieval engine
    at most once, with the user's message as the query text, and only
    when the model is set, the request asks for retrieval and a corpus
    is configured; a summarization never queries it. *)
Theorem one_retrieval_query_per_chat
    (self : VertexRAGService) (message : string) (use_rag : bool)
    (s : Session) :
  exists r s1 l r' s1' l',
    chat_with_history self message use_rag s = (r, s1, l)
    /\ chat_with_history_stream self message use_rag s = (r', s1', l')
    /\ queries l
       = (if is_initialized self && use_rag && rag_resources_set self
          then [message] else [])
    /\ queries l' = queries l.
Proof.
  unfold is_initialized. destruct (_model self) as [model|] eqn:Hmodel.
  - destruct (chat_with_history_trace self model message use_rag s Hmodel)
      as (r & s1 & l & Hrun & Hq & _).
    destruct (chat_with_history_stream_trace self model message use_rag s
                Hmodel) as (r' & s1' & l' & Hrun' & Hq' & _).
    exists r, s1, l, r', s1', l'. cbn [andb]. rewrite Hq, Hq'. auto.
  - unfold chat_with_history, chat_with_history_stream. rewrite Hmodel.
    repeat eexists.
Qed.

(** The prompts a chat operation sends to the model: the chat prompt
    first; then, exactly when that call succeeded (for a stream: was
    delivered whole), the summarization is due and the session has
    turns, the summarization prompt over all the turns of the session,
    not only those in the window of the chat prompt. *)
Theorem model_calls_of_a_chat
    (self : VertexRAGService) (model : GenerativeModel) (message : string)
    (use_rag : bool) (s : Session) :
  _model self = Some model ->
  exists r s1 l r' s1' l',
    chat_with_history self message use_rag s = (r, s1, l)
    /\ chat_with_history_stream self message use_rag s = (r', s1', l')
    /\ prompts l
       = (chat_prompt self message use_rag s).1
         :: match generate_content model
                    (chat_prompt self message use_rag s).1,
                  _should_summarize self s with
            | inr _, inr true =>
                if Py.nonempty (messages s)
                then [RAGPrompts.get_summarization_prompt
                        (Py.join Py.nl (turn_lines (messages s)))]
                else []
            | _, _ => []
            end
    /\ prompts l'
       = (chat_prompt self message use_rag s).1
         :: match generate_content_stream model
                    (chat_prompt self message use_rag s).1,
                  _should_summarize self s with
            | inr (_, None), inr true =>
                if Py.nonempty (messages s)
                then [RAGPrompts.get_summarization_prompt
                        (Py.join Py.nl (turn_lines (messages s)))]
                else []
            | _, _ => []
            end.
Proof.
  intros Hmodel.
  destruct (chat_with_history_trace self model message use_rag s Hmodel)
    as (r & s1 & l & Hrun & _ & Hp).
  destruct (chat_with_history_stream_trace self model message use_rag s
              Hmodel) as (r' & s1' & l' & Hrun' & _ & Hp').
  exists r, s1, l, r', s1', l'. auto.
Qed.

Lemma model_calls_of_a_chat_witness :
  exists r s1 l r' s1' l',
    chat_with_history digest_service "hello" false
      (sample_session 5 [sample_turn "1"; sample_turn "2"; sample_turn "3";
                         sample_turn "4"] "") = (r, s1, l)
    /\ chat_with_history_stream digest_service "hello" false
         (sample_session 5 [sample_turn "1"; sample_turn "2"; sample_turn "3";
                            sample_turn "4"] "") = (r', s1', l')
    /\ prompts l
       = [ RAGPrompts.get_chat_prompt "hello"
             (Py.join blank_line
                [ "Recent conversation:";
                  "User: q2"; "Assistant: a2";
                  "User: q3"; "Assistant: a3";
                  "User: q4"; "Assistant: a4" ]);
           RAGPrompts.get_summarization_prompt
             (Py.join Py.nl
                [ "User: q1"; "Assistant: a1";
                  "User: q2"; "Assistant: a2";
                  "User: q3"; "Assistant: a3";
                  "User: q4"; "Assistant: a4" ]) ]
    /\ prompts l' = prompts l.
Proof.
  destruct (model_calls_of_a_chat digest_service
              (sample_model "hi" (inr "digest") ["Hel"; "lo"]) "hello" false
              (sample_session 5 [sample_turn "1"; sample_turn "2";
                                 sample_turn "3"; sample_turn "4"] "")
              eq_refl)
    as (r & s1 & l & r' & s1' & l' & Hrun & Hrun' & Hp & Hp').
  exists r, s1, l, r', s1', l'.
  split; [exact Hrun|]. split; [exact Hrun'|].
  rewrite Hp', Hp. split; reflexivity.
Defined.

Lemma chat_prompt_preamble self message use_rag s :
  String.prefix
    "You are a helpful AI assistant with access to a knowledge base."
    (chat_prompt self message use_rag s).1
  = use_rag && rag_resources_set self
    && Py.truthy match _retrieve_rag_context self message s with
                 | (Ok c, _, _) => c
                 | (Raise _, _, _) => ""
                 end
  /\ String.prefix
       "You are a helpful AI assistant engaged in a conversation."
       (chat_prompt self message use_rag s).1
     = negb (use_rag && rag_resources_set self
             && Py.truthy match _retrieve_rag_context self message s with
                          | (Ok c, _, _) => c
                          | (Raise _, _, _) => ""
                          end).
Proof.
  unfold chat_prompt, build_prompt. rewrite run_bind.
  destruct (use_rag && rag_resources_set self).
  - destruct (retrieve_run self message s) as (c & l & -> & _).
    exec. destruct c; split; reflexivity.
  - exec. split; reflexivity.
Qed.

(** The first prompt a chat operation sends tells the model which mode
    it is in: it opens with the knowledge-base preamble exactly when the
    request asked for retrieval, a corpus is configured and the query
    returned a non-empty context, and with the plain-conversation
    preamble in every other case, a failed or empty retrieval
    included.  The blocking and the streamed operation send the same
    first prompt. *)
Theorem first_prompt_opens_with_the_mode
    (self : VertexRAGService) (model : GenerativeModel) (message : string)
    (use_rag : bool) (s : Session) :
  _model self = Some model ->
  exists r s1 l r' s1' l' p rest rest',
    chat_with_history self message use_rag s = (r, s1, l)
    /\ chat_with_history_stream self message use_rag s = (r', s1', l')
    /\ prompts l = p :: rest
    /\ prompts l' = p :: rest'
    /\ String.prefix
         "You are a helpful AI assistant with access to a knowledge base." p
       = use_rag && rag_resources_set self
         && Py.truthy match _retrieve_rag_context self message s with
                      | (Ok c, _, _) => c
                      | (Raise _, _, _) => ""
                      end
    /\ String.prefix
         "You are a helpful AI assistant engaged in a conversation." p
       = negb (use_rag && rag_resources_set self
               && Py.truthy match _retrieve_rag_context self message s with
                            | (Ok c, _, _) => c
                            | (Raise _, _, _) => ""
                            end).
Proof.
  intros Hmodel.
  destruct (chat_with_history_trace self model message use_rag s Hmodel)
    as (r & s1 & l & Hrun & _ & Hp).
  destruct (chat_with_history_stream_trace self model message use_rag s
              Hmodel) as (r' & s1' & l' & Hrun' & _ & Hp').
  destruct (chat_prompt_preamble self message use_rag s) as [Hkb Hplain].
  exists r, s1, l, r', s1', l'. eexists _, _, _.
  split; [exact Hrun|]. split; [exact Hrun'|].
  split; [exact Hp|]. split; [exact Hp'|]. split; assumption.
Qed.

Lemma first_prompt_opens_with_the_mode_witness :
  exists r s1 l p rest,
    chat_with_history
      (sample_rag_service (sample_model "hi" (inr "digest") []) sample_found)
      "hello" true (sample_session 2 [sample_turn "1"; sample_turn "2"] "")
    = (r, s1, l)
    /\ prompts l = p :: rest
    /\ String.prefix
         "You are a helpful AI assistant with access to a knowledge base." p
       = true
    /\ String.prefix
         "You are a helpful AI assistant engaged in a conversation." p
       = false.
Proof.
  destruct (first_prompt_opens_with_the_mode
              (sample_rag_service (sample_model "hi" (inr "digest") [])
                 sample_found)
              (sample_model "hi" (inr "digest") []) "hello" true
              (sample_session 2 [sample_turn "1"; sample_turn "2"] "")
              eq_refl)
    as (r & s1 & l & _ & _ & _ & p & rest & _ & Hrun & _ & Hp & _ & Hkb
        & Hplain).
  exists r, s1, l, p, rest.
  split; [exact Hrun|]. split; [exact Hp|].
  split; [exact Hkb|exact Hplain].
Defined.

(** A summary that is empty once stripped counts as no summary: when
    the provider answers a due summarization with white space only, the
    chat operation leaves the session as it was, old summary and turns
    included. *)
Theorem blank_summary_changes_nothing
    (self : VertexRAGService) (model : GenerativeModel) (message : string)
    (use_rag : bool) (s : Session) (resp : GenerationResponse) (t : string) :
  _model self = Some model ->
  generate_content model
    (RAGPrompts.get_summarization_prompt
       (Py.join Py.nl (turn_lines (messages s)))) = inr resp ->
  response_text resp = inr t ->
  Py.strip t = "" ->
  exists r c l,
    chat_with_history self message use_rag s = (Ok (r, c), s, l).
Proof.
  intros Hmodel Hgen Htext Hblank.
  destruct (chat_with_history_run self message use_rag s)
    as (r & c & l & Hrun & _).
  exists r, c, l. rewrite Hrun. do 2 f_equal.
  rewrite Hmodel.
  destruct (generate_content model (chat_prompt _ _ _ _).1); [reflexivity|].
  destruct (_should_summarize self s) as [e|[|]]; try reflexivity.
  assert (Hsum : summary_text self s = "").
  { unfold summary_text, summarize_conversation.
    destruct (Py.nonempty (messages s)); [|reflexivity].
    rewrite Hmodel. exec. rewrite Hgen, Htext, Hblank. reflexivity. }
  now rewrite Hsum.
Qed.

Lemma blank_summary_changes_nothing_witness :
  exists r c l,
    chat_with_history
      (sample_service (sample_model "hi" (inr "  ") [])) "hello" false
      (sample_session 5 [sample_turn "1"; sample_turn "2"; sample_turn "3"]
         "old")
    = (Ok (r, c),
       sample_session 5 [sample_turn "1"; sample_turn "2"; sample_turn "3"]
         "old", l).
Proof.
  apply (blank_summary_changes_nothing
           (sample_service (sample_model "hi" (inr "  ") []))
           (sample_model "hi" (inr "  ") []) "hello" false
           (sample_session 5 [sample_turn "1"; sample_turn "2";
                              sample_turn "3"] "old")
           {| response_text := inr "  " |} "  ").
  - reflexivity.
  - reflexivity.
  - reflexivity.
  - reflexivity.
Defined.

(** ** Windows, excerpts and the summarization prompt *)

Lemma slice_from_positive {A} (l : list A) (k : Z) :
  0 <= k -> Py.list_slice_from l k = drop (Z.to_nat k) l.
Proof.
  intros Hk. unfold Py.list_slice_from, Py.slice_index.
  destruct (Z.ltb_spec k 0); [lia|].
  destruct (Z.le_ge_cases k (Z.of_nat (length l))).
  - now rewrite Z.min_l.
  - rewrite Z.min_r, Nat2Z.id by assumption.
    rewrite !drop_ge by lia. reflexivity.
Qed.

(** A negative [max_length] turns the window around: with the value
    [-k] the context leaves out the [k] oldest turns of the session and
    lists all the others, however many they are. *)
Theorem negative_window_skips_the_oldest_turns
    (self : VertexRAGService) (session_data : Session) (k : Z) :
  0 < k ->
  max_history_length self = - k ->
  Py.list_slice_from (messages session_data) (- max_history_length self)
  = drop (Z.to_nat k) (messages session_data)
  /\ _build_conversation_context self session_data
     = Py.join blank_line
         ((if Py.truthy (summary session_data)
           then [ "Previous conversation summary:" +:+ Py.nl
                  +:+ summary session_data ]
           else [])
          ++ (if Py.nonempty (drop (Z.to_nat k) (messages session_data))
              then "Recent conversation:"
                   :: turn_lines (drop (Z.to_nat k) (messages session_data))
              else [])).
Proof.
  intros Hk Hmax.
  assert (Hslice : Py.list_slice_from (messages session_data)
                     (- max_history_length self)
                   = drop (Z.to_nat k) (messages session_data)).
  { rewrite Hmax, Z.opp_involutive. apply slice_from_positive. lia. }
  split; [exact Hslice|].
  unfold _build_conversation_context. cbv zeta. now rewrite Hslice.
Qed.

Lemma negative_window_skips_the_oldest_turns_witness :
  Py.list_slice_from
    (messages (sample_session 3 [sample_turn "1"; sample_turn "2";
                                 sample_turn "3"] ""))
    (- max_history_length
         (configure {[ "max_length" := -1 ]} None None None None
            (fun _ _ _ _ => inr None)))
  = drop (Z.to_nat 1)
      (messages (sample_session 3 [sample_turn "1"; sample_turn "2";
                                   sample_turn "3"] ""))
  /\ _build_conversation_context
       (configure {[ "max_length" := -1 ]} None None None None
          (fun _ _ _ _ => inr None))
       (sample_session 3 [sample_turn "1"; sample_turn "2"; sample_turn "3"] "")
     = Py.join blank_line
         ((if Py.truthy
                (summary (sample_session 3 [sample_turn "1"; sample_turn "2";
                                            sample_turn "3"] ""))
           then [ "Previous conversation summary:" +:+ Py.nl
                  +:+ summary (sample_session 3 [sample_turn "1";
                                                 sample_turn "2";
                                                 sample_turn "3"] "") ]
           else [])
          ++ (if Py.nonempty
                   (drop (Z.to_nat 1)
                      (messages (sample_session 3 [sample_turn "1";
                                                   sample_turn "2";
                                                   sample_turn "3"] "")))
              then "Recent conversation:"
                   :: turn_lines
                        (drop (Z.to_nat 1)
                           (messages (sample_session 3 [sample_turn "1";
                                                        sample_turn "2";
                                                        sample_turn "3"] "")))
              else [])).
Proof.
  apply (negative_window_skips_the_oldest_turns
           (configure {[ "max_length" := -1 ]} None None None None
              (fun _ _ _ _ => inr None))
           (sample_session 3 [sample_turn "1"; sample_turn "2";
                              sample_turn "3"] "") 1).
  - lia.
  - reflexivity.
Defined.

Lemma context_excerpt_length (ctx : string) :
  Py.len (context_excerpt ctx) <= 203
  /\ Py.len (context_excerpt ctx) <= Py.len ctx + 3.
Proof.
  destruct (Z.ltb_spec 200 (Py.len ctx)) as [Hlong|Hshort].
  - rewrite context_excerpt_long_length by assumption. lia.
  - rewrite context_excerpt_cases.
    destruct (Z.ltb_spec 200 (Py.len ctx)); lia.
Qed.

(** The context a chat reply reports is never longer than 203
    characters, whatever [max_context_length] allows the retrieved
    context to be. *)
Theorem reported_context_is_short
    (service : VertexRAGService) (env : Env) (request : ChatRequest)
    (chat_sessions : gmap string Session) :
  exists r reported,
    result (chat_endpoint (Some service) env request chat_sessions) = Http200 r
    /\ context_used r = Some reported
    /\ Py.len reported <= 203.
Proof.
  destruct (chat_endpoint_run service env request chat_sessions)
    as (r & c & s1 & l & _ & _ & ->).
  eexists _, _. cbn [result context_used].
  split; [reflexivity|]. split; [reflexivity|].
  apply context_excerpt_length.
Qed.

Lemma str_append_inj_l (p x y : string) : p +:+ x = p +:+ y -> x = y.
Proof.
  induction p as [|c p IH]; [auto|].
  change (String c (p +:+ x) = String c (p +:+ y) -> x = y).
  intros [= H]. auto.
Qed.

Lemma str_append_inj_r (x y q : string) : x +:+ q = y +:+ q -> x = y.
Proof.
  revert y. induction x as [|c x IH]; intros [|d y] H.
  - reflexivity.
  - change (q = String d (y +:+ q)) in H.
    apply (f_equal String.length) in H. cbn [String.length] in H.
    rewrite str_length_append in H. lia.
  - change (String c (x +:+ q) = q) in H.
    apply (f_equal String.length) in H. cbn [String.length] in H.
    rewrite str_length_append in H. lia.
  - change (String c (x +:+ q) = String d (y +:+ q)) in H.
    injection H as -> H. f_equal. now apply IH.
Qed.

(** The summarization prompt determines the conversation text it was
    built from: two different texts never give the same prompt. *)
Theorem summarization_prompt_is_injective (a b : string) :
  RAGPrompts.get_summarization_prompt a = RAGPrompts.get_summarization_prompt b ->
  a = b.
Proof.
  unfold RAGPrompts.get_summarization_prompt, Py.join.
  cbn [String.concat]. intros H.
  repeat apply str_append_inj_l in H.
  now apply str_append_inj_r in H.
Qed.

Lemma summarization_prompt_is_injective_witness :
  "User: q1" = "User: q1".
Proof.
  apply (summarization_prompt_is_injective "User: q1" "User: q1").
  reflexivity.
Defined.

(** ** Start-up *)

(** A service that was constructed has a model, and it has a retrieval
    resource exactly when retrieval is enabled and a corpus identifier
    is configured; the resource is then the one corpus named by
    project, location and identifier.  So for the service the
    application starts with, the health report's [rag_enabled] tells
    whether a chat queries the corpus, and its [model_initialized] is
    true. *)
Theorem started_service_has_model_and_corpus
    (platform : Platform) (settings : Settings) (chat_config : gmap string Z)
    (similarity_top_k : option Z) (vector_distance_threshold : option Q)
    (query : list RagResource -> string -> Z -> Q ->
             raises (option RetrievalResponse))
    (rag_service : option VertexRAGService) :
  startup_event platform settings chat_config similarity_top_k
    vector_distance_threshold query = inr rag_service ->
  exists service,
    rag_service = Some service
    /\ is_initialized service = true
    /\ is_rag_initialized service = rag_resources_set service
    /\ rag_resources_set service
       = default true (enabled settings)
         && Py.truthy (default "" (corpus_id settings))
    /\ (rag_resources_set service = true ->
        _rag_resources service
        = Some [ {| rag_corpus :=
                      "projects/" +:+ fstr (project settings)
                      +:+ "/locations/" +:+ fstr (location settings)
                      +:+ "/ragCorpora/" +:+ fstr (corpus_id settings) |} ]).
Proof.
  unfold startup_event, __init__, _initialize_services.
  destruct (vertexai_init platform _ _) as [e|_]; [discriminate|].
  destruct (new_model platform) as [e|model]; [discriminate|].
  intros [= <-]. eexists. split; [reflexivity|].
  unfold is_initialized, is_rag_initialized, rag_resources_set.
  cbn [configure _model _rag_resources].
  destruct (default true (enabled settings)
            && Py.truthy (default "" (corpus_id settings)));
    repeat split; discriminate.
Qed.

Lemma started_service_has_model_and_corpus_witness :
  exists service,
    Some (configure ∅ None None
            (Some (sample_model "hi" (inr "digest") ["Hel"; "lo"]))
            (Some [ {| rag_corpus := "projects/p/locations/l/ragCorpora/c" |} ])
            (fun _ _ _ _ => inr None))
    = Some service
    /\ is_initialized service = true
    /\ is_rag_initialized service = rag_resources_set service
    /\ rag_resources_set service
       = default true (enabled sample_settings)
         && Py.truthy (default "" (corpus_id sample_settings))
    /\ (rag_resources_set service = true ->
        _rag_resources service
        = Some [ {| rag_corpus :=
                      "projects/" +:+ fstr (project sample_settings)
                      +:+ "/locations/" +:+ fstr (location sample_settings)
                      +:+ "/ragCorpora/" +:+ fstr (corpus_id sample_settings) |} ]).
Proof.
  apply (started_service_has_model_and_corpus sample_platform sample_settings
           ∅ None None (fun _ _ _ _ => inr None)).
  reflexivity.
Defined.

(** The turn a chat handler stores is what the next conversation
    context ends with, whatever the reply was: with a window that is
    not negative, the context built from the updated session ends with
    the user line and the assistant line of that turn. *)
Theorem stored_turn_ends_the_next_context
    (self : VertexRAGService) (env : Env) (request : ChatRequest)
    (reply : string) (session : Session) :
  0 <= max_history_length self ->
  exists before,
    _build_conversation_context self (updated env request reply session)
    = Py.join blank_line
        (before ++ [ "User: " +:+ message request;
                     "Assistant: " +:+ reply ]).
Proof.
  intros Hmax. unfold _build_conversation_context. cbv zeta.
  cbn [updated messages summary].
  assert (Hwin : exists w,
             Py.list_slice_from (messages session ++ [turn_of env request reply])
               (- max_history_length self)
             = w ++ [turn_of env request reply]).
  { destruct (Z.eq_dec (max_history_length self) 0) as [->|Hne].
    - rewrite slice_from_zero. eauto.
    - rewrite slice_from_minus by lia.
      rewrite length_app. cbn [length].
      rewrite drop_app_le by lia. eauto. }
  destruct Hwin as (w & ->).
  assert (Hne : Py.nonempty (w ++ [turn_of env request reply]) = true)
    by now destruct w.
  rewrite Hne. unfold turn_lines. rewrite flat_map_app. cbn [flat_map app].
  cbn [turn_of user assistant].
  eexists (_ ++ "Recent conversation:" :: flat_map _ w).
  rewrite <- app_assoc. reflexivity.
Qed.

Lemma stored_turn_ends_the_next_context_witness :
  exists before,
    _build_conversation_context digest_service
      (updated sample_env (sample_request (Some "s"))
         (error_generating "provider unavailable")
         (sample_session 2 [sample_turn "1"; sample_turn "2"] "old"))
    = Py.join blank_line
        (before ++ [ "User: " +:+ message (sample_request (Some "s"));
                     "Assistant: " +:+ error_generating "provider unavailable" ]).
Proof.
  apply (stored_turn_ends_the_next_context digest_service sample_env
           (sample_request (Some "s"))
           (error_generating "provider unavailable")
           (sample_session 2 [sample_turn "1"; sample_turn "2"] "old")).
  vm_compute. discriminate.
Defined.

(** ** Reading a session, and a stream without text *)

(** GET /sessions/{id} lists the last ten turns the session holds, all
    of them when it holds fewer, and reports the full message count
    next to them. *)
Theorem session_view_lists_the_last_ten
    (id : string) (chat_sessions : gmap string Session) (session : Session) :
  chat_sessions !! id = Some session ->
  exists v,
    get_session id chat_sessions = Http200 v
    /\ view_messages v
       = drop (length (messages session) - 10) (messages session)
    /\ (length (view_messages v)
        = Nat.min 10 (length (messages session)))%nat
    /\ view_message_count v = message_count session
    /\ view_summary v = summary session.
Proof.
  intros Hs. unfold get_session. rewrite Hs. eexists.
  split; [reflexivity|]. cbn [view_messages view_message_count view_summary].
  rewrite (slice_from_minus _ 10) by lia.
  change (Z.to_nat 10) with 10%nat.
  repeat split. rewrite length_drop. lia.
Qed.

Lemma session_view_lists_the_last_ten_witness :
  exists v,
    get_session "s" (sample_store 12) = Http200 v
    /\ view_messages v
       = drop (length (messages
                         (sample_session 12
                            (map (fun i => sample_turn
                                             (String (ascii_of_nat (48 + i)) ""))
                               (seq 1 12)) "old")) - 10)
           (messages
              (sample_session 12
                 (map (fun i => sample_turn (String (ascii_of_nat (48 + i)) ""))
                    (seq 1 12)) "old"))
    /\ (length (view_messages v)
        = Nat.min 10
            (length (messages
                       (sample_session 12
                          (map (fun i => sample_turn
                                           (String (ascii_of_nat (48 + i)) ""))
                             (seq 1 12)) "old"))))%nat
    /\ view_message_count v
       = message_count
           (sample_session 12
              (map (fun i => sample_turn (String (ascii_of_nat (48 + i)) ""))
                 (seq 1 12)) "old")
    /\ view_summary v
       = summary
           (sample_session 12
              (map (fun i => sample_turn (String (ascii_of_nat (48 + i)) ""))
                 (seq 1 12)) "old").
Proof.
  apply (session_view_lists_the_last_ten "s" (sample_store 12)).
  reflexivity.
Defined.

(** A stream that ends without any non-empty increment is answered
    with the metadata and the done frame only; the metadata reports an
    empty context even when a context was retrieved for the prompt,
    and the turn is stored with an empty assistant text. *)
Theorem empty_stream_reports_no_context
    (service : VertexRAGService) (model : GenerativeModel) (env : Env)
    (request : ChatRequest) (chat_sessions : gmap string Session)
    (chunks : list Chunk) :
  _model service = Some model ->
  generate_content_stream model
    (chat_prompt service (message request) (use_rag request)
       (session_of env request chat_sessions)).1 = inr (chunks, None) ->
  List.filter Py.truthy (map increment_text chunks) = [] ->
  summarize_threshold service <> 0
  \/ message_count (session_of env request chat_sessions) <= 0 ->
  exists session',
    result (chat_stream_endpoint (Some service) env request chat_sessions)
    = Http200
        [ MetadataFrame (Py.or_else (session_id request) (uuid4 env))
            (message_count (session_of env request chat_sessions) + 1)
            (Some "");
          DoneFrame ]
    /\ store (chat_stream_endpoint (Some service) env request chat_sessions)
         !! Py.or_else (session_id request) (uuid4 env) = Some session'
    /\ last (messages session') = Some (turn_of env request "").
Proof.
  intros Hmodel Hgen Hnone Hcheck.
  destruct (should_summarize_defined _ _ Hcheck) as (due & Hdue).
  destruct (chat_with_history_stream_yields service model (message request)
              (use_rag request) (session_of env request chat_sessions)
              chunks due Hmodel Hgen Hdue) as (s1 & l & Hrun & Hy).
  destruct (chat_stream_endpoint_run service env request chat_sessions)
    as (s1' & l' & Hrun' & Hres & Hstore).
  destruct (chat_with_history_stream_keeps service (message request)
              (use_rag request) (session_of env request chat_sessions))
    as (s1'' & l'' & Hrun'' & Hcount & _).
  rewrite Hrun in Hrun', Hrun''.
  injection Hrun' as <- <-. injection Hrun'' as <- <-.
  rewrite Hnone in Hy. cbn [map] in Hy.
  rewrite Hy in Hres, Hstore. cbn [map app first_context] in Hres.
  rewrite Hcount in Hres.
  eexists. split; [exact Hres|].
  rewrite Hstore, lookup_insert_eq. split; [reflexivity|].
  cbn [updated messages]. apply last_snoc.
Qed.

Lemma empty_stream_reports_no_context_witness :
  exists session',
    result (chat_stream_endpoint
              (Some (sample_rag_service (sample_model "hi" (inr "digest") [""])
                       sample_found))
              sample_env (sample_request (Some "s")) (sample_store 2))
    = Http200
        [ MetadataFrame "s"
            (message_count
               (session_of sample_env (sample_request (Some "s"))
                  (sample_store 2)) + 1)
            (Some "");
          DoneFrame ]
    /\ store (chat_stream_endpoint
                (Some (sample_rag_service
                         (sample_model "hi" (inr "digest") [""]) sample_found))
                sample_env (sample_request (Some "s")) (sample_store 2))
         !! "s" = Some session'
    /\ last (messages session')
       = Some (turn_of sample_env (sample_request (Some "s")) "").
Proof.
  apply (empty_stream_reports_no_context
           (sample_rag_service (sample_model "hi" (inr "digest") [""])
              sample_found)
           (sample_model "hi" (inr "digest") [""]) sample_env
           (sample_request (Some "s")) (sample_store 2)
           [text_chunk ""]).
  - reflexivity.
  - reflexivity.
  - reflexivity.
  - left. vm_compute. discriminate.
Defined.
